(** * BlackRoad Deal Flow: the deal lifecycle and the scoring engine

    A shallow embedding of [deal_flow.py].  The SQLite database is a record of
    four tables, each a list of rows in insertion (rowid) order.  An
    operation opens a connection on the database it is given, runs its
    statements inside the connection's transaction, and leaves behind what
    was committed; it returns its value or the exception it raises, paired
    with the database left on disk.  The values Python draws from the
    environment ([uuid.uuid4()], [datetime.utcnow()]) are explicit
    arguments.  Python's [float] is IEEE 754 binary64, computed here with
    the specification floats of the Standard Library. *)

From Stdlib Require Import ZArith List String Ascii Bool Lia.
From Stdlib Require Import Floats.SpecFloat.
From Stdlib Require Import Permutation Sorted.
Import ListNotations.

Local Open Scope string_scope.
Local Open Scope list_scope.
Local Open Scope Z_scope.

(** ** Exceptions and results *)

Inductive exn : Type :=
| ValueError (msg : string)
| ZeroDivisionError (msg : string)
| OverflowError (msg : string)
| IntegrityError (msg : string).

Inductive result (A : Type) : Type :=
| Ok (a : A)
| Raise (e : exn).

Arguments Ok {A} a.
Arguments Raise {A} e.

Definition bind {A B : Type} (r : result A) (k : A -> result B) : result B :=
  match r with
  | Ok a => k a
  | Raise e => Raise e
  end.

Notation "'let*' x ':=' r 'in' k" := (bind r (fun x => k))
  (at level 61, x name, r at next level, right associativity).

(** ** Python floats: IEEE 754 binary64, on the specification floats of the
    Standard Library *)

Module PyFloat.

Definition prec : Z := 53.
Definition emax : Z := 1024.

Definition float : Type := spec_float.

Definition mul : float -> float -> float := SFmul prec emax.
Definition div : float -> float -> float := SFdiv prec emax.

(** [float(z)] for an integer literal of the source ([5.0], [80], [0.0]). *)
Definition of_int (z : Z) : float := binary_normalize prec emax z 0 false.

(** An integer seen as the exact number it is, before any rounding. *)
Definition exact (z : Z) : float :=
  match z with
  | Z0 => S754_zero false
  | Zpos p => S754_finite false p 0
  | Zneg p => S754_finite true p 0
  end.

Definition is_nan (x : float) : bool :=
  match x with S754_nan => true | _ => false end.

Definition is_infinity (x : float) : bool :=
  match x with S754_infinity _ => true | _ => false end.

(** [x == 0] *)
Definition eq_zero (x : float) : bool := SFeqb x (S754_zero false).

(** [a / b] on two [int]s: the correctly rounded quotient of the exact
    integers. *)
Definition int_truediv (a b : Z) : result float :=
  if b =? 0 then Raise (ZeroDivisionError "division by zero")
  else
    let q := div (exact a) (exact b) in
    if is_infinity q
    then Raise (OverflowError "integer division result too large for a float")
    else Ok q.

(** [x / y] on two [float]s. *)
Definition truediv (x y : float) : result float :=
  if eq_zero y then Raise (ZeroDivisionError "float division by zero")
  else Ok (div x y).

(** [int(x)]: truncation toward zero. *)
Definition to_int (x : float) : result Z :=
  match x with
  | S754_zero _ => Ok 0
  | S754_finite s m e => Ok (cond_Zopp s (Z.shiftl (Zpos m) e))
  | S754_infinity _ =>
      Raise (OverflowError "cannot convert float infinity to integer")
  | S754_nan => Raise (ValueError "cannot convert float NaN to integer")
  end.

(** The floor of the number a float stands for, as the specification
    words [base_score]. *)
Definition floor (x : float) : option Z :=
  match x with
  | S754_zero _ => Some 0
  | S754_finite s m e => Some (Z.shiftl (cond_Zopp s (Zpos m)) e)
  | _ => None
  end.

(** A non-negative finite float below [2 ^ B]. *)
Definition below (B : Z) (x : float) : Prop :=
  match x with
  | S754_zero false => True
  | S754_finite false m e => Zpos (digits2_pos m) + e <= B
  | _ => False
  end.

(** The integer nearest to [a / b] for [b > 0], ties to the even one. *)
Definition div_half_even (a b : Z) : Z :=
  let (q, r) := Z.div_eucl a b in
  match 2 * r ?= b with
  | Lt => q
  | Gt => q + 1
  | Eq => if Z.even q then q else q + 1
  end.

(** [round(x, ndigits)] for [ndigits >= 0]: the decimal with [ndigits]
    fractional digits nearest to the exact value of [x] (ties to even),
    then the float nearest to that decimal.  A float with a non-negative
    exponent is an integer and rounds to itself, as do zeros, infinities
    and NaN. *)
Definition round (x : float) (ndigits : nat) : float :=
  match x with
  | S754_finite s m e =>
      if 0 <=? e then x
      else
        let scale := Z.to_pos (10 ^ Z.of_nat ndigits) in
        match div_half_even (Zpos (m * scale)) (2 ^ (- e)) with
        | Zpos q => div (S754_finite s q 0) (S754_finite false scale 0)
        | _ => S754_zero s
        end
  | _ => x
  end.

End PyFloat.

(** ** Enumerations ([str]-valued [Enum] classes) *)

Inductive DealStage : Type :=
| AWARENESS | FIRST_MEETING | DEEP_DIVE | TERM_SHEET
| DUE_DILIGENCE | CLOSING | PORTFOLIO | PASSED.

Definition DealStage_value (s : DealStage) : string :=
  match s with
  | AWARENESS => "awareness"
  | FIRST_MEETING => "first_meeting"
  | DEEP_DIVE => "deep_dive"
  | TERM_SHEET => "term_sheet"
  | DUE_DILIGENCE => "due_diligence"
  | CLOSING => "closing"
  | PORTFOLIO => "portfolio"
  | PASSED => "passed"
  end.

Inductive DDCategory : Type :=
| LEGAL | FINANCIAL | TECHNICAL | MARKET | TEAM.

Definition DDCategory_value (c : DDCategory) : string :=
  match c with
  | LEGAL => "legal"
  | FINANCIAL => "financial"
  | TECHNICAL => "technical"
  | MARKET => "market"
  | TEAM => "team"
  end.

Inductive DDStatus : Type :=
| NOT_STARTED | IN_PROGRESS | COMPLETE | BLOCKED.

Definition DDStatus_value (s : DDStatus) : string :=
  match s with
  | NOT_STARTED => "not_started"
  | IN_PROGRESS => "in_progress"
  | COMPLETE => "complete"
  | BLOCKED => "blocked"
  end.

Definition STAGE_ORDER : list DealStage :=
  [AWARENESS; FIRST_MEETING; DEEP_DIVE; TERM_SHEET; DUE_DILIGENCE; CLOSING;
   PORTFOLIO].

(** An argument annotated with an enumeration that the code also accepts as
    a plain string ([x.value if isinstance(x, E) else x]). *)
Inductive enum_or_str (E : Type) : Type :=
| Member (e : E)
| Plain (s : string).

Arguments Member {E} e.
Arguments Plain {E} s.

Definition value_of {E : Type} (value : E -> string) (x : enum_or_str E)
  : string :=
  match x with
  | Member e => value e
  | Plain s => s
  end.

(** ** The dataclasses *)

Module Deal.
Record t : Type := mk {
  company : string;
  sector : string;
  raise_amount : PyFloat.float;
  valuation : PyFloat.float;
  stage : DealStage;
  lead_investor : option string;
  co_investors : list string;
  score : Z;
  notes : string;
  assigned_to : option string;
  deal_id : string;
  created_at : string;
  updated_at : string;
  website : string;
  founder : string;
  contact_email : string
}.

(** The [multiple_on_capital] property. *)
Definition multiple_on_capital (self : t) : result PyFloat.float :=
  if PyFloat.eq_zero (raise_amount self) then Ok (PyFloat.of_int 0)
  else
    let* q := PyFloat.truediv (valuation self) (raise_amount self) in
    Ok (PyFloat.round q 2).
End Deal.

Module DueDiligence.
Record t : Type := mk {
  deal_id : string;
  category : enum_or_str DDCategory;
  status : DDStatus;
  findings : list string;
  red_flags : list string;
  rating : Z;
  reviewer : string;
  dd_id : string;
  created_at : string;
  updated_at : string;
  notes : string
}.
End DueDiligence.

(** ** The tables of [init_db]

    A [TEXT] column holding [json.dumps] of a list of strings is kept as
    that list: [json.loads] gives it back. *)

Module deals.
Record row : Type := mk {
  deal_id : string;
  company : string;
  sector : string;
  raise_amount : PyFloat.float;
  valuation : PyFloat.float;
  stage : string;
  lead_investor : option string;
  co_investors : list string;
  score : Z;
  notes : string;
  assigned_to : option string;
  website : string;
  founder : string;
  contact_email : string;
  created_at : string;
  updated_at : string
}.
End deals.

Module due_diligence.
Record row : Type := mk {
  dd_id : string;
  deal_id : string;
  category : string;
  status : string;
  findings : list string;
  red_flags : list string;
  rating : Z;
  reviewer : string;
  notes : string;
  created_at : string;
  updated_at : string
}.
End due_diligence.

Module stage_changes.
Record row : Type := mk {
  change_id : string;
  deal_id : string;
  old_stage : string;
  new_stage : string;
  changed_by : string;
  reason : string;
  changed_at : string
}.
End stage_changes.

Module interactions.
Record row : Type := mk {
  interaction_id : string;
  deal_id : string;
  type : string;
  description : string;
  participants : list string;
  date : string;
  created_at : string
}.
End interactions.

(** A database file on which [init_db] has run: the four tables exist. *)
Record DB : Type := mkDB {
  t_deals : list deals.row;
  t_due_diligence : list due_diligence.row;
  t_stage_changes : list stage_changes.row;
  t_interactions : list interactions.row
}.

(** The database right after [init_db()] on a new file. *)
Definition empty_db : DB := mkDB [] [] [] [].

(** [CREATE TABLE IF NOT EXISTS]: nothing changes once the tables exist. *)
Definition init_db (db : DB) : DB := db.

(** ** The SQL statements the operations run

    [get_connection] turns [PRAGMA foreign_keys] on, so an insert into a
    child table checks that the deal it names exists.  A NaN bound to a
    [REAL] column is stored as NULL and trips [NOT NULL]. *)

Definition has_deal (db : DB) (deal_id : string) : bool :=
  existsb (fun r => (deals.deal_id r =? deal_id)%string) (t_deals db).

(** [SELECT * FROM deals WHERE deal_id=?] followed by [fetchone()]. *)
Definition select_deal (db : DB) (deal_id : string) : option deals.row :=
  find (fun r => (deals.deal_id r =? deal_id)%string) (t_deals db).

(** [SELECT * FROM due_diligence WHERE deal_id=?] followed by [fetchall()]. *)
Definition select_due_diligence (db : DB) (deal_id : string)
  : list due_diligence.row :=
  filter (fun d => (due_diligence.deal_id d =? deal_id)%string)
         (t_due_diligence db).

Definition select_stage_changes (db : DB) (deal_id : string)
  : list stage_changes.row :=
  filter (fun c => (stage_changes.deal_id c =? deal_id)%string)
         (t_stage_changes db).

Definition select_interactions (db : DB) (deal_id : string)
  : list interactions.row :=
  filter (fun i => (interactions.deal_id i =? deal_id)%string)
         (t_interactions db).

(** What a [REAL] column gives back for a float bound to it.  SQLite keeps
    a float whose value is an integer strictly between -2^63 and 2^63 as
    that integer and converts it back on reading, which returns the same
    float except for -0.0, read back as 0.0; every other float is kept as it
    is. *)
Definition real_affinity (x : PyFloat.float) : PyFloat.float :=
  match x with
  | S754_zero _ => S754_zero false
  | _ => x
  end.

(** The row of [deals] as the table holds it: the two [REAL] columns under
    their affinity, the other columns as bound. *)
Definition stored_deal (r : deals.row) : deals.row :=
  deals.mk (deals.deal_id r) (deals.company r) (deals.sector r)
    (real_affinity (deals.raise_amount r)) (real_affinity (deals.valuation r))
    (deals.stage r) (deals.lead_investor r) (deals.co_investors r)
    (deals.score r) (deals.notes r) (deals.assigned_to r) (deals.website r)
    (deals.founder r) (deals.contact_email r) (deals.created_at r)
    (deals.updated_at r).

Definition insert_deal (r : deals.row) (db : DB) : result DB :=
  if PyFloat.is_nan (deals.raise_amount r) then
    Raise (IntegrityError "NOT NULL constraint failed: deals.raise_amount")
  else if PyFloat.is_nan (deals.valuation r) then
    Raise (IntegrityError "NOT NULL constraint failed: deals.valuation")
  else if has_deal db (deals.deal_id r) then
    Raise (IntegrityError "UNIQUE constraint failed: deals.deal_id")
  else
    Ok (mkDB (t_deals db ++ [stored_deal r]) (t_due_diligence db)
             (t_stage_changes db) (t_interactions db)).

Definition insert_due_diligence (r : due_diligence.row) (db : DB)
  : result DB :=
  if existsb (fun d => (due_diligence.dd_id d =? due_diligence.dd_id r)%string)
             (t_due_diligence db) then
    Raise (IntegrityError "UNIQUE constraint failed: due_diligence.dd_id")
  else if negb (has_deal db (due_diligence.deal_id r)) then
    Raise (IntegrityError "FOREIGN KEY constraint failed")
  else
    Ok (mkDB (t_deals db) (t_due_diligence db ++ [r]) (t_stage_changes db)
             (t_interactions db)).

Definition insert_stage_change (r : stage_changes.row) (db : DB)
  : result DB :=
  if existsb
       (fun c => (stage_changes.change_id c =? stage_changes.change_id r)%string)
       (t_stage_changes db) then
    Raise (IntegrityError "UNIQUE constraint failed: stage_changes.change_id")
  else if negb (has_deal db (stage_changes.deal_id r)) then
    Raise (IntegrityError "FOREIGN KEY constraint failed")
  else
    Ok (mkDB (t_deals db) (t_due_diligence db) (t_stage_changes db ++ [r])
             (t_interactions db)).

Definition insert_interaction (r : interactions.row) (db : DB) : result DB :=
  if existsb
       (fun i =>
          (interactions.interaction_id i =? interactions.interaction_id r)%string)
       (t_interactions db) then
    Raise (IntegrityError "UNIQUE constraint failed: interactions.interaction_id")
  else if negb (has_deal db (interactions.deal_id r)) then
    Raise (IntegrityError "FOREIGN KEY constraint failed")
  else
    Ok (mkDB (t_deals db) (t_due_diligence db) (t_stage_changes db)
             (t_interactions db ++ [r])).

(** [UPDATE deals SET ... WHERE deal_id=?] *)
Definition update_deals (deal_id : string) (set : deals.row -> deals.row)
  (db : DB) : DB :=
  mkDB (map (fun r => if (deals.deal_id r =? deal_id)%string then set r else r)
            (t_deals db))
       (t_due_diligence db) (t_stage_changes db) (t_interactions db).

Definition set_stage (stage updated_at : string) (r : deals.row) : deals.row :=
  deals.mk (deals.deal_id r) (deals.company r) (deals.sector r)
    (deals.raise_amount r) (deals.valuation r) stage (deals.lead_investor r)
    (deals.co_investors r) (deals.score r) (deals.notes r)
    (deals.assigned_to r) (deals.website r) (deals.founder r)
    (deals.contact_email r) (deals.created_at r) updated_at.

Definition set_score (score : Z) (updated_at : string) (r : deals.row)
  : deals.row :=
  deals.mk (deals.deal_id r) (deals.company r) (deals.sector r)
    (deals.raise_amount r) (deals.valuation r) (deals.stage r)
    (deals.lead_investor r) (deals.co_investors r) score (deals.notes r)
    (deals.assigned_to r) (deals.website r) (deals.founder r)
    (deals.contact_email r) (deals.created_at r) updated_at.

(** [SET stage=?, updated_at=?, notes=notes||?] *)
Definition set_passed (stage updated_at suffix : string) (r : deals.row)
  : deals.row :=
  deals.mk (deals.deal_id r) (deals.company r) (deals.sector r)
    (deals.raise_amount r) (deals.valuation r) stage (deals.lead_investor r)
    (deals.co_investors r) (deals.score r) (deals.notes r ++ suffix)%string
    (deals.assigned_to r) (deals.website r) (deals.founder r)
    (deals.contact_email r) (deals.created_at r) updated_at.

(** [ORDER BY]: insertion of each row before the first one that does not
    precede it. *)
Fixpoint insert_by {A : Type} (le : A -> A -> bool) (x : A) (l : list A)
  : list A :=
  match l with
  | [] => [x]
  | y :: l' => if le x y then x :: l else y :: insert_by le x l'
  end.

Definition order_by {A : Type} (le : A -> A -> bool) (l : list A) : list A :=
  fold_right (insert_by le) [] l.

Definition not_found (deal_id : string) : exn :=
  ValueError ("Deal " ++ deal_id ++ " not found")%string.

(** ** Connections and transactions

    A connection sees its own uncommitted writes ([view]); [disk] is what
    [commit] has published.  A statement that raises leaves the connection
    as it was, and the exception abandons it uncommitted. *)

Record conn : Type := mk_conn {
  disk : DB;
  view : DB
}.

Definition get_connection (db : DB) : conn := mk_conn db db.

Definition M (A : Type) : Type := conn -> result A * conn.

Definition ret {A : Type} (a : A) : M A := fun c => (Ok a, c).

Definition raise {A : Type} (e : exn) : M A := fun c => (Raise e, c).

Definition bindM {A B : Type} (m : M A) (k : A -> M B) : M B :=
  fun c =>
    match m c with
    | (Ok a, c') => k a c'
    | (Raise e, c') => (Raise e, c')
    end.

Notation "x <- m ;; k" := (bindM m (fun x => k))
  (at level 61, m at next level, right associativity).
Notation "m ;; k" := (bindM m (fun _ => k))
  (at level 61, right associativity).

(** A pure computation that may raise. *)
Definition lift {A : Type} (r : result A) : M A := fun c => (r, c).

(** [conn.execute("SELECT ...")] *)
Definition query {A : Type} (q : DB -> A) : M A :=
  fun c => (Ok (q (view c)), c).

(** [conn.execute("INSERT ...")] *)
Definition execute (stmt : DB -> result DB) : M unit :=
  fun c =>
    match stmt (view c) with
    | Ok db => (Ok tt, mk_conn (disk c) db)
    | Raise e => (Raise e, c)
    end.

(** [conn.execute("UPDATE ...")] *)
Definition execute_update (stmt : DB -> DB) : M unit :=
  fun c => (Ok tt, mk_conn (disk c) (stmt (view c))).

Definition commit : M unit :=
  fun c => (Ok tt, mk_conn (view c) (view c)).

Definition close : M unit :=
  fun c => (Ok tt, mk_conn (disk c) (disk c)).

(** Run the body of an operation on a new connection: its outcome and the
    database left on disk. *)
Definition run {A : Type} (body : M A) (db : DB) : result A * DB :=
  let (r, c) := body (get_connection db) in (r, disk c).

(** ** The operations *)

Definition add_deal (company sector : string)
  (raise_amount valuation : PyFloat.float)
  (lead_investor assigned_to : option string)
  (notes founder contact_email website : string)
  (uuid4 utcnow1 utcnow2 : string) (db : DB) : result Deal.t * DB :=
  let db := init_db db in
  let deal :=
    Deal.mk company sector raise_amount valuation AWARENESS lead_investor []
      0 notes assigned_to uuid4 utcnow1 utcnow2 website founder contact_email
  in
  run (execute
         (insert_deal
            (deals.mk (Deal.deal_id deal) company sector raise_amount
               valuation (DealStage_value (Deal.stage deal)) lead_investor []
               0 notes assigned_to website founder contact_email
               (Deal.created_at deal) (Deal.updated_at deal))) ;;
       commit ;;
       close ;;
       ret deal) db.

Definition advance_stage (deal_id : string) (new_stage : enum_or_str DealStage)
  (changed_by reason : string) (utcnow uuid4 : string) (db : DB)
  : result bool * DB :=
  run (row <- query (fun db => select_deal db deal_id) ;;
       match row with
       | None => close ;; raise (not_found deal_id)
       | Some row =>
           let old_stage := deals.stage row in
           let now := utcnow in
           let new_stage_val := value_of DealStage_value new_stage in
           execute_update
             (update_deals deal_id (set_stage new_stage_val now)) ;;
           execute
             (insert_stage_change
                (stage_changes.mk uuid4 deal_id old_stage new_stage_val
                   changed_by reason now)) ;;
           commit ;;
           close ;;
           ret true
       end) db.

(** [red_flags or []] *)
Definition or_empty {A : Type} (l : option (list A)) : list A :=
  match l with
  | Some l => l
  | None => []
  end.

Definition add_due_diligence (deal_id : string)
  (category : enum_or_str DDCategory) (findings : list string)
  (red_flags : option (list string)) (rating : Z) (reviewer notes : string)
  (uuid4 utcnow1 utcnow2 : string) (db : DB)
  : result DueDiligence.t * DB :=
  run (row <- query (fun db => select_deal db deal_id) ;;
       match row with
       | None => close ;; raise (not_found deal_id)
       | Some _ =>
           if negb ((1 <=? rating) && (rating <=? 5)) then
             close ;; raise (ValueError "Rating must be between 1 and 5")
           else
             let dd :=
               DueDiligence.mk deal_id category COMPLETE findings
                 (or_empty red_flags) rating reviewer uuid4 utcnow1 utcnow2
                 notes
             in
             execute
               (insert_due_diligence
                  (due_diligence.mk (DueDiligence.dd_id dd) deal_id
                     (value_of DDCategory_value category)
                     (DDStatus_value COMPLETE) findings (or_empty red_flags)
                     rating reviewer notes (DueDiligence.created_at dd)
                     (DueDiligence.updated_at dd))) ;;
             commit ;;
             close ;;
             ret dd
       end) db.

(** [sum(...)] over integers. *)
Definition sum (l : list Z) : Z := fold_left Z.add l 0.

(** [len(set(...))] over strings. *)
Definition count_distinct (l : list string) : Z :=
  Z.of_nat (List.length (nodup string_dec l)).

Definition total_rating (dd_items : list due_diligence.row) : Z :=
  sum (map due_diligence.rating
           (filter (fun d => 0 <? due_diligence.rating d) dd_items)).

(** [total_rating / len(dd_items) if dd_items else 0] *)
Definition avg_rating (dd_items : list due_diligence.row)
  : result PyFloat.float :=
  match dd_items with
  | _ :: _ =>
      PyFloat.int_truediv (total_rating dd_items)
                          (Z.of_nat (List.length dd_items))
  | [] => Ok (PyFloat.of_int 0)
  end.

(** [int((avg_rating / 5.0) * 80)] *)
Definition base_score (dd_items : list due_diligence.row) : result Z :=
  let* avg := avg_rating dd_items in
  let* q := PyFloat.truediv avg (PyFloat.of_int 5) in
  PyFloat.to_int (PyFloat.mul q (PyFloat.of_int 80)).

Definition total_red_flags (dd_items : list due_diligence.row) : Z :=
  sum (map (fun d => Z.of_nat (List.length (due_diligence.red_flags d)))
           dd_items).

Definition penalty (dd_items : list due_diligence.row) : Z :=
  Z.min (total_red_flags dd_items * 5) 30.

Definition categories_covered (dd_items : list due_diligence.row) : Z :=
  count_distinct (map due_diligence.category dd_items).

Definition coverage_bonus (dd_items : list due_diligence.row) : Z :=
  Z.min (categories_covered dd_items * 4) 20.

Definition score_deal (deal_id : string) (utcnow : string) (db : DB)
  : result Z * DB :=
  run (row <- query (fun db => select_deal db deal_id) ;;
       match row with
       | None => close ;; raise (not_found deal_id)
       | Some _ =>
           dd_items <- query (fun db => select_due_diligence db deal_id) ;;
           match dd_items with
           | [] => close ;; ret 0
           | _ :: _ =>
               base_score <- lift (base_score dd_items) ;;
               let score :=
                 Z.max 0 (Z.min 100 (base_score - penalty dd_items
                                     + coverage_bonus dd_items)) in
               let now := utcnow in
               execute_update (update_deals deal_id (set_score score now)) ;;
               commit ;;
               close ;;
               ret score
           end
       end) db.

Definition newline : string := String (ascii_of_nat 10) EmptyString.

Definition pass_deal (deal_id reason passed_by : string)
  (utcnow uuid4 : string) (db : DB) : result bool * DB :=
  run (row <- query (fun db => select_deal db deal_id) ;;
       match row with
       | None => close ;; raise (not_found deal_id)
       | Some row =>
           let old_stage := deals.stage row in
           let now := utcnow in
           execute_update
             (update_deals deal_id
                (set_passed (DealStage_value PASSED) now
                            (newline ++ "[PASSED] " ++ reason)%string)) ;;
           execute
             (insert_stage_change
                (stage_changes.mk uuid4 deal_id old_stage
                   (DealStage_value PASSED) passed_by reason now)) ;;
           commit ;;
           close ;;
           ret true
       end) db.

(** [date or datetime.utcnow().isoformat()[:10]]: [None] and the empty
    string both give the default. *)
Definition date_or (date : option string) (utcnow : string) : string :=
  match date with
  | Some (String c d) => String c d
  | _ => substring 0 10 utcnow
  end.

Definition log_interaction (deal_id interaction_type description : string)
  (participants : option (list string)) (date : option string)
  (uuid4 utcnow1 utcnow2 : string) (db : DB) : result string * DB :=
  let interaction_id := uuid4 in
  run (execute
         (insert_interaction
            (interactions.mk interaction_id deal_id interaction_type
               description (or_empty participants) (date_or date utcnow1)
               utcnow2)) ;;
       commit ;;
       close ;;
       ret interaction_id) db.

Record deal_details : Type := mk_details {
  deal : deals.row;
  due_diligence_items : list due_diligence.row;
  stage_history : list stage_changes.row;
  interaction_items : list interactions.row
}.

Definition get_deal_details (deal_id : string) (db : DB)
  : result deal_details * DB :=
  run (row <- query (fun db => select_deal db deal_id) ;;
       match row with
       | None => close ;; raise (not_found deal_id)
       | Some deal =>
           dd_items <-
             query (fun db =>
               order_by (fun a b => String.leb (due_diligence.created_at a)
                                               (due_diligence.created_at b))
                        (select_due_diligence db deal_id)) ;;
           stage_hist <-
             query (fun db =>
               order_by (fun a b => String.leb (stage_changes.changed_at a)
                                               (stage_changes.changed_at b))
                        (select_stage_changes db deal_id)) ;;
           interactions <-
             query (fun db =>
               order_by (fun a b => String.leb (interactions.date b)
                                               (interactions.date a))
                        (select_interactions db deal_id)) ;;
           close ;;
           ret (mk_details deal dd_items stage_hist interactions)
       end) db.

(** ** Sequences of calls

    The databases the operations can build, starting from the empty one. *)

Inductive call : Type :=
| Call_add_deal (company sector : string)
    (raise_amount valuation : PyFloat.float)
    (lead_investor assigned_to : option string)
    (notes founder contact_email website : string)
    (uuid4 utcnow1 utcnow2 : string)
| Call_advance_stage (deal_id : string) (new_stage : enum_or_str DealStage)
    (changed_by reason : string) (utcnow uuid4 : string)
| Call_add_due_diligence (deal_id : string)
    (category : enum_or_str DDCategory) (findings : list string)
    (red_flags : option (list string)) (rating : Z) (reviewer notes : string)
    (uuid4 utcnow1 utcnow2 : string)
| Call_score_deal (deal_id : string) (utcnow : string)
| Call_pass_deal (deal_id reason passed_by : string) (utcnow uuid4 : string)
| Call_log_interaction (deal_id interaction_type description : string)
    (participants : option (list string)) (date : option string)
    (uuid4 utcnow1 utcnow2 : string)
| Call_get_deal_details (deal_id : string).

(** The database a call leaves on disk, whether it returns or raises. *)
Definition perform (c : call) (db : DB) : DB :=
  match c with
  | Call_add_deal company sector raise_amount valuation lead_investor
      assigned_to notes founder contact_email website uuid4 utcnow1 utcnow2 =>
      snd (add_deal company sector raise_amount valuation lead_investor
             assigned_to notes founder contact_email website uuid4 utcnow1
             utcnow2 db)
  | Call_advance_stage deal_id new_stage changed_by reason utcnow uuid4 =>
      snd (advance_stage deal_id new_stage changed_by reason utcnow uuid4 db)
  | Call_add_due_diligence deal_id category findings red_flags rating
      reviewer notes uuid4 utcnow1 utcnow2 =>
      snd (add_due_diligence deal_id category findings red_flags rating
             reviewer notes uuid4 utcnow1 utcnow2 db)
  | Call_score_deal deal_id utcnow => snd (score_deal deal_id utcnow db)
  | Call_pass_deal deal_id reason passed_by utcnow uuid4 =>
      snd (pass_deal deal_id reason passed_by utcnow uuid4 db)
  | Call_log_interaction deal_id interaction_type description participants
      date uuid4 utcnow1 utcnow2 =>
      snd (log_interaction deal_id interaction_type description participants
             date uuid4 utcnow1 utcnow2 db)
  | Call_get_deal_details deal_id => snd (get_deal_details deal_id db)
  end.

Inductive reachable : DB -> Prop :=
| reachable_init : reachable empty_db
| reachable_call (db : DB) (c : call) :
    reachable db -> reachable (perform c db).

(** The persisted score of a deal, if the deal exists. *)
Definition persisted_score (db : DB) (deal_id : string) : option Z :=
  option_map deals.score (select_deal db deal_id).

(** [s] ends with [suffix]. *)
Definition ends_with (s suffix : string) : Prop :=
  exists prefix : string, s = (prefix ++ suffix)%string.

(** What a successful stage write leaves behind: the deal rewritten by
    [set], one event appended, the other tables untouched. *)
Definition staged (deal_id : string) (set : deals.row -> deals.row)
  (event : stage_changes.row) (db : DB) : DB :=
  mkDB (t_deals (update_deals deal_id set db)) (t_due_diligence db)
       (t_stage_changes db ++ [event]) (t_interactions db).





(** [clamp(x, lo, hi)] as the specification words the last step of the
    score. *)
Definition clamp (x lo hi : Z) : Z :=
  if x <? lo then lo else if hi <? x then hi else x.

(** What a call other than [score_deal] can leave on disk. *)
Inductive writes_aside (db : DB) : DB -> Prop :=
| writes_nothing : writes_aside db db
| writes_deal (row : deals.row) :
    deals.score row = 0 ->
    has_deal db (deals.deal_id row) = false ->
    writes_aside db (mkDB (t_deals db ++ [row]) (t_due_diligence db)
                          (t_stage_changes db) (t_interactions db))
| writes_stage (deal_id : string) (set : deals.row -> deals.row)
    (event : stage_changes.row) :
    (forall r, deals.deal_id (set r) = deals.deal_id r) ->
    (forall r, deals.score (set r) = deals.score r) ->
    writes_aside db (staged deal_id set event db)
| writes_report (r : due_diligence.row) :
    1 <= due_diligence.rating r <= 5 ->
    writes_aside db (mkDB (t_deals db) (t_due_diligence db ++ [r])
                          (t_stage_changes db) (t_interactions db))
| writes_interaction (i : interactions.row) :
    writes_aside db (mkDB (t_deals db) (t_due_diligence db)
                          (t_stage_changes db) (t_interactions db ++ [i])).

(** What one call can leave on disk. *)
Inductive writes (db : DB) : DB -> Prop :=
| writes_other (db' : DB) : writes_aside db db' -> writes db db'
| writes_score (deal_id : string) (score : Z) (now : string) :
    0 <= score <= 100 ->
    select_due_diligence db deal_id <> [] ->
    writes db (update_deals deal_id (set_score score now) db).

(** A call that is not [score_deal]. *)
Definition not_score_deal (c : call) : Prop :=
  match c with
  | Call_score_deal _ _ => False
  | _ => True
  end.

(** The invariant of the databases the operations build: every persisted
    score is in [0,100] and is 0 for a deal without reports, and every
    report has a rating in [1,5]. *)
Definition inv (db : DB) : Prop :=
  (forall r, In r (t_deals db) ->
             0 <= deals.score r <= 100
             /\ (deals.score r <> 0 ->
                 select_due_diligence db (deals.deal_id r) <> []))
  /\ (forall d, In d (t_due_diligence db) ->
                1 <= due_diligence.rating d <= 5).

(** ** Listings and reports *)

(** A Python number: [sum] over no rows is the [int] 0, over floats a
    [float]. *)
Inductive number : Type :=
| Int (z : Z)
| Float (x : PyFloat.float).

(** [if stage:] in [list_deals]: [None] and the empty string add no
    condition to the query. *)
Definition filter_on (value : option string) (s : string) : bool :=
  match value with
  | Some (String c v) => (s =? String c v)%string
  | _ => true
  end.

(** [ORDER BY score DESC, created_at DESC] *)
Definition by_score_then_created (a b : deals.row) : bool :=
  (deals.score b <? deals.score a)
  || ((deals.score a =? deals.score b)
      && String.leb (deals.created_at b) (deals.created_at a)).

(** A Python [int] that [sqlite3] can bind as a parameter: one that fits
    SQLite's 64-bit signed INTEGER. *)
Definition fits_int64 (z : Z) : bool := (- 2 ^ 63 <=? z) && (z <? 2 ^ 63).

Definition list_deals (stage sector : option string) (min_score : Z)
  (db : DB) : result (list deals.row) * DB :=
  run (rows <-
         (if fits_int64 min_score then
            query (fun db =>
              order_by by_score_then_created
                (filter (fun r =>
                           (min_score <=? deals.score r)
                           && filter_on stage (deals.stage r)
                           && filter_on sector (deals.sector r))
                        (t_deals db)))
          else
            raise (OverflowError
                     "Python int too large to convert to SQLite INTEGER")) ;;
       close ;;
       ret rows) db.

(** The members of [DealStage] in the order [for stage in DealStage] visits
    them. *)
Definition DealStage_members : list DealStage :=
  [AWARENESS; FIRST_MEETING; DEEP_DIVE; TERM_SHEET; DUE_DILIGENCE; CLOSING;
   PORTFOLIO; PASSED].

Module stage_summary.
Record t : Type := mk {
  count : Z;
  total_raise : number;
  deals : list deals.row
}.
End stage_summary.

(** The dictionary [pipeline_report] returns.  [by_stage] has exactly the
    eight values of [DealStage] as keys, so it is a function on the
    members; its items come in the order of [DealStage_members]. *)
Module pipeline.
Record report : Type := mk {
  generated_at : string;
  total_deals : Z;
  active_pipeline : Z;
  portfolio_companies : Z;
  passed_deals : Z;
  total_pipeline_value : number;
  by_stage : DealStage -> stage_summary.t;
  top_scored : list deals.row
}.
End pipeline.

(** [len(...)] *)
Definition len {A : Type} (l : list A) : Z := Z.of_nat (List.length l).

(** [sorted(..., key=lambda x: x["score"], reverse=True)]: stable, highest
    score first. *)
Definition sorted_by_score_desc (l : list deals.row) : list deals.row :=
  order_by (fun a b => deals.score b <=? deals.score a) l.

Module sector_summary.
Record t : Type := mk {
  count : Z;
  avg_score : number;
  total_raise : PyFloat.float
}.
End sector_summary.

Section Aggregates.

(** [sum] over the [raise_amount] floats of some rows.  How the additions
    round depends on the Python version (left to right before 3.12,
    compensated since), so the summation is a parameter. *)
Variable sum_floats : list PyFloat.float -> number.

(** SQLite's [AVG] over an integer column and [SUM] over a [REAL] column,
    on a group that is not empty. *)
Variable sql_avg : list Z -> PyFloat.float.
Variable sql_sum : list PyFloat.float -> PyFloat.float.

Definition pipeline_report (utcnow : string) (db : DB)
  : result pipeline.report * DB :=
  run (deals <-
         query (fun db =>
           order_by (fun a b => String.leb (deals.created_at b)
                                           (deals.created_at a))
                    (t_deals db)) ;;
       close ;;
       let by_stage (stage : DealStage) :=
         let stage_deals :=
           filter (fun d => (deals.stage d =? DealStage_value stage)%string)
                  deals in
         stage_summary.mk (len stage_deals)
           (sum_floats (map deals.raise_amount stage_deals)) stage_deals in
       let total_pipeline_value :=
         sum_floats
           (map deals.raise_amount
              (filter (fun d => negb (deals.stage d
                                      =? DealStage_value PASSED)%string)
                      deals)) in
       let active_deals :=
         filter (fun d =>
                   negb ((deals.stage d =? DealStage_value PASSED)%string
                         || (deals.stage d
                             =? DealStage_value PORTFOLIO)%string))
                deals in
       let portfolio :=
         filter (fun d => (deals.stage d =? DealStage_value PORTFOLIO)%string)
                deals in
       ret (pipeline.mk utcnow (len deals) (len active_deals) (len portfolio)
              (stage_summary.count (by_stage PASSED)) total_pipeline_value
              by_stage
              (firstn 5
                 (sorted_by_score_desc
                    (filter (fun d => 0 <? deals.score d) deals))))) db.

(** [round(r["avg_score"] or 0, 1)]: an average of 0.0 is falsy and gives
    the [int] 0. *)
Definition rounded_avg (avg : PyFloat.float) : number :=
  if PyFloat.eq_zero avg then Int 0 else Float (PyFloat.round avg 1).

(** [GROUP BY sector]: one row per sector, in the order of the sectors. *)
Definition sector_analysis (db : DB)
  : result (list (string * sector_summary.t)) * DB :=
  run (rows <-
         query (fun db =>
           map (fun sector =>
                  let group :=
                    filter (fun d => (deals.sector d =? sector)%string)
                           (t_deals db) in
                  (sector,
                   sector_summary.mk (len group)
                     (rounded_avg (sql_avg (map deals.score group)))
                     (sql_sum (map deals.raise_amount group))))
               (order_by String.leb
                  (nodup string_dec (map deals.sector (t_deals db))))) ;;
       close ;;
       ret rows) db.

End Aggregates.

(** [sum] over floats by left-to-right addition, starting from the [int]
    0. *)
Definition add_number (n : number) (x : PyFloat.float) : number :=
  match n with
  | Int z => Float (SFadd PyFloat.prec PyFloat.emax (PyFloat.of_int z) x)
  | Float y => Float (SFadd PyFloat.prec PyFloat.emax y x)
  end.

Definition sum_floats_left (l : list PyFloat.float) : number :=
  fold_left add_number l (Int 0).

(** The exception a call raises, if it raises. *)
Definition error_of {A : Type} (r : result A * DB) : option exn :=
  match fst r with
  | Ok _ => None
  | Raise e => Some e
  end.

(** Replaying a deal's stage-change events, oldest first, from a starting
    stage: each event must leave from the stage the one before arrived
    at. *)
Fixpoint replay (stage : string) (events : list stage_changes.row)
  : option string :=
  match events with
  | [] => Some stage
  | e :: events' =>
      if (stage_changes.old_stage e =? stage)%string
      then replay (stage_changes.new_stage e) events'
      else None
  end.

(** Keys are unique, every child row names an existing deal, and every
    report is complete with a rating in [1,5]. *)
Definition well_keyed (db : DB) : Prop :=
  NoDup (map deals.deal_id (t_deals db))
  /\ NoDup (map due_diligence.dd_id (t_due_diligence db))
  /\ NoDup (map stage_changes.change_id (t_stage_changes db))
  /\ NoDup (map interactions.interaction_id (t_interactions db))
  /\ (forall d, In d (t_due_diligence db) ->
                has_deal db (due_diligence.deal_id d) = true
                /\ due_diligence.status d = DDStatus_value COMPLETE
                /\ 1 <= due_diligence.rating d <= 5)
  /\ (forall c, In c (t_stage_changes db) ->
                has_deal db (stage_changes.deal_id c) = true)
  /\ (forall i, In i (t_interactions db) ->
                has_deal db (interactions.deal_id i) = true).

(** The stage of every deal is where replaying its events from
    [awareness] ends. *)
Definition audit_trail_ok (db : DB) : Prop :=
  forall deal_id row,
    select_deal db deal_id = Some row ->
    replay (DealStage_value AWARENESS) (select_stage_changes db deal_id) =
    Some (deals.stage row).

(** What one call commits, with the facts the statements checked on the
    way. *)
Inductive commits (db : DB) : DB -> Prop :=
| commits_nothing : commits db db
| commits_deal (row : deals.row) :
    has_deal db (deals.deal_id row) = false ->
    deals.stage row = DealStage_value AWARENESS ->
    deals.score row = 0 ->
    commits db (mkDB (t_deals db ++ [row]) (t_due_diligence db)
                     (t_stage_changes db) (t_interactions db))
| commits_stage (deal_id : string) (set : deals.row -> deals.row)
    (event : stage_changes.row) (row : deals.row) :
    select_deal db deal_id = Some row ->
    existsb (fun c => (stage_changes.change_id c
                       =? stage_changes.change_id event)%string)
            (t_stage_changes db) = false ->
    stage_changes.deal_id event = deal_id ->
    stage_changes.old_stage event = deals.stage row ->
    (forall r, deals.deal_id (set r) = deals.deal_id r) ->
    (forall r, deals.stage (set r) = stage_changes.new_stage event) ->
    commits db (staged deal_id set event db)
| commits_report (r : due_diligence.row) :
    has_deal db (due_diligence.deal_id r) = true ->
    existsb (fun d => (due_diligence.dd_id d
                       =? due_diligence.dd_id r)%string)
            (t_due_diligence db) = false ->
    due_diligence.status r = DDStatus_value COMPLETE ->
    1 <= due_diligence.rating r <= 5 ->
    commits db (mkDB (t_deals db) (t_due_diligence db ++ [r])
                     (t_stage_changes db) (t_interactions db))
| commits_score (deal_id : string) (score : Z) (now : string) :
    commits db (update_deals deal_id (set_score score now) db)
| commits_interaction (i : interactions.row) :
    has_deal db (interactions.deal_id i) = true ->
    existsb (fun j => (interactions.interaction_id j
                       =? interactions.interaction_id i)%string)
            (t_interactions db) = false ->
    commits db (mkDB (t_deals db) (t_due_diligence db) (t_stage_changes db)
                     (t_interactions db ++ [i])).

(** The exception a call raises, if it raises. *)
Definition call_error (c : call) (db : DB) : option exn :=
  match c with
  | Call_add_deal company sector raise_amount valuation lead_investor
      assigned_to notes founder contact_email website uuid4 utcnow1 utcnow2 =>
      error_of (add_deal company sector raise_amount valuation lead_investor
                  assigned_to notes founder contact_email website uuid4
                  utcnow1 utcnow2 db)
  | Call_advance_stage deal_id new_stage changed_by reason utcnow uuid4 =>
      error_of (advance_stage deal_id new_stage changed_by reason utcnow
                  uuid4 db)
  | Call_add_due_diligence deal_id category findings red_flags rating
      reviewer notes uuid4 utcnow1 utcnow2 =>
      error_of (add_due_diligence deal_id category findings red_flags rating
                  reviewer notes uuid4 utcnow1 utcnow2 db)
  | Call_score_deal deal_id utcnow => error_of (score_deal deal_id utcnow db)
  | Call_pass_deal deal_id reason passed_by utcnow uuid4 =>
      error_of (pass_deal deal_id reason passed_by utcnow uuid4 db)
  | Call_log_interaction deal_id interaction_type description participants
      date uuid4 utcnow1 utcnow2 =>
      error_of (log_interaction deal_id interaction_type description
                  participants date uuid4 utcnow1 utcnow2 db)
  | Call_get_deal_details deal_id => error_of (get_deal_details deal_id db)
  end.

(** A stage string that is the value of a member of [DealStage]. *)
Definition known_stage (s : string) : bool :=
  existsb (String.eqb s) (map DealStage_value DealStage_members).

(** The number of rows that satisfy [p]. *)
Definition count_if {A : Type} (p : A -> bool) (l : list A) : Z :=
  len (filter p l).

(** The dict [get_deal_details] returns for a deal whose row is [row]: the
    row with its reports (oldest first), its stage history (oldest first)
    and its interactions (latest date first). *)
Definition details_of (db : DB) (deal_id : string) (row : deals.row)
  : deal_details :=
  mk_details row
    (order_by (fun a b => String.leb (due_diligence.created_at a)
                                     (due_diligence.created_at b))
              (select_due_diligence db deal_id))
    (order_by (fun a b => String.leb (stage_changes.changed_at a)
                                     (stage_changes.changed_at b))
              (select_stage_changes db deal_id))
    (order_by (fun a b => String.leb (interactions.date b)
                                     (interactions.date a))
              (select_interactions db deal_id)).

(** [ORDER BY created_at DESC] *)
Definition by_created_desc (a b : deals.row) : bool :=
  String.leb (deals.created_at b) (deals.created_at a).

(** ** Sample databases

    AcmeCo as in the test suite, then with a technical and a market
    report. *)

Definition db_acme : DB :=
  snd (add_deal "AcmeCo" "SaaS" (PyFloat.of_int 5000000)
         (PyFloat.of_int 25000000) None None "" "" "" "" "deal-1"
         "2025-01-01T09:00:00" "2025-01-01T09:00:00" empty_db).

(** The row of AcmeCo in [db_acme] and in [db_reviewed]. *)
Definition acme_row : deals.row :=
  deals.mk "deal-1" "AcmeCo" "SaaS" (PyFloat.of_int 5000000)
    (PyFloat.of_int 25000000) "awareness" None [] 0 "" None "" "" ""
    "2025-01-01T09:00:00" "2025-01-01T09:00:00".

Definition db_reviewed : DB :=
  snd (add_due_diligence "deal-1" (Member MARKET) ["Large TAM"] None 5 "VP"
         "" "dd-2" "2025-01-03T09:00:00" "2025-01-03T09:00:00"
         (snd (add_due_diligence "deal-1" (Member TECHNICAL) ["Good tech"]
                 None 4 "CTO" "" "dd-1" "2025-01-02T09:00:00"
                 "2025-01-02T09:00:00" db_acme))).


(** [db_reviewed] after AcmeCo skipped ahead to closing and was then passed
    on. *)
Definition db_passed : DB :=
  snd (pass_deal "deal-1" "too expensive" "partner" "2025-03-01T09:00:00"
         "change-2"
         (snd (advance_stage "deal-1" (Member CLOSING) "analyst" "skip ahead"
                 "2025-02-01T09:00:00" "change-1" db_reviewed))).

(** ** Facts about the statements *)

Ltac run_op :=
  unfold run, bindM, query, execute, execute_update, commit, close, ret,
    raise, lift, get_connection;
  cbn [view disk fst snd].

Lemma select_deal_key (db : DB) (deal_id : string) (r : deals.row) :
  select_deal db deal_id = Some r -> deals.deal_id r = deal_id.
Proof.
  unfold select_deal. intros H. apply find_some in H.
  destruct H as [_ H]. now apply String.eqb_eq.
Qed.

Lemma select_deal_has_deal (db : DB) (deal_id : string) :
  has_deal db deal_id = match select_deal db deal_id with
                        | Some _ => true
                        | None => false
                        end.
Proof.
  unfold has_deal, select_deal.
  induction (t_deals db) as [|r l IH]; cbn; [reflexivity|].
  destruct (deals.deal_id r =? deal_id)%string; [reflexivity | exact IH].
Qed.

Section Update.
Variable deal_id : string.
Variable set : deals.row -> deals.row.
Hypothesis set_key : forall r, deals.deal_id (set r) = deals.deal_id r.

Lemma select_deal_update_deals (db : DB) (id : string) :
  select_deal (update_deals deal_id set db) id =
  option_map
    (fun r => if (deals.deal_id r =? deal_id)%string then set r else r)
    (select_deal db id).
Proof.
  unfold select_deal, update_deals. cbn [t_deals].
  induction (t_deals db) as [|r l IH]; cbn; [reflexivity|].
  destruct (deals.deal_id r =? deal_id)%string eqn:E.
  - rewrite set_key.
    destruct (deals.deal_id r =? id)%string; cbn; [now rewrite E | exact IH].
  - destruct (deals.deal_id r =? id)%string; cbn; [now rewrite E | exact IH].
Qed.

Lemma has_deal_update_deals (db : DB) (id : string) :
  has_deal (update_deals deal_id set db) id = has_deal db id.
Proof.
  rewrite !select_deal_has_deal, select_deal_update_deals.
  now destruct (select_deal db id).
Qed.
End Update.

Lemma set_stage_key (stage now : string) (r : deals.row) :
  deals.deal_id (set_stage stage now r) = deals.deal_id r.
Proof. reflexivity. Qed.

Lemma set_score_key (score : Z) (now : string) (r : deals.row) :
  deals.deal_id (set_score score now r) = deals.deal_id r.
Proof. reflexivity. Qed.

Lemma set_passed_key (stage now suffix : string) (r : deals.row) :
  deals.deal_id (set_passed stage now suffix r) = deals.deal_id r.
Proof. reflexivity. Qed.

Lemma select_deal_updated (deal_id : string) (set : deals.row -> deals.row)
  (db : DB) (r : deals.row) :
  (forall r, deals.deal_id (set r) = deals.deal_id r) ->
  select_deal db deal_id = Some r ->
  select_deal (update_deals deal_id set db) deal_id = Some (set r).
Proof.
  intros Hk H. rewrite select_deal_update_deals, H by exact Hk. cbn.
  apply select_deal_key in H. now rewrite H, String.eqb_refl.
Qed.

Lemma order_by_length {A : Type} (le : A -> A -> bool) (l : list A) :
  List.length (order_by le l) = List.length l.
Proof.
  assert (Hins : forall x l', List.length (insert_by le x l') = S (List.length l')).
  { intros x l'. induction l' as [|y l' IH]; cbn; [reflexivity|].
    destruct (le x y); cbn; [reflexivity | now rewrite IH]. }
  unfold order_by. induction l as [|x l IH]; cbn; [reflexivity|].
  now rewrite Hins, IH.
Qed.

Lemma order_by_In {A : Type} (le : A -> A -> bool) (l : list A) (a : A) :
  In a (order_by le l) <-> In a l.
Proof.
  assert (Hins : forall x l', In a (insert_by le x l') <-> a = x \/ In a l').
  { intros x l'. induction l' as [|y l' IH]; cbn.
    - intuition congruence.
    - destruct (le x y); cbn; [intuition congruence|].
      rewrite IH. intuition congruence. }
  unfold order_by. induction l as [|x l IH]; cbn; [reflexivity|].
  rewrite Hins, IH. intuition congruence.
Qed.

(** ** Operations on a deal that does not exist *)

Lemma advance_stage_missing (db : DB) (deal_id : string)
  (new_stage : enum_or_str DealStage) (changed_by reason utcnow uuid4 : string) :
  select_deal db deal_id = None ->
  advance_stage deal_id new_stage changed_by reason utcnow uuid4 db =
  (Raise (not_found deal_id), db).
Proof. intros H. unfold advance_stage. run_op. now rewrite H. Qed.

Lemma pass_deal_missing (db : DB) (deal_id reason passed_by utcnow uuid4 : string) :
  select_deal db deal_id = None ->
  pass_deal deal_id reason passed_by utcnow uuid4 db =
  (Raise (not_found deal_id), db).
Proof. intros H. unfold pass_deal. run_op. now rewrite H. Qed.

Lemma add_due_diligence_missing (db : DB) (deal_id : string)
  (category : enum_or_str DDCategory) (findings : list string)
  (red_flags : option (list string)) (rating : Z)
  (reviewer notes uuid4 utcnow1 utcnow2 : string) :
  select_deal db deal_id = None ->
  add_due_diligence deal_id category findings red_flags rating reviewer notes
    uuid4 utcnow1 utcnow2 db =
  (Raise (not_found deal_id), db).
Proof. intros H. unfold add_due_diligence. run_op. now rewrite H. Qed.

Lemma score_deal_missing (db : DB) (deal_id utcnow : string) :
  select_deal db deal_id = None ->
  score_deal deal_id utcnow db = (Raise (not_found deal_id), db).
Proof. intros H. unfold score_deal. run_op. now rewrite H. Qed.

Lemma get_deal_details_missing (db : DB) (deal_id : string) :
  select_deal db deal_id = None ->
  get_deal_details deal_id db = (Raise (not_found deal_id), db).
Proof. intros H. unfold get_deal_details. run_op. now rewrite H. Qed.

Lemma log_interaction_missing (db : DB)
  (deal_id interaction_type description : string)
  (participants : option (list string)) (date : option string)
  (uuid4 utcnow1 utcnow2 : string) :
  select_deal db deal_id = None ->
  exists msg : string,
    log_interaction deal_id interaction_type description participants date
      uuid4 utcnow1 utcnow2 db =
    (Raise (IntegrityError msg), db).
Proof.
  intros H. unfold log_interaction. run_op.
  unfold insert_interaction. cbn [interactions.interaction_id interactions.deal_id].
  destruct (existsb _ (t_interactions db)).
  - now eexists.
  - rewrite select_deal_has_deal, H. cbn. now eexists.
Qed.

(** C3: on a deal_id for which no Deal exists, advance_stage, pass_deal,
    add_due_diligence, score_deal and get_deal_details each raise the
    "Deal <id> not found" ValueError and leave the database as it was;
    log_interaction never looks the deal up, so it does not raise that
    error: its INSERT fails in the store with an IntegrityError (the
    foreign key on deal_id, when the generated id is unused). *)
Theorem missing_deal_errors (db : DB) (deal_id : string)
  (Hmissing : select_deal db deal_id = None) :
  (forall new_stage changed_by reason utcnow uuid4,
      advance_stage deal_id new_stage changed_by reason utcnow uuid4 db =
      (Raise (not_found deal_id), db))
  /\ (forall reason passed_by utcnow uuid4,
         pass_deal deal_id reason passed_by utcnow uuid4 db =
         (Raise (not_found deal_id), db))
  /\ (forall category findings red_flags rating reviewer notes uuid4 utcnow1
             utcnow2,
         add_due_diligence deal_id category findings red_flags rating reviewer
           notes uuid4 utcnow1 utcnow2 db =
         (Raise (not_found deal_id), db))
  /\ (forall utcnow,
         score_deal deal_id utcnow db = (Raise (not_found deal_id), db))
  /\ get_deal_details deal_id db = (Raise (not_found deal_id), db)
  /\ (forall interaction_type description participants date uuid4 utcnow1
             utcnow2,
         (exists msg : string,
             log_interaction deal_id interaction_type description participants
               date uuid4 utcnow1 utcnow2 db =
             (Raise (IntegrityError msg), db))
         /\ (existsb (fun i => (interactions.interaction_id i =? uuid4)%string)
                     (t_interactions db) = false ->
             log_interaction deal_id interaction_type description participants
               date uuid4 utcnow1 utcnow2 db =
             (Raise (IntegrityError "FOREIGN KEY constraint failed"), db))).
Proof.
  repeat split; intros.
  - now apply advance_stage_missing.
  - now apply pass_deal_missing.
  - now apply add_due_diligence_missing.
  - now apply score_deal_missing.
  - now apply get_deal_details_missing.
  - now apply log_interaction_missing.
  - unfold log_interaction. run_op. unfold insert_interaction.
    cbn [interactions.interaction_id interactions.deal_id].
    rewrite H, select_deal_has_deal, Hmissing. reflexivity.
Qed.

Lemma missing_deal_errors_witness :
  select_deal db_acme "no-such-deal" = None
  /\ log_interaction "no-such-deal" "call" "Intro call" None None
       "interaction-1" "2025-01-15T10:00:00" "2025-01-15T10:00:00" db_acme =
     (Raise (IntegrityError "FOREIGN KEY constraint failed"), db_acme)
  /\ advance_stage "no-such-deal" (Member FIRST_MEETING) "analyst" ""
       "2025-01-15T10:00:00" "change-1" db_acme =
     (Raise (ValueError "Deal no-such-deal not found"), db_acme).
Proof.
  assert (H : select_deal db_acme "no-such-deal" = None) by reflexivity.
  pose proof (missing_deal_errors db_acme "no-such-deal" H) as
    (Hadv & _ & _ & _ & _ & Hlog).
  split; [exact H|]. split.
  - apply Hlog. reflexivity.
  - apply Hadv.
Defined.

(** C10: add_due_diligence looks the deal up before it looks at the rating:
    when the deal does not exist it raises the not-found error whatever the
    rating is, in particular for a rating outside [1,5], and nothing is
    written. *)
Theorem add_due_diligence_checks_deal_first (db : DB) (deal_id : string)
  (category : enum_or_str DDCategory) (findings : list string)
  (red_flags : option (list string)) (rating : Z)
  (reviewer notes uuid4 utcnow1 utcnow2 : string)
  (Hmissing : select_deal db deal_id = None)
  (Hrating : rating < 1 \/ 5 < rating) :
  add_due_diligence deal_id category findings red_flags rating reviewer notes
    uuid4 utcnow1 utcnow2 db =
  (Raise (not_found deal_id), db)
  /\ not_found deal_id <> ValueError "Rating must be between 1 and 5".
Proof.
  split.
  - now apply add_due_diligence_missing.
  - unfold not_found. intros E. injection E as E. discriminate E.
Qed.

Lemma add_due_diligence_checks_deal_first_witness :
  add_due_diligence "no-such-deal" (Member LEGAL) [] None 9 "GP" "" "dd-9"
    "2025-01-15T10:00:00" "2025-01-15T10:00:00" db_acme =
  (Raise (ValueError "Deal no-such-deal not found"), db_acme).
Proof.
  apply (add_due_diligence_checks_deal_first db_acme "no-such-deal").
  - reflexivity.
  - right. lia.
Defined.

(** ** Due-diligence reports *)

(** C8: on an existing deal, add_due_diligence with a rating outside [1,5]
    raises "Rating must be between 1 and 5" and leaves the database as it
    was; with a rating in [1,5] (and an unused generated id) it appends
    exactly one report row, whose status is complete, changes no other
    table, and returns the report with status COMPLETE. *)
Theorem add_due_diligence_rating_check (db : DB) (deal_id : string)
  (category : enum_or_str DDCategory) (findings : list string)
  (red_flags : option (list string)) (rating : Z)
  (reviewer notes uuid4 utcnow1 utcnow2 : string) (row : deals.row)
  (Hdeal : select_deal db deal_id = Some row) :
  (rating < 1 \/ 5 < rating ->
   add_due_diligence deal_id category findings red_flags rating reviewer notes
     uuid4 utcnow1 utcnow2 db =
   (Raise (ValueError "Rating must be between 1 and 5"), db))
  /\ (1 <= rating <= 5 ->
      existsb (fun d => (due_diligence.dd_id d =? uuid4)%string)
              (t_due_diligence db) = false ->
      let dd :=
        DueDiligence.mk deal_id category COMPLETE findings
          (or_empty red_flags) rating reviewer uuid4 utcnow1 utcnow2 notes in
      let r :=
        due_diligence.mk uuid4 deal_id (value_of DDCategory_value category)
          "complete" findings (or_empty red_flags) rating reviewer notes
          utcnow1 utcnow2 in
      add_due_diligence deal_id category findings red_flags rating reviewer
        notes uuid4 utcnow1 utcnow2 db =
      (Ok dd,
       mkDB (t_deals db) (t_due_diligence db ++ [r]) (t_stage_changes db)
            (t_interactions db))
      /\ DueDiligence.status dd = COMPLETE
      /\ due_diligence.status r = DDStatus_value COMPLETE).
Proof.
  split.
  - intros Hr. unfold add_due_diligence. run_op. rewrite Hdeal.
    replace ((1 <=? rating) && (rating <=? 5)) with false; [reflexivity|].
    symmetry. apply andb_false_iff. destruct Hr; [left | right]; lia.
  - intros Hr Hfresh dd r. unfold add_due_diligence. run_op. rewrite Hdeal.
    replace ((1 <=? rating) && (rating <=? 5)) with true
      by (symmetry; apply andb_true_iff; split; lia).
    cbn [negb]. unfold insert_due_diligence.
    cbn [due_diligence.dd_id due_diligence.deal_id DueDiligence.dd_id
         DueDiligence.created_at DueDiligence.updated_at view disk].
    rewrite Hfresh, select_deal_has_deal, Hdeal. cbn.
    repeat split.
Qed.

Lemma add_due_diligence_rating_check_witness :
  add_due_diligence "deal-1" (Member TEAM) ["Strong founders"] None 0 "GP" ""
    "dd-1" "2025-01-02T09:00:00" "2025-01-02T09:00:00" db_acme =
  (Raise (ValueError "Rating must be between 1 and 5"), db_acme)
  /\ fst (add_due_diligence "deal-1" (Member TEAM) ["Strong founders"] None 5
            "GP" "" "dd-1" "2025-01-02T09:00:00" "2025-01-02T09:00:00"
            db_acme) =
     Ok (DueDiligence.mk "deal-1" (Member TEAM) COMPLETE ["Strong founders"]
           [] 5 "GP" "dd-1" "2025-01-02T09:00:00" "2025-01-02T09:00:00" "").
Proof.
  split.
  - apply (add_due_diligence_rating_check db_acme "deal-1" (Member TEAM)
             ["Strong founders"] None 0 "GP" "" "dd-1" "2025-01-02T09:00:00"
             "2025-01-02T09:00:00" acme_row eq_refl).
    left. lia.
  - destruct (add_due_diligence_rating_check db_acme "deal-1" (Member TEAM)
                ["Strong founders"] None 5 "GP" "" "dd-1"
                "2025-01-02T09:00:00" "2025-01-02T09:00:00" acme_row eq_refl)
      as [_ H].
    destruct H as [H _]; [lia | reflexivity |].
    rewrite H. reflexivity.
Defined.

(** ** Stage transitions *)

Lemma select_deal_ext (db1 db2 : DB) (deal_id : string) :
  t_deals db1 = t_deals db2 -> select_deal db1 deal_id = select_deal db2 deal_id.
Proof. unfold select_deal. now intros ->. Qed.

Lemma get_deal_details_found (db : DB) (deal_id : string) (row : deals.row) :
  select_deal db deal_id = Some row ->
  exists d : deal_details,
    get_deal_details deal_id db = (Ok d, db)
    /\ deal d = row
    /\ List.length (stage_history d) =
       List.length (select_stage_changes db deal_id)
    /\ (forall c, In c (stage_history d) <->
                  In c (select_stage_changes db deal_id)).
Proof.
  intros H. unfold get_deal_details. run_op. rewrite H.
  eexists. split; [reflexivity|]. cbn [deal stage_history].
  split; [reflexivity|]. split.
  - apply order_by_length.
  - intros c. apply order_by_In.
Qed.

Lemma select_stage_changes_snoc (db db' : DB) (deal_id : string)
  (c : stage_changes.row) :
  t_stage_changes db' = t_stage_changes db ++ [c] ->
  stage_changes.deal_id c = deal_id ->
  select_stage_changes db' deal_id = select_stage_changes db deal_id ++ [c].
Proof.
  intros Ht Hc. unfold select_stage_changes. rewrite Ht, filter_app. cbn.
  now rewrite Hc, String.eqb_refl.
Qed.

Lemma staged_details (db : DB) (deal_id : string)
  (set : deals.row -> deals.row) (event : stage_changes.row) (row : deals.row) :
  (forall r, deals.deal_id (set r) = deals.deal_id r) ->
  select_deal db deal_id = Some row ->
  stage_changes.deal_id event = deal_id ->
  select_deal (staged deal_id set event db) deal_id = Some (set row)
  /\ exists d d' : deal_details,
      get_deal_details deal_id db = (Ok d, db)
      /\ get_deal_details deal_id (staged deal_id set event db) =
         (Ok d', staged deal_id set event db)
      /\ deal d' = set row
      /\ List.length (stage_history d') = S (List.length (stage_history d))
      /\ In event (stage_history d')
      /\ (forall c, In c (stage_history d') <->
                    In c (stage_history d) \/ c = event).
Proof.
  intros Hkey Hrow Hev.
  assert (Hsel : select_deal (staged deal_id set event db) deal_id =
                 Some (set row)).
  { rewrite <- (select_deal_updated deal_id set db row Hkey Hrow).
    now apply select_deal_ext. }
  split; [exact Hsel|].
  destruct (get_deal_details_found db deal_id row Hrow)
    as (d & Hd & _ & Hlen & Hin).
  destruct (get_deal_details_found _ deal_id (set row) Hsel)
    as (d' & Hd' & Hdeal' & Hlen' & Hin').
  assert (Hsnoc : select_stage_changes (staged deal_id set event db) deal_id =
                  select_stage_changes db deal_id ++ [event])
    by (now apply select_stage_changes_snoc).
  exists d, d'. repeat split; try assumption.
  - rewrite Hlen', Hsnoc, Hlen, length_app. cbn. lia.
  - apply Hin'. rewrite Hsnoc. apply in_or_app. right. now left.
  - intros Hc. apply Hin' in Hc. rewrite Hsnoc in Hc.
    apply in_app_or in Hc. destruct Hc as [Hc | [Hc | []]].
    + left. now apply Hin.
    + right. now symmetry.
  - intros [Hc | ->]; apply Hin'; rewrite Hsnoc; apply in_or_app.
    + left. now apply Hin.
    + right. now left.
Qed.

Lemma advance_stage_found (db : DB) (deal_id : string)
  (new_stage : enum_or_str DealStage)
  (changed_by reason utcnow uuid4 : string) (row : deals.row) :
  select_deal db deal_id = Some row ->
  existsb (fun c => (stage_changes.change_id c =? uuid4)%string)
          (t_stage_changes db) = false ->
  advance_stage deal_id new_stage changed_by reason utcnow uuid4 db =
  (Ok true,
   staged deal_id (set_stage (value_of DealStage_value new_stage) utcnow)
     (stage_changes.mk uuid4 deal_id (deals.stage row)
        (value_of DealStage_value new_stage) changed_by reason utcnow) db).
Proof.
  intros Hrow Hfresh. unfold advance_stage. run_op. rewrite Hrow.
  unfold insert_stage_change.
  cbn [stage_changes.change_id stage_changes.deal_id view disk].
  cbn [update_deals t_stage_changes].
  rewrite Hfresh.
  change (has_deal _ deal_id) with
    (has_deal (update_deals deal_id
                 (set_stage (value_of DealStage_value new_stage) utcnow) db)
              deal_id).
  rewrite has_deal_update_deals by apply set_stage_key.
  rewrite select_deal_has_deal, Hrow. reflexivity.
Qed.

(** C6: on an existing deal (and an unused generated event id),
    advance_stage returns True, sets the stage of the deal to the requested
    value and its updated_at to the current time, and appends exactly one
    stage-change event carrying the stage the deal had before, the
    requested stage, changed_by and reason; get_deal_details afterwards
    shows one more event in the history.  Nothing constrains the requested
    stage: any member of DealStage and any plain string is accepted,
    whatever the current stage is; a member is written as its value and a
    plain string as it is.  The other columns of the deal stay as they
    were. *)
Theorem advance_stage_records_transition (db : DB) (deal_id : string)
  (new_stage : enum_or_str DealStage)
  (changed_by reason utcnow uuid4 : string) (row : deals.row)
  (Hdeal : select_deal db deal_id = Some row)
  (Hfresh : existsb (fun c => (stage_changes.change_id c =? uuid4)%string)
                    (t_stage_changes db) = false) :
  let new_stage_val :=
    match new_stage with
    | Member AWARENESS => "awareness"
    | Member FIRST_MEETING => "first_meeting"
    | Member DEEP_DIVE => "deep_dive"
    | Member TERM_SHEET => "term_sheet"
    | Member DUE_DILIGENCE => "due_diligence"
    | Member CLOSING => "closing"
    | Member PORTFOLIO => "portfolio"
    | Member PASSED => "passed"
    | Plain s => s
    end in
  let event :=
    stage_changes.mk uuid4 deal_id (deals.stage row) new_stage_val changed_by
      reason utcnow in
  let updated :=
    deals.mk (deals.deal_id row) (deals.company row) (deals.sector row)
      (deals.raise_amount row) (deals.valuation row) new_stage_val
      (deals.lead_investor row) (deals.co_investors row) (deals.score row)
      (deals.notes row) (deals.assigned_to row) (deals.website row)
      (deals.founder row) (deals.contact_email row) (deals.created_at row)
      utcnow in
  exists db' : DB,
    advance_stage deal_id new_stage changed_by reason utcnow uuid4 db =
    (Ok true, db')
    /\ select_deal db' deal_id = Some (set_stage new_stage_val utcnow row)
    /\ deals.stage (set_stage new_stage_val utcnow row) = new_stage_val
    /\ deals.updated_at (set_stage new_stage_val utcnow row) = utcnow
    /\ t_stage_changes db' = t_stage_changes db ++ [event]
    /\ t_due_diligence db' = t_due_diligence db
    /\ t_interactions db' = t_interactions db
    /\ (exists d d' : deal_details,
          get_deal_details deal_id db = (Ok d, db)
          /\ get_deal_details deal_id db' = (Ok d', db')
          /\ deals.stage (deal d') = new_stage_val
          /\ List.length (stage_history d') = S (List.length (stage_history d))
          /\ In event (stage_history d'))
    /\ select_deal db' deal_id = Some updated.
Proof.
  intros new_stage_val event updated.
  assert (Hval : value_of DealStage_value new_stage = new_stage_val).
  { unfold new_stage_val. destruct new_stage as [[]|s]; reflexivity. }
  eexists. split.
  { rewrite <- Hval. now apply advance_stage_found with (row := row). }
  rewrite Hval. fold event.
  destruct (staged_details db deal_id (set_stage new_stage_val utcnow) event
              row (set_stage_key _ _) Hdeal eq_refl)
    as (Hsel & d & d' & Hd & Hd' & Hdeal' & Hlen & Hin & _).
  repeat split; try reflexivity; try assumption.
  exists d, d'. repeat split; try assumption.
  now rewrite Hdeal'.
Qed.

Lemma advance_stage_records_transition_witness :
  (exists db' : DB,
      advance_stage "deal-1" (Member AWARENESS) "analyst" "back to start"
        "2025-02-01T09:00:00" "change-2"
        (snd (advance_stage "deal-1" (Member CLOSING) "analyst" "skip ahead"
                "2025-01-20T09:00:00" "change-1" db_acme)) =
      (Ok true, db')
      /\ option_map deals.stage (select_deal db' "deal-1") = Some "awareness"
      /\ List.length (t_stage_changes db') = 2%nat)
  /\ exists db' : DB,
      advance_stage "deal-1" (Plain "on hold") "analyst" "founder away"
        "2025-02-01T09:00:00" "change-1" db_acme = (Ok true, db')
      /\ option_map deals.stage (select_deal db' "deal-1") = Some "on hold"
      /\ t_stage_changes db' =
         [stage_changes.mk "change-1" "deal-1" "awareness" "on hold" "analyst"
            "founder away" "2025-02-01T09:00:00"].
Proof.
  split.
  - set (db1 := snd (advance_stage "deal-1" (Member CLOSING) "analyst"
                       "skip ahead" "2025-01-20T09:00:00" "change-1"
                       db_acme)).
    destruct (advance_stage_records_transition db1 "deal-1" (Member AWARENESS)
                "analyst" "back to start" "2025-02-01T09:00:00" "change-2"
                (set_stage "closing" "2025-01-20T09:00:00" acme_row)
                eq_refl eq_refl)
      as (db' & Hrun & Hsel & _ & _ & Hev & _).
    exists db'. split; [exact Hrun|]. split.
    + rewrite Hsel. reflexivity.
    + rewrite Hev. reflexivity.
  - destruct (advance_stage_records_transition db_acme "deal-1"
                (Plain "on hold") "analyst" "founder away"
                "2025-02-01T09:00:00" "change-1" acme_row eq_refl eq_refl)
      as (db' & Hrun & Hsel & _ & _ & Hev & _).
    exists db'. split; [exact Hrun|]. split.
    + rewrite Hsel. reflexivity.
    + rewrite Hev. reflexivity.
Defined.

Lemma pass_deal_found (db : DB) (deal_id reason passed_by utcnow uuid4 : string)
  (row : deals.row) :
  select_deal db deal_id = Some row ->
  existsb (fun c => (stage_changes.change_id c =? uuid4)%string)
          (t_stage_changes db) = false ->
  pass_deal deal_id reason passed_by utcnow uuid4 db =
  (Ok true,
   staged deal_id
     (set_passed "passed" utcnow (newline ++ "[PASSED] " ++ reason)%string)
     (stage_changes.mk uuid4 deal_id (deals.stage row) "passed" passed_by
        reason utcnow) db).
Proof.
  intros Hrow Hfresh. unfold pass_deal. run_op. rewrite Hrow.
  unfold insert_stage_change.
  cbn [stage_changes.change_id stage_changes.deal_id view disk].
  cbn [update_deals t_stage_changes].
  rewrite Hfresh.
  change (has_deal _ deal_id) with
    (has_deal (update_deals deal_id
                 (set_passed (DealStage_value PASSED) utcnow
                    (newline ++ "[PASSED] " ++ reason)%string) db)
              deal_id).
  rewrite has_deal_update_deals by apply set_passed_key.
  rewrite select_deal_has_deal, Hrow. reflexivity.
Qed.

Lemma string_app_assoc (a b c : string) :
  ((a ++ b) ++ c = a ++ b ++ c)%string.
Proof. induction a as [|x a IH]; cbn; [reflexivity | now rewrite IH]. Qed.

Lemma ends_with_passed (notes reason : string) :
  ends_with (notes ++ newline ++ "[PASSED] " ++ reason)%string
            ("[PASSED] " ++ reason)%string.
Proof. exists (notes ++ newline)%string. now rewrite string_app_assoc. Qed.

(** C7: on an existing deal (and an unused generated event id), pass_deal
    returns True, sets the stage of the deal to passed, appends the line
    "[PASSED] <reason>" to the notes the deal already had, so that the notes
    end with "[PASSED] " followed by the reason, and appends exactly one
    stage-change event whose new_stage is passed.  Nothing guards against a
    deal that is already passed: a second call succeeds as well, and leaves
    a second event and a second note line after the first ones. *)
Theorem pass_deal_appends (db : DB)
  (deal_id reason passed_by utcnow uuid4 : string) (row : deals.row)
  (Hdeal : select_deal db deal_id = Some row)
  (Hfresh : existsb (fun c => (stage_changes.change_id c =? uuid4)%string)
                    (t_stage_changes db) = false) :
  let line := (newline ++ "[PASSED] " ++ reason)%string in
  let event :=
    stage_changes.mk uuid4 deal_id (deals.stage row) "passed" passed_by reason
      utcnow in
  exists (db' : DB) (row' : deals.row),
    pass_deal deal_id reason passed_by utcnow uuid4 db = (Ok true, db')
    /\ select_deal db' deal_id = Some row'
    /\ deals.stage row' = DealStage_value PASSED
    /\ deals.notes row' = (deals.notes row ++ line)%string
    /\ ends_with (deals.notes row') ("[PASSED] " ++ reason)%string
    /\ t_stage_changes db' = t_stage_changes db ++ [event]
    /\ stage_changes.new_stage event = DealStage_value PASSED
    /\ forall reason2 passed_by2 utcnow2 uuid4',
        existsb (fun c => (stage_changes.change_id c =? uuid4')%string)
                (t_stage_changes db') = false ->
        exists (db'' : DB) (row'' : deals.row),
          pass_deal deal_id reason2 passed_by2 utcnow2 uuid4' db' =
          (Ok true, db'')
          /\ select_deal db'' deal_id = Some row''
          /\ deals.stage row'' = DealStage_value PASSED
          /\ deals.notes row'' =
             (deals.notes row ++ line
              ++ newline ++ "[PASSED] " ++ reason2)%string
          /\ t_stage_changes db'' =
             t_stage_changes db ++
             [event;
              stage_changes.mk uuid4' deal_id "passed" "passed" passed_by2
                reason2 utcnow2].
Proof.
  intros line event.
  pose proof (pass_deal_found db deal_id reason passed_by utcnow uuid4 row
                Hdeal Hfresh) as Hrun.
  fold line in Hrun. fold event in Hrun.
  destruct (staged_details db deal_id (set_passed "passed" utcnow line) event
              row (set_passed_key _ _ _) Hdeal eq_refl) as (Hsel & _).
  eexists. exists (set_passed "passed" utcnow line row).
  split; [exact Hrun|]. split; [exact Hsel|].
  split; [reflexivity|]. split; [reflexivity|].
  split; [apply ends_with_passed|]. split; [reflexivity|].
  split; [reflexivity|].
  intros reason2 passed_by2 utcnow2 uuid4' Hfresh'.
  pose proof (pass_deal_found _ deal_id reason2 passed_by2 utcnow2 uuid4' _
                Hsel Hfresh') as Hrun2.
  destruct (staged_details _ deal_id
              (set_passed "passed" utcnow2
                 (newline ++ "[PASSED] " ++ reason2)%string)
              (stage_changes.mk uuid4' deal_id "passed" "passed" passed_by2
                 reason2 utcnow2)
              _ (set_passed_key _ _ _) Hsel eq_refl) as (Hsel2 & _).
  eexists. eexists.
  split; [exact Hrun2|]. split; [exact Hsel2|].
  split; [reflexivity|]. split.
  - cbn [deals.notes set_passed]. apply string_app_assoc.
  - cbn [staged t_stage_changes]. now rewrite <- app_assoc.
Qed.

Lemma pass_deal_appends_witness :
  exists (db' : DB) (row' : deals.row),
    pass_deal "deal-1" "too expensive" "partner" "2025-03-01T09:00:00"
      "change-1" db_acme = (Ok true, db')
    /\ select_deal db' "deal-1" = Some row'
    /\ deals.stage row' = "passed"
    /\ ends_with (deals.notes row') "[PASSED] too expensive"
    /\ List.length (t_stage_changes db') = 1%nat.
Proof.
  destruct (pass_deal_appends db_acme "deal-1" "too expensive" "partner"
              "2025-03-01T09:00:00" "change-1" acme_row eq_refl eq_refl)
    as (db' & row' & Hrun & Hsel & Hstage & _ & Hends & Hev & _).
  exists db', row'. repeat split; try assumption.
  rewrite Hev. reflexivity.
Defined.

(** ** Facts about binary64 arithmetic

    Magnitude bounds through rounding, division and multiplication: enough
    to show that the floats [score_deal] computes are finite. *)

Module FloatFacts.
Import PyFloat.

Lemma digits2_pos_bounds (p : positive) :
  2 ^ (Zpos (digits2_pos p) - 1) <= Zpos p < 2 ^ Zpos (digits2_pos p).
Proof.
  induction p as [p IH | p IH |]; cbn [digits2_pos].
  - pose proof (Pos2Z.is_pos (digits2_pos p)) as Hd.
    rewrite Pos2Z.inj_succ.
    replace (Z.succ (Zpos (digits2_pos p)) - 1)
      with (Z.succ (Zpos (digits2_pos p) - 1)) by (unfold Z.succ; ring).
    rewrite !Z.pow_succ_r; [lia | exact (Z.lt_le_incl _ _ Hd) | ].
    apply Z.lt_le_pred in Hd. now rewrite <- Z.sub_1_r in Hd.
  - pose proof (Pos2Z.is_pos (digits2_pos p)) as Hd.
    rewrite Pos2Z.inj_succ.
    replace (Z.succ (Zpos (digits2_pos p)) - 1)
      with (Z.succ (Zpos (digits2_pos p) - 1)) by (unfold Z.succ; ring).
    rewrite !Z.pow_succ_r; [lia | exact (Z.lt_le_incl _ _ Hd) | ].
    apply Z.lt_le_pred in Hd. now rewrite <- Z.sub_1_r in Hd.
  - cbn. lia.
Qed.

Lemma Zdigits2_nonneg (m : Z) : 0 <= Zdigits2 m.
Proof. destruct m; cbn; lia. Qed.

Lemma Zdigits2_le (m k : Z) : 0 <= m < 2 ^ k -> 0 <= k -> Zdigits2 m <= k.
Proof.
  intros [H0 H1] Hk. destruct m as [|p|p]; cbn; [lia| |lia].
  pose proof (digits2_pos_bounds p) as [Hlo _].
  assert (H : 2 ^ (Zpos (digits2_pos p) - 1) < 2 ^ k) by lia.
  apply Z.pow_lt_mono_r_iff in H; lia.
Qed.

Lemma Zdigits2_lt_pow (m : Z) : 0 <= m -> m < 2 ^ Zdigits2 m.
Proof.
  intros H. destruct m as [|p|p]; cbn; [lia| |lia].
  apply digits2_pos_bounds.
Qed.

Lemma Zdigits2_succ (m : Z) : 0 <= m -> Zdigits2 (m + 1) <= Zdigits2 m + 1.
Proof.
  intros H. pose proof (Zdigits2_lt_pow m H). pose proof (Zdigits2_nonneg m).
  apply Zdigits2_le; [|lia]. rewrite Z.pow_add_r by lia. lia.
Qed.

Lemma Zdigits2_shift (m k : Z) :
  0 <= m -> 0 <= k -> Zdigits2 (m / 2 ^ k) + k <= Z.max (Zdigits2 m) k.
Proof.
  intros Hm Hk. pose proof (Zdigits2_lt_pow m Hm) as Hlt.
  pose proof (Zdigits2_nonneg m) as Hd.
  assert (0 < 2 ^ k) by (apply Z.pow_pos_nonneg; lia).
  destruct (Z.le_gt_cases k (Zdigits2 m)) as [Hle | Hgt].
  - assert (Zdigits2 (m / 2 ^ k) <= Zdigits2 m - k); [|lia].
    apply Zdigits2_le; [|lia]. split; [apply Z.div_pos; lia|].
    apply Z.div_lt_upper_bound; [lia|].
    rewrite <- Z.pow_add_r by lia. now replace (k + (Zdigits2 m - k)) with (Zdigits2 m) by lia.
  - assert (m < 2 ^ k).
    { eapply Z.lt_le_trans; [exact Hlt|]. apply Z.pow_le_mono_r; lia. }
    rewrite Z.div_small by lia. cbn. lia.
Qed.

Lemma shr_1_m (mrs : shr_record) :
  0 <= shr_m mrs -> shr_m (shr_1 mrs) = shr_m mrs / 2.
Proof.
  destruct mrs as [m r s]. cbn [shr_m]. intros H.
  destruct m as [|[p|p|]|p]; cbn [shr_1 shr_m]; try reflexivity; try lia.
  - apply Z.div_unique with (r := 1); lia.
  - apply Z.div_unique with (r := 0); lia.
Qed.

Lemma iter_pos_shr_1_m (p : positive) (mrs : shr_record) :
  0 <= shr_m mrs ->
  shr_m (iter_pos shr_1 p mrs) = shr_m mrs / 2 ^ Zpos p.
Proof.
  revert mrs. induction p as [p IH | p IH |]; intros mrs H; cbn [iter_pos].
  - assert (H1 : 0 <= shr_m (shr_1 mrs))
      by (rewrite shr_1_m by lia; apply Z.div_pos; lia).
    assert (H2 : 0 <= shr_m (iter_pos shr_1 p (shr_1 mrs)))
      by (rewrite IH by lia; apply Z.div_pos; [lia | apply Z.pow_pos_nonneg; lia]).
    rewrite IH, IH, shr_1_m by lia.
    rewrite !Z.div_div by (try apply Z.pow_pos_nonneg; lia).
    f_equal.
    replace (Zpos p~1) with (1 + Zpos p + Zpos p) by lia.
    rewrite !Z.pow_add_r by lia. lia.
  - assert (H2 : 0 <= shr_m (iter_pos shr_1 p mrs))
      by (rewrite IH by lia; apply Z.div_pos; [lia | apply Z.pow_pos_nonneg; lia]).
    rewrite IH, IH by lia.
    rewrite !Z.div_div by (try apply Z.pow_pos_nonneg; lia).
    f_equal.
    replace (Zpos p~0) with (Zpos p + Zpos p) by lia.
    rewrite !Z.pow_add_r by lia. lia.
  - now rewrite shr_1_m.
Qed.

Lemma shr_record_of_loc_m (m : Z) (l : location) :
  shr_m (shr_record_of_loc m l) = m.
Proof. destruct l as [|[]]; reflexivity. Qed.

(** What [shr_fexp] does to the mantissa and the exponent. *)
Lemma shr_fexp_spec (m e : Z) (l : location) :
  0 <= m ->
  let '(mrs, e') := shr_fexp prec emax m e l in
  0 <= shr_m mrs
  /\ e' = Z.max e (fexp prec emax (Zdigits2 m + e))
  /\ Zdigits2 (shr_m mrs) + e' <= Z.max (Zdigits2 m + e) e'.
Proof.
  intros Hm. unfold shr_fexp, shr.
  set (f := fexp prec emax (Zdigits2 m + e)).
  destruct (f - e) as [|k|k] eqn:Hk.
  - rewrite shr_record_of_loc_m. repeat split; lia.
  - assert (Hm' : 0 <= shr_m (shr_record_of_loc m l))
      by (rewrite shr_record_of_loc_m; lia).
    rewrite iter_pos_shr_1_m, shr_record_of_loc_m by exact Hm'.
    split; [apply Z.div_pos; [lia | apply Z.pow_pos_nonneg; lia]|].
    split; [lia|].
    pose proof (Zdigits2_shift m (Zpos k) Hm ltac:(lia)). lia.
  - rewrite shr_record_of_loc_m. repeat split; lia.
Qed.

Lemma round_nearest_even_bounds (m : Z) (l : location) :
  m <= round_nearest_even m l <= m + 1.
Proof.
  destruct l as [|[]]; cbn; try lia. destruct (Z.even m); lia.
Qed.

Lemma below_weaken (B B' : Z) (x : float) : B <= B' -> below B x -> below B' x.
Proof. destruct x as [[]| | |[] m e]; cbn; lia. Qed.

Lemma binary_round_aux_below (mx ex B : Z) (l : location) :
  0 <= mx -> Zdigits2 mx + ex <= B ->
  SpecFloat.emin prec emax <= B -> B + 1 <= emax - prec ->
  below (B + 1) (binary_round_aux prec emax false mx ex l).
Proof.
  intros Hmx HB Hmin Hmax. unfold binary_round_aux.
  pose proof (shr_fexp_spec mx ex l Hmx) as H1.
  destruct (shr_fexp prec emax mx ex l) as [mrs1 e1].
  destruct H1 as (Hm1 & He1 & Hd1).
  pose proof (round_nearest_even_bounds (shr_m mrs1) (loc_of_shr_record mrs1))
    as Hr.
  set (mr := round_nearest_even (shr_m mrs1) (loc_of_shr_record mrs1)) in *.
  assert (Hdr : Zdigits2 mr <= Zdigits2 (shr_m mrs1) + 1).
  { assert (Hcase : mr = shr_m mrs1 \/ mr = shr_m mrs1 + 1) by lia.
    destruct Hcase as [-> | ->]; [lia | now apply Zdigits2_succ]. }
  pose proof (shr_fexp_spec mr e1 loc_Exact ltac:(lia)) as H2.
  destruct (shr_fexp prec emax mr e1 loc_Exact) as [mrs2 e2].
  destruct H2 as (Hm2 & He2 & Hd2).
  pose proof (Zdigits2_nonneg mx). pose proof (Zdigits2_nonneg mr).
  pose proof (Zdigits2_nonneg (shr_m mrs1)).
  unfold fexp, SpecFloat.emin, prec, emax in *.
  destruct (shr_m mrs2) as [|m|m] eqn:Em; cbn [below]; [exact I | | lia].
  replace (e2 <=? 1024 - 53) with true by (symmetry; apply Z.leb_le; lia).
  cbn [below]. change (Zpos (digits2_pos m)) with (Zdigits2 (Zpos m)). lia.
Qed.

Lemma div_core_below (mx my : positive) (ex ey B : Z) :
  Zpos (digits2_pos mx) + ex - (Zpos (digits2_pos my) + ey) + 1 <= B ->
  SpecFloat.emin prec emax <= B ->
  let '(mz, ez, _) := SFdiv_core_binary prec emax (Zpos mx) ex (Zpos my) ey in
  0 <= mz /\ Zdigits2 mz + ez <= B.
Proof.
  intros HB Hmin. unfold SFdiv_core_binary.
  cbn [Zdigits2].
  set (d1 := Zpos (digits2_pos mx)) in *. set (d2 := Zpos (digits2_pos my)) in *.
  set (e' := Z.min (fexp prec emax (d1 + ex - (d2 + ey))) (ex - ey)).
  set (s := ex - ey - e').
  assert (Hs : 0 <= s) by (unfold s, e'; lia).
  set (m' := match s with
             | 0 => Zpos mx
             | Zpos _ => Z.shiftl (Zpos mx) s
             | Zneg _ => 0
             end).
  assert (Hm' : m' = Zpos mx * 2 ^ s).
  { unfold m'. destruct s as [|p|p]; [cbn; lia | | lia].
    now rewrite Z.shiftl_mul_pow2 by lia. }
  pose proof (Z_div_mod m' (Zpos my) ltac:(lia)) as Hdiv.
  destruct (Z.div_eucl m' (Zpos my)) as [q r]. destruct Hdiv as [Hq Hr].
  pose proof (digits2_pos_bounds mx) as [_ Hx].
  pose proof (digits2_pos_bounds my) as [Hy _].
  fold d1 in Hx. fold d2 in Hy.
  assert (Hd1 : 0 < d1) by (unfold d1; lia).
  assert (Hd2 : 0 < d2) by (unfold d2; lia).
  assert (Hpow : 0 < 2 ^ s) by (apply Z.pow_pos_nonneg; lia).
  assert (Hq0 : 0 <= q) by nia.
  split; [exact Hq0|].
  assert (Hm'lt : m' < 2 ^ (d1 + s)).
  { rewrite Hm', Z.pow_add_r by lia. nia. }
  assert (Hqm : q * Zpos my <= m') by lia.
  assert (He' : e' <= B).
  { unfold e', fexp. unfold SpecFloat.emin, prec, emax in *. lia. }
  destruct (Z.le_gt_cases 0 (d1 + s - d2 + 1)) as [HD | HD].
  - assert (Hql : q < 2 ^ (d1 + s - d2 + 1)).
    { assert (Hsplit : 2 ^ (d1 + s) = 2 ^ (d1 + s - d2 + 1) * 2 ^ (d2 - 1)).
      { rewrite <- Z.pow_add_r by lia. f_equal. lia. }
      assert (0 < 2 ^ (d1 + s - d2 + 1)) by (apply Z.pow_pos_nonneg; lia).
      assert (0 < 2 ^ (d2 - 1)) by (apply Z.pow_pos_nonneg; lia).
      nia. }
    pose proof (Zdigits2_le q _ (conj Hq0 Hql) HD). unfold s in *. lia.
  - assert (Hq1 : q = 0).
    { assert (Hle : 2 ^ (d1 + s) <= 2 ^ (d2 - 1))
        by (apply Z.pow_le_mono_r; lia).
      nia. }
    subst q. cbn [Zdigits2]. lia.
Qed.

Lemma div_finite_below (mx my : positive) (ex ey B : Z) :
  Zpos (digits2_pos mx) + ex - (Zpos (digits2_pos my) + ey) + 1 <= B ->
  SpecFloat.emin prec emax <= B -> B + 1 <= emax - prec ->
  below (B + 1) (div (S754_finite false mx ex) (S754_finite false my ey)).
Proof.
  intros HB Hmin Hmax. unfold div, SFdiv. cbn [xorb].
  pose proof (div_core_below mx my ex ey B HB Hmin) as H.
  destruct (SFdiv_core_binary prec emax (Zpos mx) ex (Zpos my) ey)
    as [[mz ez] lz].
  destruct H as [H0 H1]. now apply binary_round_aux_below.
Qed.

Lemma mul_finite_below (mx my : positive) (ex ey B : Z) :
  Zpos (digits2_pos mx) + ex + (Zpos (digits2_pos my) + ey) <= B ->
  SpecFloat.emin prec emax <= B -> B + 1 <= emax - prec ->
  below (B + 1) (mul (S754_finite false mx ex) (S754_finite false my ey)).
Proof.
  intros HB Hmin Hmax. unfold mul, SFmul. cbn [xorb].
  apply binary_round_aux_below; try assumption; [lia|].
  pose proof (digits2_pos_bounds mx) as [_ Hx].
  pose proof (digits2_pos_bounds my) as [_ Hy].
  assert (Hd : Zdigits2 (Zpos (mx * my)) <=
               Zpos (digits2_pos mx) + Zpos (digits2_pos my)).
  { apply Zdigits2_le; [|lia]. rewrite Pos2Z.inj_mul, Z.pow_add_r by lia.
    split; [lia | nia]. }
  lia.
Qed.
End FloatFacts.

(** ** The score *)

Lemma sum_cons (x : Z) (l : list Z) : sum (x :: l) = x + sum l.
Proof.
  unfold sum. cbn [fold_left].
  assert (H : forall l a, fold_left Z.add l a = a + fold_left Z.add l 0).
  { clear. induction l as [|y l IH]; intros a; cbn [fold_left]; [lia|].
    rewrite (IH (a + y)), (IH (0 + y)). lia. }
  now rewrite H.
Qed.

Lemma total_rating_bounds (dd_items : list due_diligence.row) (R : Z) :
  0 <= R ->
  Forall (fun d => due_diligence.rating d <= R) dd_items ->
  0 <= total_rating dd_items <= R * Z.of_nat (List.length dd_items).
Proof.
  intros HR H. unfold total_rating.
  induction H as [|d l Hd Hl IH]; [cbn; lia|].
  cbn [filter List.length]. rewrite Nat2Z.inj_succ.
  destruct (0 <? due_diligence.rating d) eqn:E.
  - cbn [map]. rewrite sum_cons. apply Z.ltb_lt in E. lia.
  - lia.
Qed.

Lemma to_int_below (B : Z) (x : PyFloat.float) :
  PyFloat.below B x ->
  exists z : Z,
    PyFloat.to_int x = Ok z /\ PyFloat.floor x = Some z /\ 0 <= z.
Proof.
  destruct x as [[]| | |[] m e]; cbn; try contradiction; intros _.
  - exists 0. repeat split; lia.
  - eexists. repeat split. apply Z.shiftl_nonneg. lia.
Qed.

Lemma int_truediv_below (t n : Z) :
  0 <= t -> 0 < n -> t < 2 ^ 63 * n ->
  exists q : PyFloat.float,
    PyFloat.int_truediv t n = Ok q /\ PyFloat.below 65 q.
Proof.
  intros Ht Hn Hlt. unfold PyFloat.int_truediv.
  replace (n =? 0) with false by (symmetry; apply Z.eqb_neq; lia).
  assert (Hq : PyFloat.below 65 (PyFloat.div (PyFloat.exact t) (PyFloat.exact n))).
  { destruct n as [|pn|pn]; try lia. destruct t as [|pt|pt]; try lia.
    - exact I.
    - cbn [PyFloat.exact].
      apply (FloatFacts.div_finite_below pt pn 0 0 64); try (cbn; lia).
      pose proof (FloatFacts.digits2_pos_bounds pn) as [_ Hpn].
      assert (Hd : Zdigits2 (Zpos pt) <= 63 + Zpos (digits2_pos pn)).
      { apply FloatFacts.Zdigits2_le; [|lia]. rewrite Z.pow_add_r by lia. nia. }
      cbn [Zdigits2] in Hd. lia. }
  destruct (PyFloat.div (PyFloat.exact t) (PyFloat.exact n)) as [[]| | |[] m e];
    cbn in Hq; try contradiction; cbn [PyFloat.is_infinity]; eexists;
    (split; [reflexivity | exact Hq]).
Qed.

Lemma base_score_total (dd_items : list due_diligence.row) :
  dd_items <> [] ->
  Forall (fun d => due_diligence.rating d < 2 ^ 63) dd_items ->
  exists (avg : PyFloat.float) (b : Z),
    PyFloat.int_truediv (total_rating dd_items)
      (Z.of_nat (List.length dd_items)) = Ok avg
    /\ PyFloat.floor
         (PyFloat.mul (PyFloat.div avg (PyFloat.of_int 5)) (PyFloat.of_int 80))
       = Some b
    /\ base_score dd_items = Ok b
    /\ 0 <= b.
Proof.
  intros Hne Hint.
  assert (Hlen : 0 < Z.of_nat (List.length dd_items))
    by (destruct dd_items; [congruence | cbn [List.length]; lia]).
  assert (Hint' : Forall (fun d => due_diligence.rating d <= 2 ^ 63 - 1) dd_items)
    by (eapply Forall_impl; [|exact Hint]; cbn beta; intros; lia).
  pose proof (total_rating_bounds dd_items (2 ^ 63 - 1) ltac:(lia) Hint')
    as [Ht0 Ht1].
  destruct (int_truediv_below (total_rating dd_items)
              (Z.of_nat (List.length dd_items)) Ht0 Hlen ltac:(lia))
    as (avg & Havg & Hb).
  set (q := PyFloat.div avg (PyFloat.of_int 5)).
  assert (Hq : PyFloat.below 64 q).
  { unfold q. change (PyFloat.of_int 5)
      with (S754_finite false 5629499534213120 (-50)).
    destruct avg as [[]| | |[] m e]; cbn in Hb; try contradiction.
    - exact I.
    - apply (FloatFacts.div_finite_below m _ e (-50) 63); cbn; lia. }
  set (x := PyFloat.mul q (PyFloat.of_int 80)).
  assert (Hx : PyFloat.below 72 x).
  { unfold x. change (PyFloat.of_int 80)
      with (S754_finite false 5629499534213120 (-46)).
    destruct q as [[]| | |[] m e]; cbn in Hq; try contradiction.
    - exact I.
    - apply (FloatFacts.mul_finite_below m _ e (-46) 71); cbn; lia. }
  destruct (to_int_below 72 x Hx) as (b & Hb1 & Hb2 & Hb3).
  exists avg, b. split; [exact Havg|]. split; [exact Hb2|]. split; [|exact Hb3].
  unfold base_score, avg_rating.
  destruct dd_items as [|d l]; [congruence|].
  rewrite Havg. cbn [bind]. unfold PyFloat.truediv.
  change (PyFloat.eq_zero (PyFloat.of_int 5)) with false. cbn [bind].
  exact Hb1.
Qed.






Lemma max_min_clamp (x : Z) : Z.max 0 (Z.min 100 x) = clamp x 0 100.
Proof.
  unfold clamp. destruct (x <? 0) eqn:E1; [apply Z.ltb_lt in E1; lia|].
  apply Z.ltb_ge in E1.
  destruct (100 <? x) eqn:E2; [apply Z.ltb_lt in E2 | apply Z.ltb_ge in E2];
    lia.
Qed.

Lemma clamp_range (x : Z) : 0 <= clamp x 0 100 <= 100.
Proof. rewrite <- max_min_clamp. lia. Qed.

Lemma score_deal_no_reports (db : DB) (deal_id utcnow : string)
  (row : deals.row) :
  select_deal db deal_id = Some row ->
  select_due_diligence db deal_id = [] ->
  score_deal deal_id utcnow db = (Ok 0, db).
Proof.
  intros Hrow Hdd. unfold score_deal. run_op. rewrite Hrow. run_op.
  now rewrite Hdd.
Qed.

Lemma score_deal_reports (db : DB) (deal_id utcnow : string)
  (row : deals.row) :
  select_deal db deal_id = Some row ->
  select_due_diligence db deal_id <> [] ->
  score_deal deal_id utcnow db =
  match base_score (select_due_diligence db deal_id) with
  | Ok b =>
      let dd_items := select_due_diligence db deal_id in
      let score :=
        clamp (b - penalty dd_items + coverage_bonus dd_items) 0 100 in
      (Ok score, update_deals deal_id (set_score score utcnow) db)
  | Raise e => (Raise e, db)
  end.
Proof.
  intros Hrow Hdd. unfold score_deal. run_op. rewrite Hrow. run_op.
  destruct (select_due_diligence db deal_id) as [|d l] eqn:E; [congruence|].
  destruct (base_score (d :: l)) as [b|e]; cbn [bind]; [|reflexivity].
  cbv zeta. now rewrite max_min_clamp.
Qed.

Lemma floor_spec (s : bool) (m : positive) (e z : Z) :
  PyFloat.floor (S754_finite s m e) = Some z ->
  (0 <= e -> z = cond_Zopp s (Zpos m) * 2 ^ e)
  /\ (e < 0 ->
      z * 2 ^ (- e) <= cond_Zopp s (Zpos m) < (z + 1) * 2 ^ (- e)).
Proof.
  cbn [PyFloat.floor]. intros H. injection H as <-. split; intros He.
  - now rewrite Z.shiftl_mul_pow2.
  - rewrite Z.shiftl_div_pow2 by lia.
    assert (Hp : 0 < 2 ^ (- e)) by (apply Z.pow_pos_nonneg; lia).
    pose proof (Z.div_mod (cond_Zopp s (Zpos m)) (2 ^ (- e)) ltac:(lia)).
    pose proof (Z.mod_pos_bound (cond_Zopp s (Zpos m)) (2 ^ (- e)) Hp).
    lia.
Qed.




(** A report whose rating is 0 adds nothing to the sum and still counts in
    the divisor: with ratings 0 and 5 the average is 2.5, not 5. *)
Example unrated_report_counts_in_divisor :
  let unrated :=
    due_diligence.mk "dd-0" "deal-1" "legal" "not_started" [] [] 0 "" ""
      "2025-01-02T09:00:00" "2025-01-02T09:00:00" in
  let rated :=
    due_diligence.mk "dd-1" "deal-1" "legal" "complete" [] [] 5 "GP" ""
      "2025-01-03T09:00:00" "2025-01-03T09:00:00" in
  total_rating [unrated; rated] = 5
  /\ avg_rating [unrated; rated] =
     Ok (S754_finite false 5629499534213120 (-51))
  /\ base_score [unrated; rated] = Ok 40
  /\ base_score [rated] = Ok 80.
Proof. repeat split. Qed.

(** ** What each call writes *)

Lemma add_deal_writes (company sector : string)
  (raise_amount valuation : PyFloat.float)
  (lead_investor assigned_to : option string)
  (notes founder contact_email website uuid4 utcnow1 utcnow2 : string)
  (db : DB) :
  let row :=
    deals.mk uuid4 company sector (real_affinity raise_amount)
      (real_affinity valuation) "awareness" lead_investor [] 0 notes
      assigned_to website founder contact_email utcnow1 utcnow2 in
  let deal :=
    Deal.mk company sector raise_amount valuation AWARENESS lead_investor []
      0 notes assigned_to uuid4 utcnow1 utcnow2 website founder contact_email
  in
  let r :=
    add_deal company sector raise_amount valuation lead_investor assigned_to
      notes founder contact_email website uuid4 utcnow1 utcnow2 db in
  (PyFloat.is_nan raise_amount = false -> PyFloat.is_nan valuation = false ->
   has_deal db uuid4 = false ->
   r = (Ok deal,
        mkDB (t_deals db ++ [row]) (t_due_diligence db) (t_stage_changes db)
             (t_interactions db)))
  /\ ((exists e, r = (Raise e, db))
      \/ (has_deal db uuid4 = false
          /\ r = (Ok deal,
                  mkDB (t_deals db ++ [row]) (t_due_diligence db)
                       (t_stage_changes db) (t_interactions db)))).
Proof.
  intros row deal r. unfold r, add_deal, init_db. run_op.
  unfold insert_deal, stored_deal.
  cbn [deals.raise_amount deals.valuation deals.deal_id deals.company
       deals.sector deals.stage deals.lead_investor deals.co_investors
       deals.score deals.notes deals.assigned_to deals.website deals.founder
       deals.contact_email deals.created_at deals.updated_at Deal.deal_id
       Deal.stage Deal.created_at Deal.updated_at DealStage_value].
  split.
  - intros -> -> ->. reflexivity.
  - destruct (PyFloat.is_nan raise_amount); [left; now eexists|].
    destruct (PyFloat.is_nan valuation); [left; now eexists|].
    destruct (has_deal db uuid4); [left; now eexists|].
    right. split; reflexivity.
Qed.

Lemma advance_stage_writes (db : DB) (deal_id : string)
  (new_stage : enum_or_str DealStage)
  (changed_by reason utcnow uuid4 : string) :
  writes_aside db (snd (advance_stage deal_id new_stage changed_by reason
                          utcnow uuid4 db)).
Proof.
  destruct (select_deal db deal_id) as [row|] eqn:Hrow.
  - destruct (existsb (fun c => (stage_changes.change_id c =? uuid4)%string)
                      (t_stage_changes db)) eqn:Hfresh.
    + unfold advance_stage. run_op. rewrite Hrow. unfold insert_stage_change.
      cbn [stage_changes.change_id view disk update_deals t_stage_changes].
      rewrite Hfresh. cbn. constructor.
    + rewrite (advance_stage_found db deal_id new_stage changed_by reason
                 utcnow uuid4 row Hrow Hfresh).
      cbn [snd]. now constructor.
  - rewrite advance_stage_missing by exact Hrow. constructor.
Qed.

Lemma pass_deal_writes (db : DB)
  (deal_id reason passed_by utcnow uuid4 : string) :
  writes_aside db (snd (pass_deal deal_id reason passed_by utcnow uuid4 db)).
Proof.
  destruct (select_deal db deal_id) as [row|] eqn:Hrow.
  - destruct (existsb (fun c => (stage_changes.change_id c =? uuid4)%string)
                      (t_stage_changes db)) eqn:Hfresh.
    + unfold pass_deal. run_op. rewrite Hrow. unfold insert_stage_change.
      cbn [stage_changes.change_id view disk update_deals t_stage_changes].
      rewrite Hfresh. cbn. constructor.
    + rewrite (pass_deal_found db deal_id reason passed_by utcnow uuid4 row
                 Hrow Hfresh).
      cbn [snd]. now constructor.
  - rewrite pass_deal_missing by exact Hrow. constructor.
Qed.

Lemma add_due_diligence_writes (db : DB) (deal_id : string)
  (category : enum_or_str DDCategory) (findings : list string)
  (red_flags : option (list string)) (rating : Z)
  (reviewer notes uuid4 utcnow1 utcnow2 : string) :
  writes_aside db (snd (add_due_diligence deal_id category findings red_flags
                          rating reviewer notes uuid4 utcnow1 utcnow2 db)).
Proof.
  unfold add_due_diligence. run_op.
  destruct (select_deal db deal_id) as [row|] eqn:Hrow; [|constructor].
  destruct ((1 <=? rating) && (rating <=? 5)) eqn:Hr; cbn [negb];
    [|constructor].
  apply andb_true_iff in Hr as [H1 H5].
  apply Z.leb_le in H1. apply Z.leb_le in H5.
  unfold insert_due_diligence.
  cbn [due_diligence.dd_id due_diligence.deal_id DueDiligence.dd_id
       DueDiligence.created_at DueDiligence.updated_at view disk].
  destruct (existsb _ (t_due_diligence db)); [constructor|].
  destruct (has_deal db deal_id); cbn; [|constructor].
  apply writes_report. cbn. lia.
Qed.

Lemma score_deal_writes (db : DB) (deal_id utcnow : string) :
  writes db (snd (score_deal deal_id utcnow db)).
Proof.
  destruct (select_deal db deal_id) as [row|] eqn:Hrow.
  - destruct (select_due_diligence db deal_id) as [|d l] eqn:Hdd.
    + rewrite (score_deal_no_reports db deal_id utcnow row Hrow Hdd).
      do 2 constructor.
    + rewrite (score_deal_reports db deal_id utcnow row Hrow)
        by (rewrite Hdd; discriminate).
      rewrite Hdd.
      destruct (base_score (d :: l)) as [b|e]; [|do 2 constructor].
      cbv zeta. cbn [snd]. apply writes_score; [apply clamp_range|].
      rewrite Hdd. discriminate.
  - rewrite score_deal_missing by exact Hrow. do 2 constructor.
Qed.

Lemma log_interaction_writes (db : DB)
  (deal_id interaction_type description : string)
  (participants : option (list string)) (date : option string)
  (uuid4 utcnow1 utcnow2 : string) :
  writes_aside db (snd (log_interaction deal_id interaction_type description
                          participants date uuid4 utcnow1 utcnow2 db)).
Proof.
  unfold log_interaction. run_op. unfold insert_interaction.
  cbn [interactions.interaction_id interactions.deal_id].
  destruct (existsb _ (t_interactions db)); [constructor|].
  destruct (has_deal db deal_id); cbn; constructor.
Qed.

Lemma get_deal_details_writes (db : DB) (deal_id : string) :
  snd (get_deal_details deal_id db) = db.
Proof.
  unfold get_deal_details. run_op.
  now destruct (select_deal db deal_id).
Qed.

Lemma perform_writes_aside (c : call) (db : DB) :
  not_score_deal c -> writes_aside db (perform c db).
Proof.
  destruct c; cbn [perform not_score_deal]; intros Hc.
  - match goal with
    | |- writes_aside _
           (snd (add_deal ?a ?b ?c ?d ?e ?f ?g ?h ?i ?j ?k ?l ?m _)) =>
        destruct (add_deal_writes a b c d e f g h i j k l m db)
          as [_ [[e' H] | [Hfresh H]]]
    end; rewrite H; cbn [snd]; [constructor|].
    now apply writes_deal.
  - apply advance_stage_writes.
  - apply add_due_diligence_writes.
  - contradiction.
  - apply pass_deal_writes.
  - apply log_interaction_writes.
  - rewrite get_deal_details_writes. constructor.
Qed.

Lemma perform_writes (c : call) (db : DB) : writes db (perform c db).
Proof.
  destruct c; try (apply writes_other; now apply perform_writes_aside).
  apply score_deal_writes.
Qed.

(** ** The invariant *)

Lemma select_due_diligence_ext (db1 db2 : DB) (deal_id : string) :
  t_due_diligence db1 = t_due_diligence db2 ->
  select_due_diligence db1 deal_id = select_due_diligence db2 deal_id.
Proof. unfold select_due_diligence. now intros ->. Qed.

Lemma In_update_deals (deal_id : string) (set : deals.row -> deals.row)
  (db : DB) (r' : deals.row) :
  In r' (t_deals (update_deals deal_id set db)) ->
  exists r, In r (t_deals db)
            /\ r' = if (deals.deal_id r =? deal_id)%string then set r else r.
Proof.
  cbn [update_deals t_deals]. rewrite in_map_iff.
  intros (r & <- & Hin). now exists r.
Qed.

Lemma writes_inv (db db' : DB) : writes db db' -> inv db -> inv db'.
Proof.
  intros Hw [Hs Hr].
  destruct Hw as [db' [ | row Hz Hnew | deal_id set event Hk Hsc | r Hrat | i ]
                 | deal_id score now Hrange Hdd ].
  - now split.
  - split; [|exact Hr]. cbn [t_deals]. intros r Hin.
    apply in_app_or in Hin as [Hin | [<- | []]].
    + exact (Hs r Hin).
    + split; [lia | congruence].
  - split; [|exact Hr]. intros r' Hin.
    apply In_update_deals in Hin as (r & Hin & ->).
    destruct (Hs r Hin) as [H1 H2].
    destruct (deals.deal_id r =? deal_id)%string; [|now split].
    rewrite Hk, Hsc. now split.
  - split.
    + cbn [t_deals]. intros r0 Hin. destruct (Hs r0 Hin) as [H1 H2].
      split; [exact H1|]. intros Hz. specialize (H2 Hz).
      unfold select_due_diligence in *. cbn [t_due_diligence].
      rewrite filter_app. intros E. apply app_eq_nil in E as [E _].
      now apply H2.
    + cbn [t_due_diligence]. intros d Hin.
      apply in_app_or in Hin as [Hin | [<- | []]]; [now apply Hr | exact Hrat].
  - now split.
  - split; [|exact Hr]. intros r' Hin.
    apply In_update_deals in Hin as (r & Hin & ->).
    destruct (Hs r Hin) as [H1 H2].
    destruct (deals.deal_id r =? deal_id)%string eqn:E; [|now split].
    apply String.eqb_eq in E. cbn [set_score deals.score deals.deal_id].
    split; [exact Hrange|]. intros _. now rewrite E.
Qed.

Lemma inv_empty : inv empty_db.
Proof. split; intros x []. Qed.

Lemma reachable_inv (db : DB) : reachable db -> inv db.
Proof.
  induction 1 as [|db c _ IH]; [exact inv_empty|].
  exact (writes_inv db _ (perform_writes c db) IH).
Qed.

Lemma select_deal_In (db : DB) (deal_id : string) (row : deals.row) :
  select_deal db deal_id = Some row -> In row (t_deals db).
Proof. unfold select_deal. intros H. now apply find_some in H. Qed.

Lemma select_due_diligence_In (db : DB) (deal_id : string)
  (d : due_diligence.row) :
  In d (select_due_diligence db deal_id) -> In d (t_due_diligence db).
Proof. unfold select_due_diligence. intros H. now apply filter_In in H. Qed.

Lemma writes_aside_persisted_score (db db' : DB) (deal_id : string) (v : Z) :
  writes_aside db db' ->
  persisted_score db deal_id = Some v ->
  persisted_score db' deal_id = Some v.
Proof.
  unfold persisted_score.
  intros Hw Hv.
  destruct Hw as [ | row Hz Hnew | id set event Hk Hsc | r Hrat | i ];
    try exact Hv.
  - unfold select_deal in *. cbn [t_deals].
    induction (t_deals db) as [|r l IH]; [discriminate Hv|].
    cbn [find app] in *.
    destruct (deals.deal_id r =? deal_id)%string; [exact Hv | now apply IH].
  - rewrite (select_deal_ext _ (update_deals id set db)) by reflexivity.
    rewrite select_deal_update_deals by exact Hk.
    destruct (select_deal db deal_id) as [r|]; [|discriminate].
    cbn in *. destruct (deals.deal_id r =? id)%string; [|exact Hv].
    now rewrite Hsc.
Qed.

Lemma select_deal_new (db : DB) (row : deals.row) :
  has_deal db (deals.deal_id row) = false ->
  select_deal
    (mkDB (t_deals db ++ [row]) (t_due_diligence db) (t_stage_changes db)
          (t_interactions db)) (deals.deal_id row) = Some row.
Proof.
  unfold has_deal, select_deal. cbn [t_deals].
  induction (t_deals db) as [|r l IH]; cbn [existsb find app]; intros H.
  - now rewrite String.eqb_refl.
  - destruct (deals.deal_id r =? deals.deal_id row)%string;
      [discriminate | now apply IH].
Qed.

Lemma score_deal_in_range (db : DB) (deal_id utcnow : string)
  (row : deals.row) :
  select_deal db deal_id = Some row ->
  Forall (fun d => due_diligence.rating d < 2 ^ 63)
         (select_due_diligence db deal_id) ->
  exists score : Z,
    fst (score_deal deal_id utcnow db) = Ok score
    /\ 0 <= score <= 100
    /\ (select_due_diligence db deal_id <> [] ->
        persisted_score (snd (score_deal deal_id utcnow db)) deal_id =
        Some score)
    /\ (select_due_diligence db deal_id = [] ->
        score = 0 /\ snd (score_deal deal_id utcnow db) = db).
Proof.
  intros Hrow Hint.
  destruct (select_due_diligence db deal_id) as [|d l] eqn:Hdd.
  - rewrite (score_deal_no_reports db deal_id utcnow row Hrow Hdd).
    exists 0. cbn [fst snd]. repeat split; try lia. congruence.
  - assert (Hsome : select_due_diligence db deal_id <> [])
      by (rewrite Hdd; discriminate).
    rewrite <- Hdd in Hint.
    destruct (base_score_total _ Hsome Hint) as (avg & b & _ & _ & Hb & _).
    rewrite (score_deal_reports db deal_id utcnow row Hrow Hsome), Hb.
    cbv zeta. cbn [fst snd]. eexists. split; [reflexivity|].
    split; [apply clamp_range|]. split; [|discriminate].
    intros _. unfold persisted_score.
    now rewrite (select_deal_updated deal_id _ db row (set_score_key _ _)
                   Hrow).
Qed.

(** C5: on every database built by the operations, every persisted score
    is in [0,100]; score_deal on an existing deal returns a score in
    [0,100] and the score persisted afterwards is the one returned;
    add_deal persists the score 0 and returns it; and a call other than
    score_deal leaves the persisted score of every deal as it was.  On any
    database at all, whatever the reports of the deal are (their ratings
    being SQLite integers), score_deal returns a score in [0,100] and, when
    there is a report, persists it. *)
Theorem persisted_score_in_range (db : DB) (Hreach : reachable db) :
  (forall r, In r (t_deals db) -> 0 <= deals.score r <= 100)
  /\ (forall deal_id utcnow row,
         select_deal db deal_id = Some row ->
         exists score : Z,
           fst (score_deal deal_id utcnow db) = Ok score
           /\ 0 <= score <= 100
           /\ persisted_score (snd (score_deal deal_id utcnow db)) deal_id =
              Some score)
  /\ (forall company sector raise_amount valuation lead_investor assigned_to
             notes founder contact_email website uuid4 utcnow1 utcnow2 deal,
         fst (add_deal company sector raise_amount valuation lead_investor
                assigned_to notes founder contact_email website uuid4 utcnow1
                utcnow2 db) = Ok deal ->
         Deal.score deal = 0
         /\ persisted_score
              (snd (add_deal company sector raise_amount valuation
                      lead_investor assigned_to notes founder contact_email
                      website uuid4 utcnow1 utcnow2 db))
              (Deal.deal_id deal) = Some 0)
  /\ (forall c deal_id score,
         not_score_deal c ->
         persisted_score db deal_id = Some score ->
         persisted_score (perform c db) deal_id = Some score)
  /\ (forall db0 deal_id utcnow row,
         select_deal db0 deal_id = Some row ->
         Forall (fun d => due_diligence.rating d < 2 ^ 63)
                (select_due_diligence db0 deal_id) ->
         exists score : Z,
           fst (score_deal deal_id utcnow db0) = Ok score
           /\ 0 <= score <= 100
           /\ (select_due_diligence db0 deal_id <> [] ->
               persisted_score (snd (score_deal deal_id utcnow db0)) deal_id =
               Some score)).
Proof.
  pose proof (reachable_inv db Hreach) as [Hs Hr].
  split; [|split; [|split; [|split]]].
  - intros r Hin. now apply Hs.
  - intros deal_id utcnow row Hrow.
    assert (Hint : Forall (fun d => due_diligence.rating d < 2 ^ 63)
                          (select_due_diligence db deal_id)).
    { apply Forall_forall. intros x Hx.
      apply select_due_diligence_In in Hx. specialize (Hr x Hx). lia. }
    destruct (score_deal_in_range db deal_id utcnow row Hrow Hint)
      as (score & Hrun & Hrange & Hsome & Hnone).
    exists score. split; [exact Hrun|]. split; [exact Hrange|].
    destruct (select_due_diligence db deal_id) as [|d l] eqn:Hdd.
    + destruct (Hnone eq_refl) as [-> ->].
      unfold persisted_score. rewrite Hrow. cbn. f_equal.
      destruct (Hs row (select_deal_In db deal_id row Hrow)) as [_ Hz].
      destruct (Z.eq_dec (deals.score row) 0) as [E|E]; [exact E|].
      exfalso. apply (Hz E).
      now rewrite (select_deal_key db deal_id row Hrow), Hdd.
    + apply Hsome. discriminate.
  - intros company sector raise_amount valuation lead_investor assigned_to
      notes founder contact_email website uuid4 utcnow1 utcnow2 deal.
    destruct (add_deal_writes company sector raise_amount valuation
                lead_investor assigned_to notes founder contact_email website
                uuid4 utcnow1 utcnow2 db) as [_ [[e H] | [Hfresh H]]];
      rewrite H; cbn [fst snd]; [discriminate|].
    intros E. injection E as <-. split; [reflexivity|].
    cbn [Deal.deal_id]. unfold persisted_score.
    now rewrite select_deal_new.
  - intros c deal_id score Hc.
    apply writes_aside_persisted_score. now apply perform_writes_aside.
  - intros db0 deal_id utcnow row Hrow Hint.
    destruct (score_deal_in_range db0 deal_id utcnow row Hrow Hint)
      as (score & Hrun & Hrange & Hsome & _).
    now exists score.
Qed.

Lemma persisted_score_in_range_witness :
  reachable db_reviewed
  /\ exists score : Z,
      fst (score_deal "deal-1" "2025-01-04T09:00:00" db_reviewed) = Ok score
      /\ 0 <= score <= 100
      /\ persisted_score
           (snd (score_deal "deal-1" "2025-01-04T09:00:00" db_reviewed))
           "deal-1" = Some score.
Proof.
  assert (Hreach : reachable db_reviewed).
  { apply (reachable_call _
             (Call_add_due_diligence "deal-1" (Member MARKET) ["Large TAM"]
                None 5 "VP" "" "dd-2" "2025-01-03T09:00:00"
                "2025-01-03T09:00:00")).
    apply (reachable_call _
             (Call_add_due_diligence "deal-1" (Member TECHNICAL) ["Good tech"]
                None 4 "CTO" "" "dd-1" "2025-01-02T09:00:00"
                "2025-01-02T09:00:00")).
    apply (reachable_call _
             (Call_add_deal "AcmeCo" "SaaS" (PyFloat.of_int 5000000)
                (PyFloat.of_int 25000000) None None "" "" "" "" "deal-1"
                "2025-01-01T09:00:00" "2025-01-01T09:00:00")).
    exact reachable_init. }
  split; [exact Hreach|].
  exact (proj1 (proj2 (persisted_score_in_range db_reviewed Hreach))
           "deal-1" "2025-01-04T09:00:00" acme_row eq_refl).
Defined.

(** ** Scoring a deal without reports *)

(** C2 as the code has it: on an existing deal without reports score_deal
    returns 0 and writes nothing, so the persisted score and updated_at stay
    as they were; on a database built by the operations that persisted
    score is 0. *)
Theorem score_deal_without_reports (db : DB) (deal_id utcnow : string)
  (row : deals.row)
  (Hdeal : select_deal db deal_id = Some row)
  (Hnone : select_due_diligence db deal_id = []) :
  score_deal deal_id utcnow db = (Ok 0, db)
  /\ select_deal (snd (score_deal deal_id utcnow db)) deal_id = Some row
  /\ (reachable db -> deals.score row = 0).
Proof.
  pose proof (score_deal_no_reports db deal_id utcnow row Hdeal Hnone) as H.
  split; [exact H|]. split; [now rewrite H|].
  intros Hreach. destruct (reachable_inv db Hreach) as [Hinv _].
  pose proof (select_deal_key db deal_id row Hdeal) as Hkey.
  apply select_deal_In in Hdeal.
  destruct (Hinv row Hdeal) as [_ Hz].
  destruct (Z.eq_dec (deals.score row) 0) as [E|E]; [exact E|].
  exfalso. apply (Hz E). now rewrite Hkey.
Qed.

Lemma score_deal_without_reports_witness :
  score_deal "deal-1" "2025-06-01T09:00:00" db_acme = (Ok 0, db_acme).
Proof.
  exact (proj1 (score_deal_without_reports db_acme "deal-1"
                  "2025-06-01T09:00:00" acme_row eq_refl eq_refl)).
Defined.

(** C2 as stated fails: score_deal on AcmeCo, created at 09:00 on 1 January
    and never reviewed, leaves updated_at at its creation time instead of
    the time of the call. *)
Lemma score_deal_without_reports_keeps_updated_at :
  fst (score_deal "deal-1" "2025-06-01T09:00:00" db_acme) = Ok 0
  /\ option_map deals.updated_at
       (select_deal (snd (score_deal "deal-1" "2025-06-01T09:00:00" db_acme))
                    "deal-1") = Some "2025-01-01T09:00:00"
  /\ option_map deals.updated_at
       (select_deal (snd (score_deal "deal-1" "2025-06-01T09:00:00" db_acme))
                    "deal-1") <> Some "2025-06-01T09:00:00".
Proof. repeat split. discriminate. Qed.

(** ** Creating a deal *)

(** C1 as the code has it: add_deal validates nothing.  Whatever company and
    sector are (the empty string included) and whatever the sign of
    raise_amount and valuation, a call whose amounts are not NaN and whose
    generated id is unused appends exactly one row to deals and returns a
    new Deal with stage AWARENESS and score 0.  The row holds the arguments
    of the call, stage awareness and score 0; its two REAL columns hold the
    amounts passed, with 0.0 in the place of an amount that is -0.0. *)
Theorem add_deal_validates_nothing (company sector : string)
  (raise_amount valuation : PyFloat.float)
  (lead_investor assigned_to : option string)
  (notes founder contact_email website uuid4 utcnow1 utcnow2 : string)
  (db : DB)
  (Hraise : PyFloat.is_nan raise_amount = false)
  (Hvaluation : PyFloat.is_nan valuation = false)
  (Hfresh : has_deal db uuid4 = false) :
  let held (x : PyFloat.float) :=
    match x with
    | S754_zero _ => S754_zero false
    | _ => x
    end in
  let row :=
    deals.mk uuid4 company sector (held raise_amount) (held valuation)
      (DealStage_value AWARENESS) lead_investor [] 0 notes assigned_to website
      founder contact_email utcnow1 utcnow2 in
  exists deal : Deal.t,
    add_deal company sector raise_amount valuation lead_investor assigned_to
      notes founder contact_email website uuid4 utcnow1 utcnow2 db =
    (Ok deal,
     mkDB (t_deals db ++ [row]) (t_due_diligence db) (t_stage_changes db)
          (t_interactions db))
    /\ deals.stage row = "awareness"
    /\ Deal.stage deal = AWARENESS
    /\ Deal.score deal = 0
    /\ Deal.deal_id deal = uuid4
    /\ Deal.company deal = company
    /\ Deal.sector deal = sector
    /\ Deal.raise_amount deal = raise_amount
    /\ Deal.valuation deal = valuation.
Proof.
  intros held row.
  destruct (add_deal_writes company sector raise_amount valuation
              lead_investor assigned_to notes founder contact_email website
              uuid4 utcnow1 utcnow2 db) as [H _].
  eexists. split; [exact (H Hraise Hvaluation Hfresh)|].
  repeat split.
Qed.

Lemma add_deal_validates_nothing_witness :
  (exists deal : Deal.t,
      fst (add_deal "" "" (PyFloat.of_int (-1)) (PyFloat.of_int (-1)) None
             None "" "" "" "" "deal-2" "2025-01-05T09:00:00"
             "2025-01-05T09:00:00" db_acme) = Ok deal
      /\ Deal.stage deal = AWARENESS
      /\ Deal.score deal = 0)
  /\ map (fun r => (deals.deal_id r, deals.raise_amount r, deals.valuation r))
         (t_deals
            (snd (add_deal "Zero" "SaaS" (S754_zero true) (S754_zero true)
                    None None "" "" "" "" "deal-2" "2025-01-05T09:00:00"
                    "2025-01-05T09:00:00" db_acme))) =
     [("deal-1", PyFloat.of_int 5000000, PyFloat.of_int 25000000);
      ("deal-2", S754_zero false, S754_zero false)].
Proof.
  split.
  - destruct (add_deal_validates_nothing "" "" (PyFloat.of_int (-1))
                (PyFloat.of_int (-1)) None None "" "" "" "" "deal-2"
                "2025-01-05T09:00:00" "2025-01-05T09:00:00" db_acme
                eq_refl eq_refl eq_refl)
      as (deal & Hrun & _ & Hstage & Hscore & _).
    exists deal. rewrite Hrun. repeat split; assumption.
  - destruct (add_deal_validates_nothing "Zero" "SaaS" (S754_zero true)
                (S754_zero true) None None "" "" "" "" "deal-2"
                "2025-01-05T09:00:00" "2025-01-05T09:00:00" db_acme
                eq_refl eq_refl eq_refl)
      as (deal & Hrun & _).
    rewrite Hrun. reflexivity.
Defined.

(** C1 as stated fails: a call with an empty company, an empty sector and
    both amounts -1 raises nothing and writes a Deal record. *)
Lemma add_deal_accepts_empty_and_negative :
  let r :=
    add_deal "" "" (PyFloat.of_int (-1)) (PyFloat.of_int (-1)) None None ""
      "" "" "" "deal-1" "2025-01-01T09:00:00" "2025-01-01T09:00:00" empty_db
  in
  PyFloat.of_int (-1) = S754_finite true 4503599627370496 (-52)
  /\ (exists deal : Deal.t, fst r = Ok deal)
  /\ map deals.deal_id (t_deals (snd r)) = ["deal-1"]
  /\ ~ (exists msg : string, r = (Raise (ValueError msg), empty_db)).
Proof.
  cbv zeta. split; [reflexivity|]. split; [eexists; reflexivity|].
  split; [reflexivity|]. intros [msg H]. discriminate H.
Qed.

(** ** The multiple on capital *)

Lemma div_half_even_nearest (a b : Z) :
  0 < b -> 2 * Z.abs (a - PyFloat.div_half_even a b * b) <= b.
Proof.
  intros Hb. unfold PyFloat.div_half_even.
  pose proof (Z_div_mod a b ltac:(lia)) as H.
  destruct (Z.div_eucl a b) as [q r]. destruct H as [Ha Hr].
  assert (H0 : a - q * b = r) by (rewrite Ha; ring).
  assert (H1 : a - (q + 1) * b = r - b) by (rewrite Ha; ring).
  destruct (2 * r ?= b) eqn:E.
  - apply Z.compare_eq in E.
    destruct (Z.even q); [rewrite H0 | rewrite H1]; lia.
  - rewrite Z.compare_lt_iff in E. rewrite H0. lia.
  - rewrite Z.compare_gt_iff in E. rewrite H1. lia.
Qed.

(** [round(x, 2)] on a float with a fractional part: the float nearest to
    [q / 100], where [q] is an integer nearest to [100 * x]. *)
Lemma round_2_nearest (s : bool) (m : positive) (e : Z) :
  e < 0 ->
  exists q : Z,
    2 * Z.abs (100 * Zpos m - q * 2 ^ (- e)) <= 2 ^ (- e)
    /\ PyFloat.round (S754_finite s m e) 2 =
       match q with
       | Zpos q => PyFloat.div (S754_finite s q 0) (S754_finite false 100 0)
       | _ => S754_zero s
       end.
Proof.
  intros He. exists (PyFloat.div_half_even (Zpos (m * 100)) (2 ^ (- e))).
  split.
  - replace (100 * Zpos m) with (Zpos (m * 100)) by lia.
    apply div_half_even_nearest. apply Z.pow_pos_nonneg; lia.
  - cbn [PyFloat.round].
    replace (0 <=? e) with false by (symmetry; apply Z.leb_gt; lia).
    reflexivity.
Qed.

(** C9: multiple_on_capital never raises; it is 0.0 when raise_amount is
    zero (0.0 or -0.0, whatever the valuation) and otherwise the quotient
    valuation / raise_amount rounded to 2 decimals: a quotient with a
    fractional part m * 2^e (e < 0) becomes the float nearest to n / 100 for
    an integer n nearest to 100 * m * 2^e, and an integral quotient is kept.
    With raise_amount 5,000,000 and valuation 25,000,000 it is 5.0. *)
Theorem multiple_on_capital_spec (d : Deal.t) :
  let quotient := PyFloat.div (Deal.valuation d) (Deal.raise_amount d) in
  Deal.multiple_on_capital d =
  Ok (if PyFloat.eq_zero (Deal.raise_amount d) then PyFloat.of_int 0
      else PyFloat.round quotient 2)
  /\ (forall s m e,
         quotient = S754_finite s m e -> e < 0 ->
         exists n : Z,
           2 * Z.abs (100 * Zpos m - n * 2 ^ (- e)) <= 2 ^ (- e)
           /\ PyFloat.round quotient 2 =
              match n with
              | Zpos n =>
                  PyFloat.div (S754_finite s n 0) (S754_finite false 100 0)
              | _ => S754_zero s
              end)
  /\ (forall s m e,
         quotient = S754_finite s m e -> 0 <= e ->
         PyFloat.round quotient 2 = quotient)
  /\ (forall company sector stage lead_investor co_investors score notes
             assigned_to deal_id created_at updated_at website founder
             contact_email,
         Deal.multiple_on_capital
           (Deal.mk company sector (PyFloat.of_int 5000000)
              (PyFloat.of_int 25000000) stage lead_investor co_investors score
              notes assigned_to deal_id created_at updated_at website founder
              contact_email) = Ok (PyFloat.of_int 5))
  /\ (forall negative : bool,
         Deal.raise_amount d = S754_zero negative ->
         Deal.multiple_on_capital d = Ok (S754_zero false))
  /\ ((forall negative : bool, Deal.raise_amount d <> S754_zero negative) ->
      Deal.multiple_on_capital d = Ok (PyFloat.round quotient 2)).
Proof.
  intros quotient. split; [|split; [|split; [|split; [|split]]]].
  - unfold Deal.multiple_on_capital, PyFloat.truediv.
    now destruct (PyFloat.eq_zero (Deal.raise_amount d)).
  - intros s m e -> He. now apply round_2_nearest.
  - intros s m e -> He. cbn [PyFloat.round].
    now replace (0 <=? e) with true by (symmetry; apply Z.leb_le; lia).
  - reflexivity.
  - intros negative H. unfold Deal.multiple_on_capital. rewrite H.
    reflexivity.
  - intros H. unfold Deal.multiple_on_capital, PyFloat.truediv.
    assert (Hz : PyFloat.eq_zero (Deal.raise_amount d) = false).
    { destruct (Deal.raise_amount d) as [z|z| |z m e];
        [now destruct (H z) | | reflexivity |]; now destruct z. }
    now rewrite Hz.
Qed.

Lemma multiple_on_capital_spec_witness :
  Deal.multiple_on_capital
    (Deal.mk "Beta" "Fintech" (PyFloat.of_int 3) (PyFloat.of_int 10)
       AWARENESS None [] 0 "" None "deal-3" "2025-01-01T09:00:00"
       "2025-01-01T09:00:00" "" "" "") =
  Ok (PyFloat.div (PyFloat.exact 333) (PyFloat.exact 100))
  /\ (exists n : Z,
         2 * Z.abs (100 * 7505999378950827 - n * 2 ^ 51) <= 2 ^ 51
         /\ PyFloat.round (S754_finite false 7505999378950827 (-51)) 2 =
            match n with
            | Zpos n =>
                PyFloat.div (S754_finite false n 0) (S754_finite false 100 0)
            | _ => S754_zero false
            end)
  /\ Deal.multiple_on_capital
       (Deal.mk "Gamma" "AI" (S754_zero false) (PyFloat.of_int 10)
          AWARENESS None [] 0 "" None "deal-4" "2025-01-01T09:00:00"
          "2025-01-01T09:00:00" "" "" "") = Ok (S754_zero false)
  /\ Deal.multiple_on_capital
       (Deal.mk "Delta" "AI" (S754_zero true) (PyFloat.of_int 10)
          AWARENESS None [] 0 "" None "deal-5" "2025-01-01T09:00:00"
          "2025-01-01T09:00:00" "" "" "") = Ok (S754_zero false).
Proof.
  split; [reflexivity|]. split; [|split].
  - refine (proj1 (proj2 (multiple_on_capital_spec
                            (Deal.mk "Beta" "Fintech" (PyFloat.of_int 3)
                               (PyFloat.of_int 10) AWARENESS None [] 0 "" None
                               "deal-3" "2025-01-01T09:00:00"
                               "2025-01-01T09:00:00" "" "" "")))
              false 7505999378950827%positive (-51) eq_refl _).
    lia.
  - exact (proj1 (proj2 (proj2 (proj2 (proj2
             (multiple_on_capital_spec
                (Deal.mk "Gamma" "AI" (S754_zero false) (PyFloat.of_int 10)
                   AWARENESS None [] 0 "" None "deal-4" "2025-01-01T09:00:00"
                   "2025-01-01T09:00:00" "" "" ""))))))
             false eq_refl).
  - exact (proj1 (proj2 (proj2 (proj2 (proj2
             (multiple_on_capital_spec
                (Deal.mk "Delta" "AI" (S754_zero true) (PyFloat.of_int 10)
                   AWARENESS None [] 0 "" None "deal-5" "2025-01-01T09:00:00"
                   "2025-01-01T09:00:00" "" "" ""))))))
             true eq_refl).
Defined.

(** ** Outcomes of the writing operations *)

Lemma advance_stage_used (db : DB) (deal_id : string)
  (new_stage : enum_or_str DealStage)
  (changed_by reason utcnow uuid4 : string) (row : deals.row) :
  select_deal db deal_id = Some row ->
  existsb (fun c => (stage_changes.change_id c =? uuid4)%string)
          (t_stage_changes db) = true ->
  advance_stage deal_id new_stage changed_by reason utcnow uuid4 db =
  (Raise (IntegrityError "UNIQUE constraint failed: stage_changes.change_id"),
   db).
Proof.
  intros Hrow Hused. unfold advance_stage. run_op. rewrite Hrow.
  unfold insert_stage_change.
  cbn [stage_changes.change_id view disk update_deals t_stage_changes].
  now rewrite Hused.
Qed.

Lemma pass_deal_used (db : DB) (deal_id reason passed_by utcnow uuid4 : string)
  (row : deals.row) :
  select_deal db deal_id = Some row ->
  existsb (fun c => (stage_changes.change_id c =? uuid4)%string)
          (t_stage_changes db) = true ->
  pass_deal deal_id reason passed_by utcnow uuid4 db =
  (Raise (IntegrityError "UNIQUE constraint failed: stage_changes.change_id"),
   db).
Proof.
  intros Hrow Hused. unfold pass_deal. run_op. rewrite Hrow.
  unfold insert_stage_change.
  cbn [stage_changes.change_id view disk update_deals t_stage_changes].
  now rewrite Hused.
Qed.

Lemma add_due_diligence_outcome (db : DB) (deal_id : string)
  (category : enum_or_str DDCategory) (findings : list string)
  (red_flags : option (list string)) (rating : Z)
  (reviewer notes uuid4 utcnow1 utcnow2 : string) :
  let r :=
    add_due_diligence deal_id category findings red_flags rating reviewer
      notes uuid4 utcnow1 utcnow2 db in
  (exists e, r = (Raise e, db))
  \/ (has_deal db deal_id = true
      /\ 1 <= rating <= 5
      /\ existsb (fun d => (due_diligence.dd_id d =? uuid4)%string)
                 (t_due_diligence db) = false
      /\ r = (Ok (DueDiligence.mk deal_id category COMPLETE findings
                    (or_empty red_flags) rating reviewer uuid4 utcnow1
                    utcnow2 notes),
              mkDB (t_deals db)
                (t_due_diligence db ++
                 [due_diligence.mk uuid4 deal_id
                    (value_of DDCategory_value category) "complete" findings
                    (or_empty red_flags) rating reviewer notes utcnow1
                    utcnow2])
                (t_stage_changes db) (t_interactions db))).
Proof.
  intros r. unfold r, add_due_diligence. run_op.
  rewrite select_deal_has_deal.
  destruct (select_deal db deal_id) as [row|] eqn:Hrow;
    [|left; now eexists].
  destruct ((1 <=? rating) && (rating <=? 5)) eqn:Hr; cbn [negb];
    [|left; now eexists].
  apply andb_true_iff in Hr as [H1 H5].
  apply Z.leb_le in H1. apply Z.leb_le in H5.
  unfold insert_due_diligence.
  cbn [due_diligence.dd_id due_diligence.deal_id DueDiligence.dd_id
       DueDiligence.created_at DueDiligence.updated_at view disk].
  destruct (existsb _ (t_due_diligence db)); [left; now eexists|].
  rewrite select_deal_has_deal, Hrow. cbn.
  right. repeat split; lia.
Qed.

Lemma log_interaction_outcome (db : DB)
  (deal_id interaction_type description : string)
  (participants : option (list string)) (date : option string)
  (uuid4 utcnow1 utcnow2 : string) :
  let r :=
    log_interaction deal_id interaction_type description participants date
      uuid4 utcnow1 utcnow2 db in
  (exists e, r = (Raise e, db))
  \/ (has_deal db deal_id = true
      /\ existsb (fun i => (interactions.interaction_id i =? uuid4)%string)
                 (t_interactions db) = false
      /\ r = (Ok uuid4,
              mkDB (t_deals db) (t_due_diligence db) (t_stage_changes db)
                (t_interactions db ++
                 [interactions.mk uuid4 deal_id interaction_type description
                    (or_empty participants) (date_or date utcnow1)
                    utcnow2]))).
Proof.
  intros r. unfold r, log_interaction. run_op. unfold insert_interaction.
  cbn [interactions.interaction_id interactions.deal_id].
  destruct (existsb _ (t_interactions db)); [left; now eexists|].
  destruct (has_deal db deal_id); cbn; [|left; now eexists].
  right. repeat split.
Qed.

(** ** What a call commits *)

Lemma perform_commits (c : call) (db : DB) : commits db (perform c db).
Proof.
  destruct c; cbn [perform].
  - match goal with
    | |- commits _ (snd (add_deal ?a ?b ?c ?d ?e ?f ?g ?h ?i ?j ?k ?l ?m _)) =>
        destruct (add_deal_writes a b c d e f g h i j k l m db)
          as [_ [[e' H] | [Hfresh H]]]
    end; rewrite H; cbn [snd]; [constructor|].
    now apply commits_deal.
  - destruct (select_deal db deal_id) as [row|] eqn:Hrow.
    + destruct (existsb (fun c => (stage_changes.change_id c =? uuid4)%string)
                        (t_stage_changes db)) eqn:Hfresh.
      * rewrite (advance_stage_used db deal_id new_stage changed_by reason
                   utcnow uuid4 row Hrow Hfresh). constructor.
      * rewrite (advance_stage_found db deal_id new_stage changed_by reason
                   utcnow uuid4 row Hrow Hfresh).
        cbn [snd]. now apply commits_stage with (row := row).
    + rewrite advance_stage_missing by exact Hrow. constructor.
  - match goal with
    | |- commits _ (snd (add_due_diligence ?a ?b ?c ?d ?e ?f ?g ?h ?i ?j _)) =>
        destruct (add_due_diligence_outcome db a b c d e f g h i j)
          as [[e' H] | (Hdeal & Hr & Hfresh & H)]
    end; rewrite H; cbn [snd]; [constructor|].
    now apply commits_report.
  - destruct (select_deal db deal_id) as [row|] eqn:Hrow.
    + destruct (select_due_diligence db deal_id) as [|d l] eqn:Hdd.
      * rewrite (score_deal_no_reports db deal_id utcnow row Hrow Hdd).
        constructor.
      * rewrite (score_deal_reports db deal_id utcnow row Hrow)
          by (rewrite Hdd; discriminate).
        rewrite Hdd.
        destruct (base_score (d :: l)) as [b|e]; constructor.
    + rewrite score_deal_missing by exact Hrow. constructor.
  - destruct (select_deal db deal_id) as [row|] eqn:Hrow.
    + destruct (existsb (fun c => (stage_changes.change_id c =? uuid4)%string)
                        (t_stage_changes db)) eqn:Hfresh.
      * rewrite (pass_deal_used db deal_id reason passed_by utcnow uuid4 row
                   Hrow Hfresh). constructor.
      * rewrite (pass_deal_found db deal_id reason passed_by utcnow uuid4 row
                   Hrow Hfresh).
        cbn [snd]. now apply commits_stage with (row := row).
    + rewrite pass_deal_missing by exact Hrow. constructor.
  - match goal with
    | |- commits _ (snd (log_interaction ?a ?b ?c ?d ?e ?f ?g ?h _)) =>
        destruct (log_interaction_outcome db a b c d e f g h)
          as [[e' H] | (Hdeal & Hfresh & H)]
    end; rewrite H; cbn [snd]; [constructor|].
    now apply commits_interaction.
  - rewrite get_deal_details_writes. constructor.
Qed.

(** ** Keys and references *)

Lemma has_deal_ext (db1 db2 : DB) (deal_id : string) :
  t_deals db1 = t_deals db2 -> has_deal db1 deal_id = has_deal db2 deal_id.
Proof. unfold has_deal. now intros ->. Qed.

Lemma has_deal_snoc (db : DB) (row : deals.row) (dd : list due_diligence.row)
  (sc : list stage_changes.row) (ia : list interactions.row)
  (deal_id : string) :
  has_deal db deal_id = true ->
  has_deal (mkDB (t_deals db ++ [row]) dd sc ia) deal_id = true.
Proof.
  unfold has_deal. cbn [t_deals]. rewrite existsb_app. now intros ->.
Qed.

Lemma fresh_not_In {A : Type} (key : A -> string) (l : list A) (k : string) :
  existsb (fun x => (key x =? k)%string) l = false -> ~ In k (map key l).
Proof.
  intros H Hin. apply in_map_iff in Hin as (x & Hx & Hin).
  assert (E : existsb (fun x => (key x =? k)%string) l = true).
  { apply existsb_exists. exists x. split; [exact Hin|].
    now apply String.eqb_eq. }
  congruence.
Qed.

Lemma NoDup_snoc_fresh {A : Type} (key : A -> string) (l : list A) (x : A) :
  NoDup (map key l) ->
  existsb (fun y => (key y =? key x)%string) l = false ->
  NoDup (map key (l ++ [x])).
Proof.
  intros Hnd Hfresh. rewrite map_app. cbn [map].
  apply NoDup_app.
  - exact Hnd.
  - constructor; [intros [] | constructor].
  - intros k Hk [<- | []]. now apply (fresh_not_In key l (key x)).
Qed.

Lemma map_key_update_deals (deal_id : string) (set : deals.row -> deals.row)
  (db : DB) :
  (forall r, deals.deal_id (set r) = deals.deal_id r) ->
  map deals.deal_id (t_deals (update_deals deal_id set db)) =
  map deals.deal_id (t_deals db).
Proof.
  intros Hk. cbn [update_deals t_deals]. rewrite map_map.
  apply map_ext. intros r.
  now destruct (deals.deal_id r =? deal_id)%string; [rewrite Hk|].
Qed.

Lemma commits_well_keyed (db db' : DB) :
  commits db db' -> well_keyed db -> well_keyed db'.
Proof.
  intros Hc Hwk. pose proof Hwk as (Hd & Hr & Hs & Hi & Fr & Fs & Fi).
  destruct Hc as [ | row Hfresh Hstage Hscore
                 | deal_id set event row Hrow Hfresh Hev Hold Hk Hnew
                 | r Hdeal Hfresh Hstatus Hrating
                 | deal_id score now
                 | i Hdeal Hfresh ].
  - exact Hwk.
  - unfold well_keyed. cbn [t_deals t_due_diligence t_stage_changes
                            t_interactions].
    split; [now apply NoDup_snoc_fresh|].
    split; [exact Hr|]. split; [exact Hs|]. split; [exact Hi|].
    split; [|split].
    + intros d Hin. destruct (Fr d Hin) as (H1 & H2 & H3).
      split; [now apply has_deal_snoc | now split].
    + intros c Hin. now apply has_deal_snoc, Fs.
    + intros j Hin. now apply has_deal_snoc, Fi.
  - unfold well_keyed. cbn [staged t_deals t_due_diligence t_stage_changes
                            t_interactions].
    assert (Hhas : forall id,
               has_deal (staged deal_id set event db) id = has_deal db id).
    { intros id.
      rewrite (has_deal_ext _ (update_deals deal_id set db)) by reflexivity.
      now apply has_deal_update_deals. }
    split; [now rewrite map_key_update_deals|].
    split; [exact Hr|]. split; [now apply NoDup_snoc_fresh|].
    split; [exact Hi|]. split; [|split].
    + intros d Hin. destruct (Fr d Hin) as (H1 & H2 & H3).
      split; [now rewrite Hhas | now split].
    + intros c Hin. rewrite Hhas.
      apply in_app_or in Hin as [Hin | [<- | []]]; [now apply Fs|].
      now rewrite Hev, select_deal_has_deal, Hrow.
    + intros j Hin. rewrite Hhas. now apply Fi.
  - unfold well_keyed. cbn [t_deals t_due_diligence t_stage_changes
                            t_interactions].
    split; [exact Hd|]. split; [now apply NoDup_snoc_fresh|].
    split; [exact Hs|]. split; [exact Hi|]. split; [|split].
    + intros d Hin.
      rewrite (has_deal_ext _ db) by reflexivity.
      apply in_app_or in Hin as [Hin | [<- | []]]; [now apply Fr|].
      now repeat split.
    + intros c Hin. rewrite (has_deal_ext _ db) by reflexivity.
      now apply Fs.
    + intros j Hin. rewrite (has_deal_ext _ db) by reflexivity.
      now apply Fi.
  - unfold well_keyed.
    assert (Hhas : forall id,
               has_deal (update_deals deal_id (set_score score now) db) id =
               has_deal db id)
      by (intros id; apply has_deal_update_deals, set_score_key).
    rewrite map_key_update_deals by apply set_score_key.
    cbn [update_deals t_due_diligence t_stage_changes t_interactions].
    split; [exact Hd|]. split; [exact Hr|]. split; [exact Hs|].
    split; [exact Hi|]. split; [|split].
    + intros d Hin. destruct (Fr d Hin) as (H1 & H2 & H3).
      split; [|now split].
      now rewrite <- (Hhas (due_diligence.deal_id d)) in H1.
    + intros c Hin. specialize (Fs c Hin).
      now rewrite <- (Hhas (stage_changes.deal_id c)) in Fs.
    + intros j Hin. specialize (Fi j Hin).
      now rewrite <- (Hhas (interactions.deal_id j)) in Fi.
  - unfold well_keyed. cbn [t_deals t_due_diligence t_stage_changes
                            t_interactions].
    split; [exact Hd|]. split; [exact Hr|]. split; [exact Hs|].
    split; [now apply NoDup_snoc_fresh|]. split; [|split].
    + intros d Hin. rewrite (has_deal_ext _ db) by reflexivity.
      now apply Fr.
    + intros c Hin. rewrite (has_deal_ext _ db) by reflexivity.
      now apply Fs.
    + intros j Hin. rewrite (has_deal_ext _ db) by reflexivity.
      apply in_app_or in Hin as [Hin | [<- | []]]; [now apply Fi|].
      exact Hdeal.
Qed.

Lemma well_keyed_empty : well_keyed empty_db.
Proof.
  unfold well_keyed, empty_db. cbn.
  split; [constructor|]. split; [constructor|]. split; [constructor|].
  split; [constructor|]. split; [|split]; intros x [].
Qed.

(** ** The audit trail *)

Lemma replay_snoc (events : list stage_changes.row) (e : stage_changes.row)
  (start current : string) :
  replay start events = Some current ->
  stage_changes.old_stage e = current ->
  replay start (events ++ [e]) = Some (stage_changes.new_stage e).
Proof.
  revert start. induction events as [|x l IH]; intros start H Hold.
  - cbn in *. injection H as <-. now rewrite Hold, String.eqb_refl.
  - cbn [app replay] in *.
    destruct (stage_changes.old_stage x =? start)%string; [|discriminate].
    now apply IH.
Qed.

Lemma select_deal_snoc (db : DB) (row : deals.row) (deal_id : string) :
  select_deal
    (mkDB (t_deals db ++ [row]) (t_due_diligence db) (t_stage_changes db)
          (t_interactions db)) deal_id =
  match select_deal db deal_id with
  | Some r => Some r
  | None => if (deals.deal_id row =? deal_id)%string then Some row else None
  end.
Proof.
  unfold select_deal. cbn [t_deals].
  induction (t_deals db) as [|r l IH]; cbn [find app]; [reflexivity|].
  now destruct (deals.deal_id r =? deal_id)%string.
Qed.

Lemma no_events_without_deal (db : DB) (deal_id : string) :
  well_keyed db -> select_deal db deal_id = None ->
  select_stage_changes db deal_id = []
  /\ select_due_diligence db deal_id = []
  /\ select_interactions db deal_id = [].
Proof.
  intros (_ & _ & _ & _ & Fr & Fs & Fi) Hnone.
  assert (Hno : has_deal db deal_id = false)
    by (now rewrite select_deal_has_deal, Hnone).
  assert (Hnil : forall (A : Type) (key : A -> string) (l : list A),
             (forall x, In x l -> has_deal db (key x) = true) ->
             filter (fun x => (key x =? deal_id)%string) l = []).
  { intros A key l Hall. induction l as [|x l IH]; [reflexivity|].
    cbn [filter]. destruct (key x =? deal_id)%string eqn:E.
    - apply String.eqb_eq in E. specialize (Hall x (or_introl eq_refl)).
      congruence.
    - apply IH. intros y Hy. apply Hall. now right. }
  split; [|split].
  - now apply Hnil.
  - apply Hnil. intros d Hd. now apply Fr.
  - now apply Hnil.
Qed.

Lemma commits_audit_trail (db db' : DB) :
  commits db db' -> well_keyed db -> audit_trail_ok db -> audit_trail_ok db'.
Proof.
  intros Hc Hwk Hok.
  destruct Hc as [ | row Hfresh Hstage Hscore
                 | deal_id set event row Hrow Hfresh Hev Hold Hk Hnew
                 | r Hdeal Hfresh Hstatus Hrating
                 | deal_id score now
                 | i Hdeal Hfresh ]; try exact Hok.
  - intros id r. rewrite select_deal_snoc.
    change (select_stage_changes _ id) with (select_stage_changes db id).
    destruct (select_deal db id) as [r0|] eqn:Hsel.
    + intros E. injection E as <-. now apply Hok.
    + destruct (deals.deal_id row =? id)%string; [|discriminate].
      intros E. injection E as <-.
      destruct (no_events_without_deal db id Hwk Hsel) as [-> _].
      cbn. now rewrite Hstage.
  - intros id r Hsel.
    rewrite (select_deal_ext _ (update_deals deal_id set db)) in Hsel
      by reflexivity.
    rewrite select_deal_update_deals in Hsel by exact Hk.
    destruct (select_deal db id) as [r0|] eqn:Hsel0; [|discriminate].
    cbn in Hsel. injection Hsel as <-.
    pose proof (select_deal_key db id r0 Hsel0) as Hkey.
    unfold select_stage_changes. cbn [staged t_stage_changes].
    rewrite filter_app. cbn [filter]. rewrite Hev, Hkey. clear Hkey.
    rewrite (String.eqb_sym deal_id id).
    destruct (id =? deal_id)%string eqn:E.
    + apply String.eqb_eq in E. subst id.
      rewrite Hnew.
      apply replay_snoc with (current := deals.stage row); [|exact Hold].
      apply Hok. exact Hrow.
    + rewrite app_nil_r. now apply Hok.
  - intros id r0 Hsel.
    rewrite select_deal_update_deals in Hsel by apply set_score_key.
    destruct (select_deal db id) as [r1|] eqn:Hsel0; [|discriminate].
    cbn in Hsel. injection Hsel as <-.
    change (select_stage_changes _ id) with (select_stage_changes db id).
    rewrite (Hok id r1 Hsel0).
    now destruct (deals.deal_id r1 =? deal_id)%string.
Qed.

Lemma reachable_audit_trail (db : DB) :
  reachable db -> well_keyed db /\ audit_trail_ok db.
Proof.
  induction 1 as [|db c _ [IH1 IH2]].
  - split; [exact well_keyed_empty | intros id row H; discriminate H].
  - split.
    + exact (commits_well_keyed db _ (perform_commits c db) IH1).
    + exact (commits_audit_trail db _ (perform_commits c db) IH1 IH2).
Qed.

(** ** Sorting and counting *)

Lemma insert_by_Permutation {A : Type} (le : A -> A -> bool) (x : A)
  (l : list A) : Permutation (insert_by le x l) (x :: l).
Proof.
  induction l as [|y l IH]; cbn [insert_by]; [reflexivity|].
  destruct (le x y); [reflexivity|].
  rewrite IH. apply perm_swap.
Qed.

Lemma order_by_Permutation {A : Type} (le : A -> A -> bool) (l : list A) :
  Permutation (order_by le l) l.
Proof.
  unfold order_by. induction l as [|x l IH]; cbn [fold_right]; [reflexivity|].
  rewrite insert_by_Permutation. now constructor.
Qed.

Section Sorting.
Context {A : Type}.
Variable le : A -> A -> bool.
Hypothesis le_total : forall a b, le a b = true \/ le b a = true.

Lemma insert_by_Sorted (x : A) (l : list A) :
  Sorted (fun a b => le a b = true) l ->
  Sorted (fun a b => le a b = true) (insert_by le x l).
Proof.
  induction l as [|y l IH]; intros Hs; cbn [insert_by].
  - repeat constructor.
  - destruct (le x y) eqn:E.
    + constructor; [exact Hs | now constructor].
    + apply Sorted_inv in Hs as [Hs Hhd].
      constructor; [now apply IH|].
      destruct l as [|z l]; cbn [insert_by].
      * constructor. destruct (le_total x y); congruence.
      * destruct (le x z).
        -- constructor. destruct (le_total x y); congruence.
        -- constructor. now inversion Hhd.
Qed.

Lemma order_by_Sorted (l : list A) :
  Sorted (fun a b => le a b = true) (order_by le l).
Proof.
  unfold order_by. induction l as [|x l IH]; cbn [fold_right].
  - constructor.
  - now apply insert_by_Sorted.
Qed.
End Sorting.

Lemma Permutation_filter {A : Type} (p : A -> bool) (l l' : list A) :
  Permutation l l' -> Permutation (filter p l) (filter p l').
Proof.
  induction 1 as [|x l l' _ IH|x y l|l l' l'' _ IH1 _ IH2]; cbn [filter].
  - constructor.
  - destruct (p x); [now constructor | exact IH].
  - destruct (p x), (p y); try reflexivity. apply perm_swap.
  - now rewrite IH1.
Qed.

Lemma len_Permutation {A : Type} (l l' : list A) :
  Permutation l l' -> len l = len l'.
Proof. unfold len. intros H. now rewrite (Permutation_length H). Qed.

Lemma count_if_Permutation {A : Type} (p : A -> bool) (l l' : list A) :
  Permutation l l' -> count_if p l = count_if p l'.
Proof. intros H. apply len_Permutation. now apply Permutation_filter. Qed.

Lemma created_desc_total (a b : deals.row) :
  String.leb (deals.created_at b) (deals.created_at a) = true
  \/ String.leb (deals.created_at a) (deals.created_at b) = true.
Proof. apply String.leb_total. Qed.

Lemma by_score_then_created_total (a b : deals.row) :
  by_score_then_created a b = true \/ by_score_then_created b a = true.
Proof.
  unfold by_score_then_created.
  destruct (Z.lt_trichotomy (deals.score a) (deals.score b)) as [H | [H | H]].
  - right. apply orb_true_iff. left. now apply Z.ltb_lt.
  - rewrite H, !Z.ltb_irrefl, !Z.eqb_refl. cbn.
    destruct (String.leb_total (deals.created_at b) (deals.created_at a));
      [now left | now right].
  - left. apply orb_true_iff. left. now apply Z.ltb_lt.
Qed.

Lemma by_score_then_created_score (a b : deals.row) :
  by_score_then_created a b = true -> deals.score b <= deals.score a.
Proof.
  unfold by_score_then_created. intros H.
  apply orb_true_iff in H as [H | H].
  - apply Z.ltb_lt in H. lia.
  - apply andb_true_iff in H as [H _]. apply Z.eqb_eq in H. lia.
Qed.

Lemma Sorted_weaken {A : Type} (R R' : A -> A -> Prop) (l : list A) :
  (forall a b, R a b -> R' a b) -> Sorted R l -> Sorted R' l.
Proof.
  intros HR. induction 1 as [|a l _ IH Hhd]; constructor; [exact IH|].
  destruct Hhd; constructor. now apply HR.
Qed.

Lemma score_desc_StronglySorted (l : list deals.row) :
  Sorted (fun a b => deals.score b <= deals.score a) l ->
  StronglySorted (fun a b => deals.score b <= deals.score a) l.
Proof.
  apply Sorted_StronglySorted. intros a b c H1 H2. lia.
Qed.

(** ** Invariants of the databases the operations build *)

Lemma reachable_db_reviewed : reachable db_reviewed.
Proof.
  apply (reachable_call _
           (Call_add_due_diligence "deal-1" (Member MARKET) ["Large TAM"]
              None 5 "VP" "" "dd-2" "2025-01-03T09:00:00"
              "2025-01-03T09:00:00")).
  apply (reachable_call _
           (Call_add_due_diligence "deal-1" (Member TECHNICAL) ["Good tech"]
              None 4 "CTO" "" "dd-1" "2025-01-02T09:00:00"
              "2025-01-02T09:00:00")).
  apply (reachable_call _
           (Call_add_deal "AcmeCo" "SaaS" (PyFloat.of_int 5000000)
              (PyFloat.of_int 25000000) None None "" "" "" "" "deal-1"
              "2025-01-01T09:00:00" "2025-01-01T09:00:00")).
  exact reachable_init.
Qed.

Lemma reachable_db_passed : reachable db_passed.
Proof.
  apply (reachable_call _
           (Call_pass_deal "deal-1" "too expensive" "partner"
              "2025-03-01T09:00:00" "change-2")).
  apply (reachable_call _
           (Call_advance_stage "deal-1" (Member CLOSING) "analyst"
              "skip ahead" "2025-02-01T09:00:00" "change-1")).
  exact reachable_db_reviewed.
Qed.

(** X1: on every database built by the operations the primary keys of the
    four tables are unique, every report, stage change and interaction names
    a deal that exists, and every report has status complete and a rating in
    [1,5]. *)
Theorem reachable_keys_and_references (db : DB) (Hreach : reachable db) :
  well_keyed db.
Proof.
  induction Hreach as [|db c _ IH].
  - exact well_keyed_empty.
  - exact (commits_well_keyed db _ (perform_commits c db) IH).
Qed.

Lemma reachable_keys_and_references_witness :
  reachable db_reviewed
  /\ NoDup (map due_diligence.dd_id (t_due_diligence db_reviewed))
  /\ forall d, In d (t_due_diligence db_reviewed) ->
               due_diligence.status d = "complete".
Proof.
  pose proof (reachable_keys_and_references db_reviewed reachable_db_reviewed)
    as (_ & Hr & _ & _ & Fr & _).
  split; [exact reachable_db_reviewed|]. split; [exact Hr|].
  intros d Hd. now apply Fr.
Defined.

(** X2: on every database built by the operations, the stage-change events
    of a deal, in the order they were written, form a chain: the first
    leaves from awareness, each next one leaves from the stage the one
    before arrived at, and the last one arrives at the deal's current
    stage (awareness when there is no event). *)
Theorem reachable_stage_history_chains (db : DB) (deal_id : string)
  (row : deals.row)
  (Hreach : reachable db)
  (Hdeal : select_deal db deal_id = Some row) :
  replay "awareness" (select_stage_changes db deal_id) =
  Some (deals.stage row).
Proof.
  destruct (reachable_audit_trail db Hreach) as [_ Hok]. now apply Hok.
Qed.

Lemma reachable_stage_history_chains_witness :
  map (fun e => (stage_changes.old_stage e, stage_changes.new_stage e))
      (select_stage_changes db_passed "deal-1") =
  [("awareness", "closing"); ("closing", "passed")]
  /\ replay "awareness" (select_stage_changes db_passed "deal-1") =
     Some "passed".
Proof.
  split; [reflexivity|].
  exact (reachable_stage_history_chains db_passed "deal-1"
           (set_passed "passed" "2025-03-01T09:00:00"
              (newline ++ "[PASSED] too expensive")%string
              (set_stage "closing" "2025-02-01T09:00:00" acme_row))
           reachable_db_passed eq_refl).
Defined.

(** X3: a call that raises leaves the database exactly as it was: no
    operation commits part of its writes.  In particular a stage UPDATE
    whose event INSERT fails is not kept. *)
Theorem raising_call_writes_nothing (c : call) (db : DB) (e : exn)
  (Hraise : call_error c db = Some e) :
  perform c db = db.
Proof.
  destruct c; cbn [call_error perform] in *; unfold error_of in Hraise.
  - match goal with
    | |- snd (add_deal ?a ?b ?c ?d ?e ?f ?g ?h ?i ?j ?k ?l ?m _) = _ =>
        destruct (add_deal_writes a b c d e f g h i j k l m db)
          as [_ [[e' H] | [Hfresh H]]]
    end; rewrite H in *; [reflexivity | discriminate Hraise].
  - destruct (select_deal db deal_id) as [row|] eqn:Hrow.
    + destruct (existsb (fun c => (stage_changes.change_id c =? uuid4)%string)
                        (t_stage_changes db)) eqn:Hfresh.
      * now rewrite (advance_stage_used db deal_id new_stage changed_by reason
                       utcnow uuid4 row Hrow Hfresh).
      * rewrite (advance_stage_found db deal_id new_stage changed_by reason
                   utcnow uuid4 row Hrow Hfresh) in Hraise.
        discriminate Hraise.
    + now rewrite advance_stage_missing by exact Hrow.
  - match goal with
    | |- snd (add_due_diligence ?a ?b ?c ?d ?e ?f ?g ?h ?i ?j _) = _ =>
        destruct (add_due_diligence_outcome db a b c d e f g h i j)
          as [[e' H] | (Hdeal & Hr & Hfresh & H)]
    end; rewrite H in *; [reflexivity | discriminate Hraise].
  - destruct (select_deal db deal_id) as [row|] eqn:Hrow.
    + destruct (select_due_diligence db deal_id) as [|d l] eqn:Hdd.
      * now rewrite (score_deal_no_reports db deal_id utcnow row Hrow Hdd).
      * rewrite (score_deal_reports db deal_id utcnow row Hrow) in *
          by (rewrite Hdd; discriminate).
        rewrite Hdd in *.
        destruct (base_score (d :: l)) as [b|e0];
          [discriminate Hraise | reflexivity].
    + now rewrite score_deal_missing by exact Hrow.
  - destruct (select_deal db deal_id) as [row|] eqn:Hrow.
    + destruct (existsb (fun c => (stage_changes.change_id c =? uuid4)%string)
                        (t_stage_changes db)) eqn:Hfresh.
      * now rewrite (pass_deal_used db deal_id reason passed_by utcnow uuid4
                       row Hrow Hfresh).
      * rewrite (pass_deal_found db deal_id reason passed_by utcnow uuid4 row
                   Hrow Hfresh) in Hraise.
        discriminate Hraise.
    + now rewrite pass_deal_missing by exact Hrow.
  - match goal with
    | |- snd (log_interaction ?a ?b ?c ?d ?e ?f ?g ?h _) = _ =>
        destruct (log_interaction_outcome db a b c d e f g h)
          as [[e' H] | (Hdeal & Hfresh & H)]
    end; rewrite H in *; [reflexivity | discriminate Hraise].
  - apply get_deal_details_writes.
Qed.

Lemma raising_call_writes_nothing_witness :
  let db :=
    snd (advance_stage "deal-1" (Member FIRST_MEETING) "analyst" ""
           "2025-01-10T09:00:00" "change-1" db_acme) in
  let c :=
    Call_advance_stage "deal-1" (Member DEEP_DIVE) "analyst" ""
      "2025-01-11T09:00:00" "change-1" in
  call_error c db =
  Some (IntegrityError "UNIQUE constraint failed: stage_changes.change_id")
  /\ option_map deals.stage (select_deal (perform c db) "deal-1") =
     Some "first_meeting".
Proof.
  cbv zeta. split; [reflexivity|].
  now rewrite (raising_call_writes_nothing
                 (Call_advance_stage "deal-1" (Member DEEP_DIVE) "analyst" ""
                    "2025-01-11T09:00:00" "change-1")
                 (snd (advance_stage "deal-1" (Member FIRST_MEETING) "analyst"
                         "" "2025-01-10T09:00:00" "change-1" db_acme))
                 (IntegrityError
                    "UNIQUE constraint failed: stage_changes.change_id")
                 eq_refl).
Defined.

(** ** Reading a deal back *)

Lemma get_deal_details_eq (db : DB) (deal_id : string) (row : deals.row) :
  select_deal db deal_id = Some row ->
  get_deal_details deal_id db = (Ok (details_of db deal_id row), db).
Proof.
  intros H. unfold get_deal_details. run_op. now rewrite H.
Qed.

(** X4: get_deal_details on an existing deal writes nothing and returns the
    deal's row together with exactly the rows of the three child tables
    that name the deal, each once: the reports by created_at ascending, the
    stage changes by changed_at ascending, the interactions by date
    descending. *)
Theorem get_deal_details_lists_the_deal (db : DB) (deal_id : string)
  (row : deals.row)
  (Hdeal : select_deal db deal_id = Some row) :
  exists d : deal_details,
    get_deal_details deal_id db = (Ok d, db)
    /\ deal d = row
    /\ Permutation (due_diligence_items d)
         (filter (fun x => (due_diligence.deal_id x =? deal_id)%string)
                 (t_due_diligence db))
    /\ Sorted (fun a b => String.leb (due_diligence.created_at a)
                                     (due_diligence.created_at b) = true)
              (due_diligence_items d)
    /\ Permutation (stage_history d)
         (filter (fun x => (stage_changes.deal_id x =? deal_id)%string)
                 (t_stage_changes db))
    /\ Sorted (fun a b => String.leb (stage_changes.changed_at a)
                                     (stage_changes.changed_at b) = true)
              (stage_history d)
    /\ Permutation (interaction_items d)
         (filter (fun x => (interactions.deal_id x =? deal_id)%string)
                 (t_interactions db))
    /\ Sorted (fun a b => String.leb (interactions.date b)
                                     (interactions.date a) = true)
              (interaction_items d).
Proof.
  exists (details_of db deal_id row).
  split; [now apply get_deal_details_eq|]. split; [reflexivity|].
  cbn [details_of due_diligence_items stage_history interaction_items].
  repeat split; try apply order_by_Permutation;
    apply order_by_Sorted; intros a b; apply String.leb_total.
Qed.

Lemma get_deal_details_lists_the_deal_witness :
  exists d : deal_details,
    get_deal_details "deal-1" db_reviewed = (Ok d, db_reviewed)
    /\ map due_diligence.dd_id (due_diligence_items d) = ["dd-1"; "dd-2"].
Proof.
  destruct (get_deal_details_lists_the_deal db_reviewed "deal-1" acme_row
              eq_refl) as (d & Hrun & _).
  exists d. split; [exact Hrun|].
  rewrite (get_deal_details_eq db_reviewed "deal-1" acme_row eq_refl) in Hrun.
  injection Hrun as <-. reflexivity.
Defined.

Lemma details_of_ext (db db' : DB) (deal_id : string) (row : deals.row) :
  select_due_diligence db' deal_id = select_due_diligence db deal_id ->
  select_stage_changes db' deal_id = select_stage_changes db deal_id ->
  select_interactions db' deal_id = select_interactions db deal_id ->
  details_of db' deal_id row = details_of db deal_id row.
Proof. unfold details_of. now intros -> -> ->. Qed.

Lemma filter_snoc_other {A : Type} (key : A -> string) (l : list A) (x : A)
  (k : string) :
  key x <> k ->
  filter (fun y => (key y =? k)%string) (l ++ [x]) =
  filter (fun y => (key y =? k)%string) l.
Proof.
  intros H. rewrite filter_app. cbn [filter].
  apply String.eqb_neq in H. now rewrite H, app_nil_r.
Qed.

Lemma filter_snoc_same {A : Type} (key : A -> string) (l : list A) (x : A) :
  filter (fun y => (key y =? key x)%string) (l ++ [x]) =
  filter (fun y => (key y =? key x)%string) l ++ [x].
Proof. rewrite filter_app. cbn [filter]. now rewrite String.eqb_refl. Qed.

(** X5: a report added to an existing deal (rating in [1,5], generated id
    unused) shows up in get_deal_details of that deal, once, next to the
    reports that were there, with status complete; the deal's own row, its
    score included, its stage history and its interactions read back as
    before, and so do the details of every other deal. *)
Theorem add_due_diligence_reads_back (db : DB) (deal_id : string)
  (category : enum_or_str DDCategory) (findings : list string)
  (red_flags : option (list string)) (rating : Z)
  (reviewer notes uuid4 utcnow1 utcnow2 : string) (row : deals.row)
  (Hdeal : select_deal db deal_id = Some row)
  (Hrating : 1 <= rating <= 5)
  (Hfresh : existsb (fun d => (due_diligence.dd_id d =? uuid4)%string)
                    (t_due_diligence db) = false) :
  let db' :=
    snd (add_due_diligence deal_id category findings red_flags rating
           reviewer notes uuid4 utcnow1 utcnow2 db) in
  let report :=
    due_diligence.mk uuid4 deal_id (value_of DDCategory_value category)
      "complete" findings (or_empty red_flags) rating reviewer notes utcnow1
      utcnow2 in
  exists d d' : deal_details,
    get_deal_details deal_id db = (Ok d, db)
    /\ get_deal_details deal_id db' = (Ok d', db')
    /\ deal d' = row
    /\ Permutation (due_diligence_items d') (report :: due_diligence_items d)
    /\ stage_history d' = stage_history d
    /\ interaction_items d' = interaction_items d
    /\ forall other : string,
        other <> deal_id ->
        fst (get_deal_details other db') = fst (get_deal_details other db).
Proof.
  intros db' report.
  destruct (add_due_diligence_outcome db deal_id category findings red_flags
              rating reviewer notes uuid4 utcnow1 utcnow2)
    as [[e H] | (_ & _ & _ & H)].
  - exfalso. unfold add_due_diligence in H. revert H. run_op. rewrite Hdeal.
    replace ((1 <=? rating) && (rating <=? 5)) with true
      by (symmetry; apply andb_true_iff; split; lia).
    cbn [negb]. unfold insert_due_diligence.
    cbn [due_diligence.dd_id due_diligence.deal_id DueDiligence.dd_id
         DueDiligence.created_at DueDiligence.updated_at view disk].
    rewrite Hfresh, select_deal_has_deal, Hdeal. cbn. discriminate.
  - assert (Hdb' : db' = mkDB (t_deals db) (t_due_diligence db ++ [report])
                           (t_stage_changes db) (t_interactions db))
      by (unfold db'; now rewrite H).
    assert (Hsel : forall id, select_deal db' id = select_deal db id)
      by (intros id; apply select_deal_ext; now rewrite Hdb').
    exists (details_of db deal_id row), (details_of db' deal_id row).
    split; [now apply get_deal_details_eq|].
    split; [apply get_deal_details_eq; now rewrite Hsel|].
    split; [reflexivity|].
    cbn [details_of due_diligence_items stage_history interaction_items].
    split; [|split; [|split]].
    + rewrite !order_by_Permutation. unfold select_due_diligence.
      rewrite Hdb'. cbn [t_due_diligence].
      change deal_id with (due_diligence.deal_id report) at 1.
      rewrite (filter_snoc_same due_diligence.deal_id).
      cbn [due_diligence.deal_id report].
      rewrite Permutation_app_comm. reflexivity.
    + now rewrite Hdb'.
    + now rewrite Hdb'.
    + intros other Hother.
      destruct (select_deal db other) as [r|] eqn:Hr.
      * rewrite (get_deal_details_eq db other r Hr).
        rewrite (get_deal_details_eq db' other r) by now rewrite Hsel.
        cbn [fst]. f_equal. apply details_of_ext; rewrite Hdb'; try reflexivity.
        unfold select_due_diligence. cbn [t_due_diligence].
        apply (filter_snoc_other due_diligence.deal_id). cbn. congruence.
      * rewrite !get_deal_details_missing; [reflexivity | exact Hr |].
        now rewrite Hsel.
Qed.

Lemma add_due_diligence_reads_back_witness :
  exists d' : deal_details,
    fst (get_deal_details "deal-1"
           (snd (add_due_diligence "deal-1" (Member TEAM) ["Strong founders"]
                   (Some ["Solo founder"]) 3 "GP" "" "dd-3"
                   "2025-01-05T09:00:00" "2025-01-05T09:00:00" db_reviewed))) =
    Ok d'
    /\ List.length (due_diligence_items d') = 3%nat
    /\ deals.score (deal d') = 0.
Proof.
  destruct (add_due_diligence_reads_back db_reviewed "deal-1" (Member TEAM)
              ["Strong founders"] (Some ["Solo founder"]) 3 "GP" "" "dd-3"
              "2025-01-05T09:00:00" "2025-01-05T09:00:00" acme_row eq_refl
              ltac:(lia) eq_refl)
    as (d & d' & Hd & Hd' & Hrow & Hperm & _).
  exists d'. rewrite Hd'. split; [reflexivity|]. split.
  - rewrite (Permutation_length Hperm).
    rewrite (get_deal_details_eq db_reviewed "deal-1" acme_row eq_refl) in Hd.
    injection Hd as <-. reflexivity.
  - now rewrite Hrow.
Defined.

Lemma log_interaction_found (db : DB)
  (deal_id interaction_type description : string)
  (participants : option (list string)) (date : option string)
  (uuid4 utcnow1 utcnow2 : string) (row : deals.row) :
  select_deal db deal_id = Some row ->
  existsb (fun i => (interactions.interaction_id i =? uuid4)%string)
          (t_interactions db) = false ->
  log_interaction deal_id interaction_type description participants date
    uuid4 utcnow1 utcnow2 db =
  (Ok uuid4,
   mkDB (t_deals db) (t_due_diligence db) (t_stage_changes db)
     (t_interactions db ++
      [interactions.mk uuid4 deal_id interaction_type description
         (or_empty participants) (date_or date utcnow1) utcnow2])).
Proof.
  intros Hrow Hfresh. unfold log_interaction. run_op.
  unfold insert_interaction.
  cbn [interactions.interaction_id interactions.deal_id].
  now rewrite Hfresh, select_deal_has_deal, Hrow.
Qed.

(** X6: log_interaction on an existing deal (generated id unused) returns
    the generated id and appends exactly one interaction; a date that is
    None or the empty string is replaced by the first 10 characters of the
    current timestamp, and participants that are None by the empty list.
    get_deal_details of the deal then lists the interaction, once, next to
    the earlier ones, and nothing else it reads has changed. *)
Theorem log_interaction_reads_back (db : DB)
  (deal_id interaction_type description : string)
  (participants : option (list string)) (date : option string)
  (uuid4 utcnow1 utcnow2 : string) (row : deals.row)
  (Hdeal : select_deal db deal_id = Some row)
  (Hfresh : existsb (fun i => (interactions.interaction_id i =? uuid4)%string)
                    (t_interactions db) = false) :
  let logged :=
    interactions.mk uuid4 deal_id interaction_type description
      (match participants with Some p => p | None => [] end)
      (match date with
       | None | Some "" => substring 0 10 utcnow1
       | Some d => d
       end)
      utcnow2 in
  let db' :=
    mkDB (t_deals db) (t_due_diligence db) (t_stage_changes db)
         (t_interactions db ++ [logged]) in
  log_interaction deal_id interaction_type description participants date
    uuid4 utcnow1 utcnow2 db = (Ok uuid4, db')
  /\ exists d d' : deal_details,
      get_deal_details deal_id db = (Ok d, db)
      /\ get_deal_details deal_id db' = (Ok d', db')
      /\ Permutation (interaction_items d') (logged :: interaction_items d)
      /\ deal d' = deal d
      /\ due_diligence_items d' = due_diligence_items d
      /\ stage_history d' = stage_history d.
Proof.
  intros logged db'.
  assert (Hlogged : logged =
                    interactions.mk uuid4 deal_id interaction_type description
                      (or_empty participants) (date_or date utcnow1) utcnow2).
  { unfold logged, or_empty, date_or.
    now destruct participants, date as [[|c s]|]. }
  split.
  - unfold db'. rewrite Hlogged. now apply log_interaction_found with (row := row).
  - exists (details_of db deal_id row), (details_of db' deal_id row).
    split; [now apply get_deal_details_eq|].
    split; [now apply get_deal_details_eq|].
    cbn [details_of deal due_diligence_items stage_history interaction_items].
    repeat split.
    rewrite !order_by_Permutation. unfold select_interactions, db'.
    cbn [t_interactions].
    change deal_id with (interactions.deal_id logged) at 1.
    rewrite (filter_snoc_same interactions.deal_id).
    cbn [interactions.deal_id logged].
    rewrite Permutation_app_comm. reflexivity.
Qed.

Lemma log_interaction_reads_back_witness :
  log_interaction "deal-1" "call" "Intro call with founders"
    (Some ["Partner A"; "CEO"]) (Some "") "interaction-1"
    "2025-01-15T10:30:00" "2025-01-15T10:30:01" db_acme =
  (Ok "interaction-1",
   mkDB (t_deals db_acme) [] []
     [interactions.mk "interaction-1" "deal-1" "call"
        "Intro call with founders" ["Partner A"; "CEO"] "2025-01-15"
        "2025-01-15T10:30:01"]).
Proof.
  exact (proj1 (log_interaction_reads_back db_acme "deal-1" "call"
                  "Intro call with founders" (Some ["Partner A"; "CEO"])
                  (Some "") "interaction-1" "2025-01-15T10:30:00"
                  "2025-01-15T10:30:01" acme_row eq_refl eq_refl)).
Defined.

(** X7: on a database built by the operations, a deal that add_deal has
    just created reads back through get_deal_details as the row that was
    inserted (stage awareness, score 0, no co-investors, the fields of the
    call, an amount -0.0 read back as 0.0 from its REAL column), with no
    report, no stage change and no interaction. *)
Theorem add_deal_reads_back (company sector : string)
  (raise_amount valuation : PyFloat.float)
  (lead_investor assigned_to : option string)
  (notes founder contact_email website uuid4 utcnow1 utcnow2 : string)
  (db : DB) (created : Deal.t)
  (Hreach : reachable db)
  (Hcreated :
     fst (add_deal company sector raise_amount valuation lead_investor
            assigned_to notes founder contact_email website uuid4 utcnow1
            utcnow2 db) = Ok created) :
  let db' :=
    snd (add_deal company sector raise_amount valuation lead_investor
           assigned_to notes founder contact_email website uuid4 utcnow1
           utcnow2 db) in
  let read_back (x : PyFloat.float) :=
    match x with
    | S754_zero _ => S754_zero false
    | _ => x
    end in
  get_deal_details (Deal.deal_id created) db' =
  (Ok (mk_details
         (deals.mk uuid4 company sector (read_back raise_amount)
            (read_back valuation) "awareness" lead_investor [] 0 notes
            assigned_to website founder contact_email utcnow1 utcnow2)
         [] [] []),
   db')
  /\ Deal.deal_id created = uuid4.
Proof.
  intros db' read_back. unfold db'. clear db'.
  destruct (add_deal_writes company sector raise_amount valuation
              lead_investor assigned_to notes founder contact_email website
              uuid4 utcnow1 utcnow2 db) as [_ [[e H] | [Hfresh H]]];
    rewrite H in *; cbn [fst snd] in *; [discriminate Hcreated|].
  injection Hcreated as <-. cbn [Deal.deal_id]. split; [|reflexivity].
  set (row := deals.mk uuid4 company sector (read_back raise_amount)
                (read_back valuation) "awareness" lead_investor [] 0 notes
                assigned_to website founder contact_email utcnow1 utcnow2).
  change (real_affinity raise_amount) with (read_back raise_amount).
  change (real_affinity valuation) with (read_back valuation).
  fold row.
  rewrite (get_deal_details_eq _ uuid4 row)
    by (apply (select_deal_new db row); exact Hfresh).
  f_equal. f_equal.
  destruct (reachable_audit_trail db Hreach) as [Hwk _].
  assert (Hnone : select_deal db uuid4 = None).
  { rewrite select_deal_has_deal in Hfresh.
    now destruct (select_deal db uuid4). }
  destruct (no_events_without_deal db uuid4 Hwk Hnone) as (H1 & H2 & H3).
  unfold details_of.
  change (select_due_diligence _ uuid4) with (select_due_diligence db uuid4).
  change (select_stage_changes _ uuid4) with (select_stage_changes db uuid4).
  change (select_interactions _ uuid4) with (select_interactions db uuid4).
  now rewrite H1, H2, H3.
Qed.

Lemma add_deal_reads_back_witness :
  fst (get_deal_details "deal-2"
         (snd (add_deal "Beta" "Fintech" (PyFloat.of_int 1000000)
                 (S754_zero true) (Some "Lead VC") None "warm intro"
                 "Ada" "ada@beta.io" "beta.io" "deal-2" "2025-02-01T09:00:00"
                 "2025-02-01T09:00:00" db_reviewed))) =
  Ok (mk_details
        (deals.mk "deal-2" "Beta" "Fintech" (PyFloat.of_int 1000000)
           (S754_zero false) "awareness" (Some "Lead VC") [] 0
           "warm intro" None "beta.io" "Ada" "ada@beta.io"
           "2025-02-01T09:00:00" "2025-02-01T09:00:00")
        [] [] []).
Proof.
  pose proof (add_deal_reads_back "Beta" "Fintech" (PyFloat.of_int 1000000)
                (S754_zero true) (Some "Lead VC") None "warm intro"
                "Ada" "ada@beta.io" "beta.io" "deal-2" "2025-02-01T09:00:00"
                "2025-02-01T09:00:00" db_reviewed _ reachable_db_reviewed
                eq_refl) as [H _].
  cbv zeta in H. cbn [Deal.deal_id] in H. now rewrite H.
Defined.

(** ** Listing deals *)

Lemma filter_on_spec (value : option string) (s : string) :
  filter_on value s = true <->
  (forall v, value = Some v -> v <> "" -> s = v).
Proof.
  destruct value as [[|c w]|]; cbn [filter_on].
  - split; [|reflexivity]. intros _ v E Hv. injection E as <-. now elim Hv.
  - rewrite String.eqb_eq. split.
    + intros -> v E _. now injection E.
    + intros H. apply H; [reflexivity | discriminate].
  - split; [|reflexivity]. intros _ v E. discriminate E.
Qed.

Lemma fits_int64_spec (z : Z) :
  fits_int64 z = true <-> - 2 ^ 63 <= z < 2 ^ 63.
Proof. unfold fits_int64. rewrite andb_true_iff, Z.leb_le, Z.ltb_lt. tauto. Qed.

Lemma list_deals_eq (stage sector : option string) (min_score : Z) (db : DB) :
  - 2 ^ 63 <= min_score < 2 ^ 63 ->
  list_deals stage sector min_score db =
  (Ok (order_by by_score_then_created
         (filter (fun r =>
                    (min_score <=? deals.score r)
                    && filter_on stage (deals.stage r)
                    && filter_on sector (deals.sector r))
                 (t_deals db))), db).
Proof.
  intros H. apply fits_int64_spec in H. unfold list_deals.
  now rewrite H.
Qed.

Lemma list_deals_overflow (stage sector : option string) (min_score : Z)
  (db : DB) :
  min_score < - 2 ^ 63 \/ 2 ^ 63 <= min_score ->
  list_deals stage sector min_score db =
  (Raise (OverflowError "Python int too large to convert to SQLite INTEGER"),
   db).
Proof.
  intros H. unfold list_deals.
  destruct (fits_int64 min_score) eqn:E; [|reflexivity].
  apply fits_int64_spec in E. lia.
Qed.

(** X8: with a min_score that fits a signed 64-bit integer, list_deals
    writes nothing and returns exactly the deals whose score is at least
    min_score and whose stage and sector equal the given ones, each as often
    as it is in the table; a stage or sector that is None or the empty
    string filters nothing.  The rows come by score descending, equal scores
    by created_at descending.  With any other min_score the call raises
    OverflowError, as the parameter cannot be bound, and writes nothing. *)
Theorem list_deals_filters_and_sorts (stage sector : option string)
  (min_score : Z) (db : DB) :
  (- 2 ^ 63 <= min_score < 2 ^ 63 ->
   exists rows : list deals.row,
     list_deals stage sector min_score db = (Ok rows, db)
     /\ (forall r,
            In r rows <->
            In r (t_deals db)
            /\ min_score <= deals.score r
            /\ (forall s, stage = Some s -> s <> "" -> deals.stage r = s)
            /\ (forall s, sector = Some s -> s <> "" -> deals.sector r = s))
     /\ Permutation rows
          (filter (fun r =>
                     (min_score <=? deals.score r)
                     && match stage with
                        | Some (String c s) =>
                            (deals.stage r =? String c s)%string
                        | _ => true
                        end
                     && match sector with
                        | Some (String c s) =>
                            (deals.sector r =? String c s)%string
                        | _ => true
                        end)
                  (t_deals db))
     /\ Sorted (fun a b =>
                  deals.score b < deals.score a
                  \/ (deals.score a = deals.score b
                      /\ String.leb (deals.created_at b) (deals.created_at a)
                         = true))
               rows
     /\ StronglySorted (fun a b => deals.score b <= deals.score a) rows)
  /\ (min_score < - 2 ^ 63 \/ 2 ^ 63 <= min_score ->
      list_deals stage sector min_score db =
      (Raise
         (OverflowError "Python int too large to convert to SQLite INTEGER"),
       db)).
Proof.
  split; [|apply list_deals_overflow].
  intros Hfits.
  eexists. split; [now apply list_deals_eq|].
  set (p := fun r => (min_score <=? deals.score r)
                     && filter_on stage (deals.stage r)
                     && filter_on sector (deals.sector r)).
  pose proof (order_by_Permutation by_score_then_created
                (filter p (t_deals db))) as Hperm.
  pose proof (order_by_Sorted by_score_then_created
                by_score_then_created_total (filter p (t_deals db))) as Hs.
  split; [|split; [exact Hperm|split]].
  - intros r.
    assert (Hp : p r = true <->
                 min_score <= deals.score r
                 /\ (forall s, stage = Some s -> s <> "" -> deals.stage r = s)
                 /\ (forall s, sector = Some s -> s <> "" ->
                                deals.sector r = s)).
    { unfold p. rewrite !andb_true_iff, Z.leb_le, !filter_on_spec. tauto. }
    split.
    + intros Hr. apply (Permutation_in _ Hperm), filter_In in Hr. tauto.
    + intros Hr. apply (Permutation_in _ (Permutation_sym Hperm)), filter_In.
      tauto.
  - eapply Sorted_weaken; [|exact Hs]. cbn beta. intros a b H.
    unfold by_score_then_created in H.
    apply orb_true_iff in H as [H | H].
    + left. now apply Z.ltb_lt.
    + apply andb_true_iff in H as [H1 H2]. right.
      split; [now apply Z.eqb_eq | exact H2].
  - apply score_desc_StronglySorted.
    eapply Sorted_weaken; [|exact Hs].
    intros a b. apply by_score_then_created_score.
Qed.

Lemma list_deals_filters_and_sorts_witness :
  let db :=
    snd (score_deal "deal-1" "2025-01-04T09:00:00"
           (snd (add_deal "Beta" "Fintech" (PyFloat.of_int 1000000)
                   (PyFloat.of_int 4000000) None None "" "" "" "" "deal-2"
                   "2025-02-01T09:00:00" "2025-02-01T09:00:00"
                   db_reviewed))) in
  map deals.company (match fst (list_deals None (Some "") 0 db) with
                     | Ok rows => rows
                     | Raise _ => []
                     end) = ["AcmeCo"; "Beta"]
  /\ map deals.company (match fst (list_deals None (Some "Fintech") 0 db) with
                        | Ok rows => rows
                        | Raise _ => []
                        end) = ["Beta"]
  /\ (exists rows,
         list_deals (Some "awareness") None 50 db = (Ok rows, db)
         /\ forall r, In r rows -> 50 <= deals.score r)
  /\ list_deals None None (2 ^ 64) db =
     (Raise
        (OverflowError "Python int too large to convert to SQLite INTEGER"),
      db).
Proof.
  cbv zeta. split; [reflexivity|]. split; [reflexivity|]. split.
  - match goal with
    | |- exists rows, list_deals ?s ?t ?m ?db = _ /\ _ =>
        destruct (proj1 (list_deals_filters_and_sorts s t m db))
          as (rows & Hrun & Hin & _); [lia|]
    end.
    exists rows. split; [exact Hrun|].
    intros r Hr. apply Hin in Hr. exact (proj1 (proj2 Hr)).
  - match goal with
    | |- list_deals ?s ?t ?m ?db = _ =>
        apply (proj2 (list_deals_filters_and_sorts s t m db))
    end.
    right. lia.
Defined.

(** X9: on a database built by the operations, list_deals without filters
    and with min_score at most 0 (its default is 0) and not below -2^63
    returns every deal. *)
Theorem list_deals_default_lists_all (min_score : Z) (db : DB)
  (Hreach : reachable db)
  (Hmin : - 2 ^ 63 <= min_score <= 0) :
  exists rows : list deals.row,
    list_deals None None min_score db = (Ok rows, db)
    /\ Permutation rows (t_deals db).
Proof.
  eexists. split; [apply list_deals_eq; lia|].
  rewrite order_by_Permutation.
  destruct (reachable_inv db Hreach) as [Hs _].
  cbn [filter_on].
  assert (E : forall l : list deals.row,
             (forall r, In r l -> 0 <= deals.score r) ->
             filter (fun r => (min_score <=? deals.score r) && true && true) l
             = l).
  { induction l as [|r l IH]; intros H; [reflexivity|]. cbn [filter].
    replace (min_score <=? deals.score r) with true
      by (symmetry; apply Z.leb_le; specialize (H r (or_introl eq_refl)); lia).
    cbn. f_equal. apply IH. intros x Hx. apply H. now right. }
  rewrite E; [reflexivity|]. intros r Hr. now apply Hs.
Qed.

Lemma list_deals_default_lists_all_witness :
  exists rows : list deals.row,
    list_deals None None 0 db_reviewed = (Ok rows, db_reviewed)
    /\ Permutation rows (t_deals db_reviewed).
Proof.
  apply (list_deals_default_lists_all 0 db_reviewed reachable_db_reviewed).
  lia.
Defined.

(** ** The pipeline report *)

Lemma pipeline_report_eq (sum_floats : list PyFloat.float -> number)
  (utcnow : string) (db : DB) :
  exists rep : pipeline.report,
    pipeline_report sum_floats utcnow db = (Ok rep, db)
    /\ let deals := order_by by_created_desc (t_deals db) in
       pipeline.generated_at rep = utcnow
       /\ pipeline.total_deals rep = len deals
       /\ pipeline.active_pipeline rep =
          count_if (fun d => negb ((deals.stage d =? "passed")%string
                                   || (deals.stage d =? "portfolio")%string))
                   deals
       /\ pipeline.portfolio_companies rep =
          count_if (fun d => (deals.stage d =? "portfolio")%string) deals
       /\ pipeline.passed_deals rep =
          count_if (fun d => (deals.stage d =? "passed")%string) deals
       /\ pipeline.total_pipeline_value rep =
          sum_floats
            (map deals.raise_amount
               (filter (fun d => negb (deals.stage d =? "passed")%string)
                       deals))
       /\ (forall stage,
              pipeline.by_stage rep stage =
              let stage_deals :=
                filter (fun d => (deals.stage d
                                  =? DealStage_value stage)%string) deals in
              stage_summary.mk (len stage_deals)
                (sum_floats (map deals.raise_amount stage_deals)) stage_deals)
       /\ pipeline.top_scored rep =
          firstn 5 (sorted_by_score_desc
                      (filter (fun d => 0 <? deals.score d) deals)).
Proof.
  eexists. split; [reflexivity|]. cbv zeta. repeat split.
Qed.

Lemma count_partition (l : list deals.row) :
  len l =
  count_if (fun d => negb ((deals.stage d =? "passed")%string
                           || (deals.stage d =? "portfolio")%string)) l
  + count_if (fun d => (deals.stage d =? "portfolio")%string) l
  + count_if (fun d => (deals.stage d =? "passed")%string) l.
Proof.
  unfold count_if, len.
  induction l as [|d l IH]; [reflexivity|]. cbn [filter List.length].
  destruct (String.eqb_spec (deals.stage d) "passed") as [E|E].
  - rewrite E. cbn [String.eqb Ascii.eqb Bool.eqb orb negb List.length].
    cbn. cbn [List.length]. lia.
  - destruct (deals.stage d =? "portfolio")%string;
      cbn [orb negb List.length]; lia.
Qed.

(** X10: in the pipeline report every deal is counted once among active,
    portfolio and passed: total_deals = active_pipeline +
    portfolio_companies + passed_deals; total_deals is the number of rows
    of the deals table and the report writes nothing. *)
Theorem pipeline_report_counts_add_up
  (sum_floats : list PyFloat.float -> number) (utcnow : string) (db : DB) :
  exists rep : pipeline.report,
    pipeline_report sum_floats utcnow db = (Ok rep, db)
    /\ pipeline.total_deals rep = len (t_deals db)
    /\ pipeline.total_deals rep =
       pipeline.active_pipeline rep + pipeline.portfolio_companies rep
       + pipeline.passed_deals rep.
Proof.
  destruct (pipeline_report_eq sum_floats utcnow db)
    as (rep & Hrun & _ & Htotal & Hactive & Hport & Hpassed & _).
  exists rep. split; [exact Hrun|].
  rewrite Htotal, Hactive, Hport, Hpassed. split.
  - apply len_Permutation, order_by_Permutation.
  - apply count_partition.
Qed.

Lemma DealStage_value_inj (s t : DealStage) :
  DealStage_value s = DealStage_value t -> s = t.
Proof. destruct s, t; cbn; intros H; try reflexivity; discriminate H. Qed.

(** How many of the eight buckets a row with stage [s] falls in. *)
Lemma buckets_of_stage (s : string) :
  fold_right Z.add 0
    (map (fun m => if (s =? DealStage_value m)%string then 1 else 0)
         DealStage_members) =
  if known_stage s then 1 else 0.
Proof.
  unfold known_stage, DealStage_members. cbn [map fold_right existsb].
  cbn [DealStage_value].
  repeat match goal with
         | |- context [(s =? ?v)%string] =>
             destruct (String.eqb_spec s v) as [->|?]; [reflexivity|]
         end.
  reflexivity.
Qed.

Lemma bucket_counts_sum (l : list deals.row) :
  fold_right Z.add 0
    (map (fun m => count_if (fun d => (deals.stage d
                                       =? DealStage_value m)%string) l)
         DealStage_members) =
  count_if (fun d => known_stage (deals.stage d)) l.
Proof.
  induction l as [|d l IH]; [reflexivity|].
  transitivity
    (fold_right Z.add 0
       (map (fun m => if (deals.stage d =? DealStage_value m)%string
                      then 1 else 0) DealStage_members)
     + fold_right Z.add 0
         (map (fun m => count_if (fun d => (deals.stage d
                                            =? DealStage_value m)%string) l)
              DealStage_members)).
  - unfold DealStage_members, count_if, len. cbn [map fold_right filter].
    repeat match goal with
           | |- context [(deals.stage d =? ?v)%string] =>
               destruct (deals.stage d =? v)%string
           end; cbn [List.length]; lia.
  - rewrite IH, buckets_of_stage. unfold count_if, len. cbn [filter].
    destruct (known_stage (deals.stage d)); cbn [List.length]; lia.
Qed.

(** X11: by_stage has one entry per member of DealStage, also for a stage
    no deal is in; an entry holds exactly the deals whose stage string is
    that member's value and their number.  The eight counts add up to the
    number of deals whose stage is a DealStage value: a deal that
    advance_stage moved to any other string is in no entry, though
    total_deals counts it. *)
Theorem pipeline_report_by_stage
  (sum_floats : list PyFloat.float -> number) (utcnow : string) (db : DB) :
  exists rep : pipeline.report,
    pipeline_report sum_floats utcnow db = (Ok rep, db)
    /\ (forall stage : DealStage,
           let entry := pipeline.by_stage rep stage in
           stage_summary.count entry = len (stage_summary.deals entry)
           /\ Permutation (stage_summary.deals entry)
                (filter (fun d => (deals.stage d
                                   =? DealStage_value stage)%string)
                        (t_deals db)))
    /\ fold_right Z.add 0
         (map (fun stage => stage_summary.count (pipeline.by_stage rep stage))
              DealStage_members)
       + count_if (fun d => negb (known_stage (deals.stage d))) (t_deals db)
       = pipeline.total_deals rep.
Proof.
  destruct (pipeline_report_eq sum_floats utcnow db)
    as (rep & Hrun & _ & Htotal & _ & _ & _ & _ & Hby & _).
  exists rep. split; [exact Hrun|]. split.
  - intros stage. cbv zeta. rewrite Hby. cbv zeta.
    cbn [stage_summary.count stage_summary.deals stage_summary.total_raise].
    repeat split. apply Permutation_filter, order_by_Permutation.
  - rewrite Htotal.
    rewrite (map_ext _ (fun m => count_if
                          (fun d => (deals.stage d
                                     =? DealStage_value m)%string)
                          (order_by by_created_desc (t_deals db))))
      by (intros m; now rewrite Hby).
    rewrite bucket_counts_sum.
    rewrite (count_if_Permutation _ _ _ (order_by_Permutation _ (t_deals db))).
    rewrite (len_Permutation _ _ (order_by_Permutation _ (t_deals db))).
    clear Hrun Htotal Hby. unfold count_if, len.
    induction (t_deals db) as [|d l IH]; [reflexivity|].
    cbn [filter]. destruct (known_stage (deals.stage d));
      cbn [negb List.length]; lia.
Qed.

(** X12: top_scored holds at most five deals, all with a positive score,
    highest score first, and no deal it leaves out (of those with a
    positive score) has a higher score than one it holds. *)
Theorem pipeline_report_top_scored
  (sum_floats : list PyFloat.float -> number) (utcnow : string) (db : DB) :
  exists (rep : pipeline.report) (rest : list deals.row),
    pipeline_report sum_floats utcnow db = (Ok rep, db)
    /\ (List.length (pipeline.top_scored rep) <= 5)%nat
    /\ Permutation (pipeline.top_scored rep ++ rest)
         (filter (fun d => 0 <? deals.score d) (t_deals db))
    /\ (forall d, In d (pipeline.top_scored rep) -> 0 < deals.score d)
    /\ StronglySorted (fun a b => deals.score b <= deals.score a)
         (pipeline.top_scored rep)
    /\ (forall a b, In a (pipeline.top_scored rep) -> In b rest ->
                    deals.score b <= deals.score a)
    /\ (rest <> [] -> List.length (pipeline.top_scored rep) = 5%nat).
Proof.
  destruct (pipeline_report_eq sum_floats utcnow db)
    as (rep & Hrun & _ & _ & _ & _ & _ & _ & _ & Htop).
  cbv zeta in Htop.
  set (positive := filter (fun d => 0 <? deals.score d)
                          (order_by by_created_desc (t_deals db))) in *.
  set (sorted := sorted_by_score_desc positive) in *.
  exists rep, (skipn 5 sorted). split; [exact Hrun|]. rewrite Htop.
  assert (Hperm : Permutation sorted
                    (filter (fun d => 0 <? deals.score d) (t_deals db))).
  { unfold sorted, sorted_by_score_desc. rewrite order_by_Permutation.
    apply Permutation_filter, order_by_Permutation. }
  assert (Hss : StronglySorted (fun a b => deals.score b <= deals.score a)
                               sorted).
  { apply score_desc_StronglySorted.
    eapply Sorted_weaken;
      [|apply (order_by_Sorted (fun a b => deals.score b <=? deals.score a))].
    - cbn beta. intros a b H. now apply Z.leb_le.
    - intros a b. destruct (Z.le_ge_cases (deals.score b) (deals.score a));
        [left | right]; now apply Z.leb_le. }
  split; [apply firstn_le_length|].
  split; [now rewrite firstn_skipn|].
  split.
  { intros d Hd.
    assert (Hin : In d sorted).
    { rewrite <- (firstn_skipn 5 sorted). apply in_or_app. now left. }
    apply (Permutation_in _ Hperm), filter_In in Hin as [_ Hin].
    now apply Z.ltb_lt. }
  assert (Hfull : skipn 5 sorted <> [] ->
                  List.length (firstn 5 sorted) = 5%nat).
  { intros Hrest. rewrite length_firstn.
    destruct (Nat.le_gt_cases (List.length sorted) 5) as [H | H]; [|lia].
    exfalso. apply Hrest. now apply skipn_all2. }
  rewrite <- (firstn_skipn 5 sorted) in Hss.
  clear Hperm Htop. revert Hss Hfull.
  generalize (skipn 5 sorted) as tl. generalize (firstn 5 sorted) as hd.
  intros hd tl Hss Hfull. split; [|split; [|exact Hfull]].
  - clear Hfull. induction hd as [|x hd IH]; [constructor|].
    cbn [app] in Hss. apply StronglySorted_inv in Hss as [Hss Hall].
    constructor; [now apply IH|].
    apply Forall_forall. intros y Hy.
    apply (proj1 (Forall_forall _ _) Hall). apply in_or_app. now left.
  - clear Hfull. induction hd as [|x hd IH]; intros a b Ha Hb; [destruct Ha|].
    cbn [app] in Hss. apply StronglySorted_inv in Hss as [Hss Hall].
    destruct Ha as [<- | Ha]; [|now apply (IH Hss)].
    apply (proj1 (Forall_forall _ _) Hall). apply in_or_app. now right.
Qed.

(** ** A pass seen by the pipeline report *)

Lemma update_other_rows (deal_id : string) (set : deals.row -> deals.row)
  (l : list deals.row) :
  ~ In deal_id (map deals.deal_id l) ->
  map (fun r => if (deals.deal_id r =? deal_id)%string then set r else r) l
  = l.
Proof.
  induction l as [|a l IH]; intros Hnot; [reflexivity|]. cbn [map] in *.
  destruct (String.eqb_spec (deals.deal_id a) deal_id) as [E|E].
  - exfalso. apply Hnot. now left.
  - f_equal. apply IH. intros H. apply Hnot. now right.
Qed.

Lemma count_if_update (p : deals.row -> bool) (deal_id : string)
  (set : deals.row -> deals.row) (l : list deals.row) (row : deals.row) :
  NoDup (map deals.deal_id l) ->
  find (fun r => (deals.deal_id r =? deal_id)%string) l = Some row ->
  count_if p
    (map (fun r => if (deals.deal_id r =? deal_id)%string then set r else r)
         l)
  = count_if p l - Z.b2z (p row) + Z.b2z (p (set row)).
Proof.
  induction l as [|a l IH]; intros Hnd Hfind; [discriminate Hfind|].
  cbn [map find] in *. apply NoDup_cons_iff in Hnd as [Hnot Hnd].
  destruct (String.eqb_spec (deals.deal_id a) deal_id) as [E|E].
  - injection Hfind as <-. rewrite <- E.
    rewrite (update_other_rows _ set l Hnot).
    unfold count_if, len. cbn [filter].
    destruct (p a), (p (set a)); cbn [List.length Z.b2z]; lia.
  - specialize (IH Hnd Hfind). unfold count_if, len in *. cbn [filter].
    destruct (p a); cbn [List.length]; lia.
Qed.

(** X13: on a database built by the operations, a pass that succeeds moves
    exactly one deal in the next pipeline report: the total stays, the
    deal leaves the count it was in (active or portfolio) and passed_deals
    grows by one, unless the deal was passed already, when no count
    changes. *)
Theorem pass_deal_moves_one_deal
  (sum_floats : list PyFloat.float -> number)
  (deal_id reason passed_by utcnow uuid4 t1 t2 : string) (db db' : DB)
  (row : deals.row) (rep rep' : pipeline.report)
  (Hreach : reachable db)
  (Hrow : select_deal db deal_id = Some row)
  (Hpass : pass_deal deal_id reason passed_by utcnow uuid4 db = (Ok true, db'))
  (Hrep : pipeline_report sum_floats t1 db = (Ok rep, db))
  (Hrep' : pipeline_report sum_floats t2 db' = (Ok rep', db')) :
  let was s := (deals.stage row =? s)%string in
  pipeline.total_deals rep' = pipeline.total_deals rep
  /\ pipeline.passed_deals rep' =
     pipeline.passed_deals rep + (if was "passed" then 0 else 1)
  /\ pipeline.portfolio_companies rep' =
     pipeline.portfolio_companies rep - (if was "portfolio" then 1 else 0)
  /\ pipeline.active_pipeline rep' =
     pipeline.active_pipeline rep
     - (if was "passed" || was "portfolio" then 0 else 1).
Proof.
  destruct (existsb (fun c => (stage_changes.change_id c =? uuid4)%string)
                    (t_stage_changes db)) eqn:Hfresh.
  { rewrite (pass_deal_used _ _ _ _ _ _ _ Hrow Hfresh) in Hpass.
    discriminate Hpass. }
  rewrite (pass_deal_found _ _ _ _ _ _ _ Hrow Hfresh) in Hpass.
  injection Hpass as Hdb.
  destruct (pipeline_report_eq sum_floats t1 db)
    as (r & Hr & _ & Ht & Ha & Hp & Hx & _).
  rewrite Hr in Hrep. injection Hrep as ->.
  destruct (pipeline_report_eq sum_floats t2 db')
    as (r' & Hr' & _ & Ht' & Ha' & Hp' & Hx' & _).
  rewrite Hr' in Hrep'. injection Hrep' as ->.
  cbv zeta in *. rewrite Ht, Ha, Hp, Hx, Ht', Ha', Hp', Hx'.
  clear Ht Ha Hp Hx Ht' Ha' Hp' Hx' Hr Hr'.
  rewrite (len_Permutation _ _ (order_by_Permutation _ _)).
  rewrite (len_Permutation _ _ (order_by_Permutation _ (t_deals db))).
  rewrite !(count_if_Permutation _ _ _ (order_by_Permutation _ _)).
  subst db'. cbn [staged t_deals update_deals].
  pose proof (reachable_audit_trail db Hreach) as [(Hnd & _) _].
  unfold select_deal in Hrow.
  rewrite !(count_if_update _ deal_id _ _ row Hnd Hrow).
  cbn [set_passed deals.stage]. unfold len. rewrite length_map.
  change ("passed" =? "passed")%string with true.
  change ("passed" =? "portfolio")%string with false.
  cbn [orb negb Z.b2z].
  destruct (deals.stage row =? "passed")%string eqn:E1;
    destruct (deals.stage row =? "portfolio")%string eqn:E2;
    cbn [orb negb Z.b2z]; repeat split; lia.
Qed.

Lemma pass_deal_moves_one_deal_witness :
  exists rep rep' : pipeline.report,
    pipeline.total_deals rep' = pipeline.total_deals rep
    /\ pipeline.passed_deals rep' = pipeline.passed_deals rep + 1
    /\ pipeline.portfolio_companies rep' = pipeline.portfolio_companies rep - 0
    /\ pipeline.active_pipeline rep' = pipeline.active_pipeline rep - 1.
Proof.
  eexists. eexists.
  exact (pass_deal_moves_one_deal sum_floats_left "deal-1" "too expensive"
           "partner" "2025-03-01T09:00:00" "change-1" "2025-03-01T08:00:00"
           "2025-03-02T08:00:00" db_reviewed _ acme_row _ _
           reachable_db_reviewed eq_refl eq_refl eq_refl eq_refl).
Defined.

(** ** The score as a function of the reports *)

Lemma sum_Permutation (l l' : list Z) : Permutation l l' -> sum l = sum l'.
Proof.
  induction 1 as [|x l l' _ IH|x y l|l l' l'' _ IH1 _ IH2].
  - reflexivity.
  - now rewrite !sum_cons, IH.
  - rewrite !sum_cons. lia.
  - now rewrite IH1.
Qed.

Lemma count_distinct_Permutation (l l' : list string) :
  Permutation l l' -> count_distinct l = count_distinct l'.
Proof.
  intros H. unfold count_distinct. f_equal. apply Permutation_length.
  apply NoDup_Permutation; try apply NoDup_nodup.
  intros x. rewrite !nodup_In.
  split; apply Permutation_in; [exact H | now apply Permutation_sym].
Qed.

Lemma total_rating_Permutation (l l' : list due_diligence.row) :
  Permutation l l' -> total_rating l = total_rating l'.
Proof.
  intros H. unfold total_rating.
  now apply sum_Permutation, Permutation_map, Permutation_filter.
Qed.

Lemma base_score_Permutation (l l' : list due_diligence.row) :
  Permutation l l' -> base_score l = base_score l'.
Proof.
  intros H. unfold base_score, avg_rating.
  rewrite (total_rating_Permutation _ _ H), (Permutation_length H).
  destruct l as [|a l], l' as [|a' l']; try reflexivity.
  - now apply Permutation_nil_cons in H.
  - apply Permutation_sym in H. now apply Permutation_nil_cons in H.
Qed.

Lemma penalty_Permutation (l l' : list due_diligence.row) :
  Permutation l l' -> penalty l = penalty l'.
Proof.
  intros H. unfold penalty, total_red_flags.
  now rewrite (sum_Permutation _ _ (Permutation_map _ H)).
Qed.

Lemma coverage_bonus_Permutation (l l' : list due_diligence.row) :
  Permutation l l' -> coverage_bonus l = coverage_bonus l'.
Proof.
  intros H. unfold coverage_bonus, categories_covered.
  now rewrite (count_distinct_Permutation _ _ (Permutation_map _ H)).
Qed.

(** X14: the score does not depend on the order in which the store returns
    the reports (the SELECT has no ORDER BY): on two databases with the
    same deals whose report tables hold the same rows in any order,
    score_deal returns the same result and persists the same deals. *)
Theorem score_deal_order_independent (deal_id utcnow : string) (db db' : DB)
  (Hdeals : t_deals db = t_deals db')
  (Hreports : Permutation (t_due_diligence db) (t_due_diligence db')) :
  fst (score_deal deal_id utcnow db) = fst (score_deal deal_id utcnow db')
  /\ t_deals (snd (score_deal deal_id utcnow db)) =
     t_deals (snd (score_deal deal_id utcnow db')).
Proof.
  assert (Hsel : Permutation (select_due_diligence db deal_id)
                             (select_due_diligence db' deal_id)).
  { unfold select_due_diligence. now apply Permutation_filter. }
  pose proof (select_deal_ext db db' deal_id Hdeals) as Hrow.
  destruct (select_deal db deal_id) as [row|] eqn:E.
  - symmetry in Hrow.
    destruct (select_due_diligence db deal_id) as [|d l] eqn:Edd.
    + apply Permutation_nil in Hsel.
      rewrite (score_deal_no_reports db _ _ _ E Edd).
      rewrite (score_deal_no_reports db' _ _ _ Hrow Hsel).
      now split.
    + assert (Hne : select_due_diligence db deal_id <> [])
        by (rewrite Edd; discriminate).
      assert (Hne' : select_due_diligence db' deal_id <> []).
      { intros H. rewrite H in Hsel. apply Permutation_sym in Hsel.
        now apply Permutation_nil in Hsel. }
      rewrite (score_deal_reports db _ _ _ E Hne).
      rewrite (score_deal_reports db' _ _ _ Hrow Hne').
      rewrite Edd in *. cbv zeta.
      rewrite (base_score_Permutation _ _ Hsel),
        (penalty_Permutation _ _ Hsel), (coverage_bonus_Permutation _ _ Hsel).
      destruct (base_score (select_due_diligence db' deal_id)) as [b|e];
        cbn [fst snd]; [|now split].
      split; [reflexivity|]. cbn [update_deals t_deals]. now rewrite Hdeals.
  - unfold score_deal. run_op. rewrite E, <- Hrow. cbn [fst snd]. now split.
Qed.

Lemma score_deal_order_independent_witness :
  fst (score_deal "deal-1" "2025-03-01T09:00:00" db_reviewed) =
  fst (score_deal "deal-1" "2025-03-01T09:00:00"
         (mkDB (t_deals db_reviewed) (rev (t_due_diligence db_reviewed))
               (t_stage_changes db_reviewed) (t_interactions db_reviewed))).
Proof.
  apply (score_deal_order_independent "deal-1" "2025-03-01T09:00:00"
           db_reviewed
           (mkDB (t_deals db_reviewed) (rev (t_due_diligence db_reviewed))
                 (t_stage_changes db_reviewed) (t_interactions db_reviewed))
           eq_refl).
  cbn [t_due_diligence]. apply Permutation_rev.
Defined.

(** X15: scoring again without a new report returns the same score and
    leaves the same score on the deal: a second score_deal, on the database
    the first one left, agrees with the first. *)
Theorem score_deal_again (deal_id utcnow1 utcnow2 : string) (db : DB) :
  let first := score_deal deal_id utcnow1 db in
  let second := score_deal deal_id utcnow2 (snd first) in
  fst second = fst first
  /\ persisted_score (snd second) deal_id
     = persisted_score (snd first) deal_id.
Proof.
  cbv zeta. unfold persisted_score.
  destruct (select_deal db deal_id) as [row|] eqn:E.
  - destruct (select_due_diligence db deal_id) as [|d l] eqn:Edd.
    + rewrite (score_deal_no_reports db _ utcnow1 _ E Edd). cbn [snd fst].
      now rewrite (score_deal_no_reports db _ utcnow2 _ E Edd).
    + assert (Hne : select_due_diligence db deal_id <> [])
        by (rewrite Edd; discriminate).
      rewrite (score_deal_reports db _ utcnow1 _ E Hne).
      destruct (base_score (select_due_diligence db deal_id)) as [b|e] eqn:Eb;
        cbn [fst snd].
      * cbv zeta. cbn [fst snd].
        set (score := clamp _ 0 100).
        assert (Hrow' : select_deal
                          (update_deals deal_id (set_score score utcnow1) db)
                          deal_id = Some (set_score score utcnow1 row)).
        { apply select_deal_updated; [apply set_score_key | exact E]. }
        assert (Hdd' : select_due_diligence
                         (update_deals deal_id (set_score score utcnow1) db)
                         deal_id = select_due_diligence db deal_id)
          by now apply select_due_diligence_ext.
        rewrite (score_deal_reports _ _ utcnow2 _ Hrow')
          by (rewrite Hdd'; exact Hne).
        rewrite Hdd', Eb. cbv zeta. cbn [fst snd]. fold score.
        split; [reflexivity|].
        rewrite (select_deal_updated _ _ _ _ (set_score_key _ _) Hrow').
        now rewrite Hrow'.
      * now rewrite (score_deal_reports db _ utcnow2 _ E Hne), Eb.
  - assert (H : score_deal deal_id utcnow1 db = (Raise (not_found deal_id), db))
      by (unfold score_deal; run_op; now rewrite E).
    assert (H' : score_deal deal_id utcnow2 db = (Raise (not_found deal_id), db))
      by (unfold score_deal; run_op; now rewrite E).
    rewrite H. cbn [fst snd]. rewrite H'. now split.
Qed.

(** ** Sector analysis *)

Lemma sector_analysis_eq (sql_avg : list Z -> PyFloat.float)
  (sql_sum : list PyFloat.float -> PyFloat.float) (db : DB) :
  sector_analysis sql_avg sql_sum db =
  (Ok (map (fun sector =>
              let group := filter (fun d => (deals.sector d =? sector)%string)
                                  (t_deals db) in
              (sector,
               sector_summary.mk (len group)
                 (rounded_avg (sql_avg (map deals.score group)))
                 (sql_sum (map deals.raise_amount group))))
           (order_by String.leb
              (nodup string_dec (map deals.sector (t_deals db))))),
   db).
Proof. reflexivity. Qed.

Lemma one_key_matches (s : string) (ks : list string) :
  NoDup ks -> In s ks ->
  fold_right Z.add 0 (map (fun k => Z.b2z (s =? k)%string) ks) = 1.
Proof.
  induction 1 as [|k ks Hnot Hnd IH]; intros Hin; [destruct Hin|].
  cbn [map fold_right]. destruct (String.eqb_spec s k) as [->|Hne].
  - assert (H0 : fold_right Z.add 0
                   (map (fun k' => Z.b2z (k =? k')%string) ks) = 0).
    { clear IH Hin Hnd. induction ks as [|k' ks IH]; [reflexivity|].
      cbn [map fold_right].
      destruct (String.eqb_spec k k') as [->|_].
      - exfalso. apply Hnot. now left.
      - rewrite IH; [reflexivity|]. intros H. apply Hnot. now right. }
    rewrite H0. reflexivity.
  - destruct Hin as [->|Hin]; [congruence|]. now rewrite (IH Hin).
Qed.

Lemma group_counts_sum (ks : list string) (l : list deals.row) :
  NoDup ks -> (forall d, In d l -> In (deals.sector d) ks) ->
  fold_right Z.add 0
    (map (fun k => count_if (fun d => (deals.sector d =? k)%string) l) ks)
  = len l.
Proof.
  intros Hnd. induction l as [|d l IH]; intros Hin.
  - clear. induction ks as [|k ks IH]; [reflexivity|].
    cbn [map fold_right]. now rewrite IH.
  - transitivity
      (fold_right Z.add 0
         (map (fun k => Z.b2z (deals.sector d =? k)%string) ks)
       + fold_right Z.add 0
           (map (fun k => count_if (fun d => (deals.sector d =? k)%string) l)
                ks)).
    + clear. induction ks as [|k ks IH]; [reflexivity|].
      cbn [map fold_right]. rewrite IH. unfold count_if, len. cbn [filter].
      destruct (deals.sector d =? k)%string; cbn [List.length Z.b2z]; lia.
    + rewrite IH by (intros d' Hd'; apply Hin; now right).
      rewrite (one_key_matches _ _ Hnd) by (apply Hin; now left).
      unfold len. cbn [List.length]. lia.
Qed.

(** X16: sector_analysis has one entry per sector that some deal has: the
    sectors of the entries are distinct, every deal's sector is among them,
    an entry counts the deals of its sector (so at least one), and the
    counts add up to the number of deals. *)
Theorem sector_analysis_groups (sql_avg : list Z -> PyFloat.float)
  (sql_sum : list PyFloat.float -> PyFloat.float) (db : DB) :
  exists rows : list (string * sector_summary.t),
    sector_analysis sql_avg sql_sum db = (Ok rows, db)
    /\ NoDup (map fst rows)
    /\ (forall d, In d (t_deals db) -> In (deals.sector d) (map fst rows))
    /\ (forall sector entry, In (sector, entry) rows ->
          1 <= sector_summary.count entry
          /\ sector_summary.count entry =
             count_if (fun d => (deals.sector d =? sector)%string)
                      (t_deals db))
    /\ fold_right Z.add 0
         (map (fun row => sector_summary.count (snd row)) rows)
       = len (t_deals db).
Proof.
  eexists. split; [apply sector_analysis_eq|].
  set (keys := order_by String.leb
                 (nodup string_dec (map deals.sector (t_deals db)))).
  assert (Hperm : Permutation keys
                    (nodup string_dec (map deals.sector (t_deals db))))
    by apply order_by_Permutation.
  assert (Hnd : NoDup keys).
  { apply (Permutation_NoDup (Permutation_sym Hperm)), NoDup_nodup. }
  assert (Hall : forall d, In d (t_deals db) -> In (deals.sector d) keys).
  { intros d Hd. apply (Permutation_in _ (Permutation_sym Hperm)).
    apply nodup_In. now apply in_map. }
  rewrite !map_map. cbn [fst snd sector_summary.count].
  rewrite map_id. repeat split.
  - exact Hnd.
  - exact Hall.
  - apply in_map_iff in H as (k & [= <- <-] & Hk).
    cbn [sector_summary.count].
    apply (Permutation_in _ Hperm), nodup_In, in_map_iff in Hk
      as (d & <- & Hd).
    unfold len.
    assert (Hin : In d (filter (fun d0 => (deals.sector d0
                                           =? deals.sector d)%string)
                               (t_deals db))).
    { apply filter_In. split; [exact Hd | apply String.eqb_refl]. }
    destruct (filter _ (t_deals db)); [destruct Hin | cbn [List.length]; lia].
  - apply in_map_iff in H as (k & [= <- <-] & Hk). reflexivity.
  - now apply group_counts_sum.
Qed.
